(** * write_firmware.py: flasher image assembly and USB flashing sessions

    A shallow embedding of [host/lib/write_firmware.py].  Python 2 [str]
    values (text and raw bytes alike) are [string]s, Python integers are
    [Z], and the calls into the [tools], [fdt] and [output] collaborators
    are operations of a small state-and-exception monad over a [world]
    that records what the operator and the hardware would observe. *)

From Stdlib Require Import ZArith String Ascii List Bool Lia.
From Stdlib Require HexString.
Import ListNotations.

Open Scope list_scope.
Open Scope string_scope.
Open Scope Z_scope.

(** ** Python built-ins the module relies on *)

Module Py.

(** [len(s)] *)
Definition len (s : string) : Z := Z.of_nat (String.length s).

(** [s * n] for a one-character string repeated [n] times
    (a negative count gives the empty string). *)
Fixpoint replicate (c : ascii) (n : nat) : string :=
  match n with
  | O => ""
  | S n' => String c (replicate c n')
  end.

Definition str_mul (c : ascii) (n : Z) : string := replicate c (Z.to_nat n).

(** Lower-case hexadecimal digits of the magnitude of [n]. *)
Definition hex_digits (n : Z) : string :=
  match n with
  | Z0 => "0"
  | Zpos p => HexString.Raw.of_pos p ""
  | Zneg p => HexString.Raw.of_pos p ""
  end.

(** ['%x' % n] with the optional [#] flag and an optional zero-padded
    field width: [fmt_x false 8] is ['%08x'], [fmt_x true 0] is ['%#x'],
    [fmt_x true 8] is ['%#08x'].  The width counts the sign and the
    [0x] prefix; the zeros go between the prefix and the digits. *)
Definition fmt_x (alt : bool) (width : nat) (n : Z) : string :=
  let sign := if n <? 0 then "-" else "" in
  let prefix := if alt then "0x" else "" in
  let digits := hex_digits n in
  let used := (String.length sign + String.length prefix
               + String.length digits)%nat in
  sign ++ prefix ++ replicate "0" (width - used) ++ digits.

(** [sub in s] *)
Fixpoint contains (sub s : string) : bool :=
  String.prefix sub s
  || match s with
     | "" => false
     | String _ s' => contains sub s'
     end.

(** [len(re.findall(pat, s))] for a pattern without metacharacters:
    the number of non-overlapping occurrences found scanning from the
    left.  [skip] counts characters still covered by the last match. *)
Fixpoint findall_from (pat : string) (skip : nat) (s : string) : nat :=
  match s with
  | "" => O
  | String _ s' =>
      match skip with
      | S k => findall_from pat k s'
      | O =>
          if String.prefix pat s
          then S (findall_from pat (String.length pat - 1) s')
          else findall_from pat 0 s'
      end
  end.

Definition findall_count (pat s : string) : Z :=
  Z.of_nat (findall_from pat 0 s).

(** [re.sub(pat, repl, s)] for a pattern without metacharacters and a
    replacement without backslashes. *)
Fixpoint sub_from (pat repl : string) (skip : nat) (s : string) : string :=
  match s with
  | "" => ""
  | String c s' =>
      match skip with
      | S k => sub_from pat repl k s'
      | O =>
          if String.prefix pat s
          then repl ++ sub_from pat repl (String.length pat - 1) s'
          else String c (sub_from pat repl 0 s')
      end
  end.

Definition re_sub (pat repl s : string) : string := sub_from pat repl 0 s.

(** [s[start:start+n]] for [0 <= start] and [0 <= n]. *)
Definition slice (start n : Z) (s : string) : string :=
  String.substring (Z.to_nat start) (Z.to_nat n) s.

Definition LF : ascii := "010"%char.
Definition CR : ascii := "013"%char.

(** [s.splitlines()] on a byte string: lines end at [\n], [\r] or
    [\r\n]; the terminators are dropped. *)
Fixpoint splitlines_from (cur : string) (after_cr : bool) (s : string)
  : list string :=
  match s with
  | "" => if String.eqb cur "" then [] else [cur]
  | String c s' =>
      if Ascii.eqb c CR then cur :: splitlines_from "" true s'
      else if Ascii.eqb c LF then
        if after_cr then splitlines_from cur false s'
        else cur :: splitlines_from "" false s'
      else splitlines_from (cur ++ String c "") false s'
  end.

Definition splitlines (s : string) : list string :=
  splitlines_from "" false s.

Definition is_upper (c : ascii) : bool :=
  ((65 <=? nat_of_ascii c) && (nat_of_ascii c <=? 90))%nat.

Definition is_lower (c : ascii) : bool :=
  ((97 <=? nat_of_ascii c) && (nat_of_ascii c <=? 122))%nat.

Definition is_alpha (c : ascii) : bool := is_upper c || is_lower c.

(** [s.lower()] *)
Fixpoint lower (s : string) : string :=
  match s with
  | "" => ""
  | String c s' =>
      String (if is_upper c then ascii_of_nat (nat_of_ascii c + 32) else c)
             (lower s')
  end.

(** [os.path.join(a, b)] for a relative second component. *)
Fixpoint ends_with_slash (s : string) : bool :=
  match s with
  | "" => false
  | String c "" => Ascii.eqb c "/"
  | String _ s' => ends_with_slash s'
  end.

Definition path_join (a b : string) : string :=
  if String.eqb a "" then b
  else if ends_with_slash a then a ++ b
  else a ++ "/" ++ b.

End Py.

(** ** [RoundUp] *)

(** [(value + boundary - 1) & ~(boundary - 1)] on unbounded integers. *)
Definition RoundUp (value boundary : Z) : Z :=
  Z.land (value + boundary - 1) (Z.lnot (boundary - 1)).

(** ** [binascii.crc32] *)

Module binascii.

(** One bit of the reflected CRC-32 (polynomial [0xEDB88320]). *)
Definition crc_bit (crc : Z) : Z :=
  if Z.testbit crc 0 then Z.lxor (Z.shiftr crc 1) 0xEDB88320
  else Z.shiftr crc 1.

Definition crc_byte (crc : Z) (c : ascii) : Z :=
  Nat.iter 8 crc_bit (Z.lxor crc (Z.of_N (N_of_ascii c))).

Fixpoint crc_update (crc : Z) (s : string) : Z :=
  match s with
  | "" => crc
  | String c s' => crc_update (crc_byte crc c) s'
  end.

Definition crc32_unsigned (s : string) : Z :=
  Z.lxor (crc_update 0xFFFFFFFF s) 0xFFFFFFFF.

(** Python 2 returns the CRC as a signed 32-bit integer. *)
Definition crc32 (s : string) : Z :=
  let u := crc32_unsigned s in
  if 0x80000000 <=? u then u - 0x100000000 else u.

End binascii.

(** ** The world outside the module *)

Inductive exn : Type :=
| CmdError (msg : string)
| ValueError (msg : string)
| NameError (name : string)
| IOError (path : string)
| KeyError (key : string)
| IndexError.

Inductive event : Type :=
| EvProgress (msg : string) (arg : option bool)
| EvNotice (msg : string)
| EvRun (cmd : string) (args : list string) (sudo : bool)
| EvSleep (ms : Z)
| EvOutputSize (label path : string)
| EvFdtCopy (path : string)
| EvFdtPutString (path node prop value : string).

(** What an external command answers: its output, or the text of the
    [CmdError] that [tools.Run] raises. *)
Inductive reply : Type :=
| Done (stdout : string)
| Failed (msg : string).

(** [trace] is what has been reported and executed so far, oldest first;
    [files] is the file system; [replies n] is the answer to the [n]-th
    external command of the session and [nruns] counts those issued. *)
Record world : Type := World {
  trace : list event;
  files : string -> option string;
  replies : nat -> reply;
  nruns : nat
}.

Inductive result (A : Type) : Type :=
| Ok (a : A)
| Raise (e : exn).
Arguments Ok {A} a.
Arguments Raise {A} e.

Definition M (A : Type) : Type := world -> result A * world.

Definition ret {A} (a : A) : M A := fun w => (Ok a, w).

Definition raise {A} (e : exn) : M A := fun w => (Raise e, w).

Definition bind {A B} (m : M A) (k : A -> M B) : M B :=
  fun w =>
    match m w with
    | (Ok a, w') => k a w'
    | (Raise e, w') => (Raise e, w')
    end.

Notation "x <- m ;; k" := (bind m (fun x => k))
  (at level 61, m at next level, right associativity).
Notation "m ;; k" := (bind m (fun _ => k))
  (at level 61, right associativity).

(** [try: body  except CmdError as err: handler(str(err))] *)
Definition try_except_CmdError {A} (body : M A) (handler : string -> M A)
  : M A :=
  fun w =>
    match body w with
    | (Raise (CmdError msg), w') => handler msg w'
    | other => other
    end.

(** [try: body  finally: final]; an exception of [final] replaces
    whatever [body] produced. *)
Definition try_finally {A} (body : M A) (final : M unit) : M A :=
  fun w =>
    match body w with
    | (r, w') =>
        match final w' with
        | (Ok _, w'') => (r, w'')
        | (Raise e, w'') => (Raise e, w'')
        end
    end.

Definition emit (e : event) : M unit :=
  fun w => (Ok tt, World (trace w ++ [e]) (files w) (replies w) (nruns w)).

Definition write (path data : string) : M unit :=
  fun w =>
    (Ok tt,
     World (trace w)
           (fun p => if String.eqb p path then Some data else files w p)
           (replies w) (nruns w)).

(** [time.sleep(seconds)], the duration kept in milliseconds. *)
Definition time_sleep (ms : Z) : M unit := emit (EvSleep ms).

(** The [tools] object. *)
Module Tools.

Record t : Type := Make { outdir : string }.

(** [tools.Run(cmd, args, sudo)]: the output of the command, or
    [CmdError]. *)
Definition Run (cmd : string) (args : list string) (sudo : bool)
  : M string :=
  fun w =>
    let w' := World (trace w ++ [EvRun cmd args sudo]) (files w) (replies w)
                    (S (nruns w)) in
    match replies w (nruns w) with
    | Done out => (Ok out, w')
    | Failed msg => (Raise (CmdError msg), w')
    end.

Definition ReadFile (path : string) : M string :=
  fun w =>
    match files w path with
    | Some data => (Ok data, w)
    | None => (Raise (IOError path), w)
    end.

Definition WriteFile (path data : string) : M unit := write path data.

Definition OutputSize (label path : string) : M unit :=
  emit (EvOutputSize label path).

End Tools.

(** The [output] object. *)
Module Output.

Record t : Type := Make { stdout_is_tty : bool }.

Definition Progress (msg : string) : M unit := emit (EvProgress msg None).

Definition Progress2 (msg : string) (arg : bool) : M unit :=
  emit (EvProgress msg (Some arg)).

Definition Notice (msg : string) : M unit := emit (EvNotice msg).

End Output.

(** The [fdt] object: the parsed device description and the way its
    flattened file changes when a string property is set. *)
Module Fdt.

Record t : Type := Make {
  fname : string;
  ints : string -> string -> Z;
  strings : string -> string -> option string;
  blob : string;
  blob_with : string -> string -> string -> string
}.

Definition GetInt (fdt : t) (node prop : string) : Z := ints fdt node prop.

Definition GetString (fdt : t) (node prop default : string) : string :=
  match strings fdt node prop with
  | Some s => s
  | None => default
  end.

(** [fdt.Copy(path)]: a new object over a copy of the file. *)
Definition Copy (fdt : t) (path : string) : M t :=
  emit (EvFdtCopy path) ;;
  write path (blob fdt) ;;
  ret (Make path (ints fdt) (strings fdt) (blob fdt) (blob_with fdt)).

(** [fdt.PutString(node, prop, value)]: rewrites the file. *)
Definition PutString (fdt : t) (node prop value : string) : M unit :=
  emit (EvFdtPutString (fname fdt) node prop value) ;;
  write (fname fdt) (blob_with fdt node prop value).

End Fdt.

(** ** The [WriteFirmware] class *)

Module WriteFirmware.

(** The attributes [__init__] sets up. *)
Record t : Type := Make {
  _tools : Tools.t;
  _fdt : Fdt.t;
  _out : Output.t;
  text_base : Z;
  update : bool;
  verify : bool
}.

Definition __init__ (tools : Tools.t) (fdt : Fdt.t) (output : Output.t) : t :=
  Make tools fdt output (Fdt.GetInt fdt "/chromeos-config" "textbase")
       true false.

Definition replace_me : string := "zsHEXYla".

(** The double-quote character of the U-Boot command strings. *)
Definition dq : string := String "034"%char "".

(** The list [cmds] that [_GetFlashScript] builds before joining it. *)
Definition _GetFlashScript_cmds (payload_size : Z) (update verify : bool)
    (boot_type : string) (checksum : Z) (bus : string) : list string :=
  let page_size := if String.eqb boot_type "sdmmc" then 512 else 4096 in
  let update := if negb (String.eqb boot_type "spi") then false else update in
  let cmds :=
    [ "setenv address       0x" ++ replace_me;
      "setenv firmware_size " ++ Py.fmt_x true 0 payload_size;
      "setenv length        "
        ++ Py.fmt_x true 0 (RoundUp payload_size page_size);
      "setenv blocks   "
        ++ Py.fmt_x true 0 (RoundUp payload_size page_size / page_size);
      "setenv _crc    " ++ dq ++ "crc32 -v ${address} ${firmware_size} "
        ++ Py.fmt_x true 8 checksum ++ dq;
      "setenv _clear  " ++ dq
        ++ "echo Clearing RAM; mw.b     ${address} 0 ${length}" ++ dq ] in
  let cmds :=
    if String.eqb boot_type "nand" then
      (app cmds
       [ "setenv _init   " ++ dq ++ "echo Init NAND;  nand info" ++ dq;
         "setenv _erase  " ++ dq
           ++ "echo Erase NAND; nand erase            0 ${length}" ++ dq;
         "setenv _write  " ++ dq
           ++ "echo Write NAND; nand write ${address} 0 ${length}" ++ dq;
         "setenv _read   " ++ dq
           ++ "echo Read NAND;  nand read  ${address} 0 ${length}" ++ dq ])
    else if String.eqb boot_type "sdmmc" then
      (app cmds
       [ "setenv _init   " ++ dq ++ "echo Init EMMC;  mmc rescan            0"
           ++ dq;
         "setenv _erase  " ++ dq ++ "echo Erase EMMC; " ++ dq;
         "setenv _write  " ++ dq ++ "echo Write EMMC; mmc write 0 ${address} 0 "
           ++ "${blocks} boot1" ++ dq;
         "setenv _read   " ++ dq ++ "echo Read EMMC;  mmc read 0 ${address} 0 "
           ++ "${blocks} boot1" ++ dq ])
    else
      (app cmds
       [ "setenv _init   " ++ dq ++ "echo Init SPI;   sf probe            "
           ++ bus ++ dq;
         "setenv _erase  " ++ dq
           ++ "echo Erase SPI;  sf erase            0 ${length}" ++ dq;
         "setenv _write  " ++ dq
           ++ "echo Write SPI;  sf write ${address} 0 ${length}" ++ dq;
         "setenv _read   " ++ dq
           ++ "echo Read SPI;   sf read  ${address} 0 ${length}" ++ dq;
         "setenv _update " ++ dq
           ++ "echo Update SPI; sf update ${address} 0 ${length}" ++ dq ])
  in
  let cmds :=
    (app cmds
     [ "echo Firmware loaded to ${address}, size ${firmware_size}, "
         ++ "length ${length}";
       "if run _crc; then";
       "run _init" ]) in
  let cmds :=
    if update then (app cmds ["time run _update"])
    else (app cmds ["run _erase"; "run _write"]) in
  let cmds :=
    if verify then (app cmds ["run _clear"; "run _read"; "run _crc"])
    else (app cmds ["echo Skipping verify"]) in
  let cmds :=
    (app cmds
     [ "else";
       "echo";
       "echo " ++ dq
         ++ "** Checksum error on load: please check download tool **" ++ dq;
       "fi" ]) in
  cmds.

(** [script = '; '.join(cmds)]; returns the script and the marker. *)
Definition _GetFlashScript (payload_size : Z) (update verify : bool)
    (boot_type : string) (checksum : Z) (bus : string) : string * string :=
  let cmds :=
    _GetFlashScript_cmds payload_size update verify boot_type checksum bus in
  let script := String.concat "; " cmds in
  (script, replace_me).

(** [PrepareFlasher].  [os.stat(payload).st_size] is computed but never
    used and is left out.  [load_address] is a one-element tuple in the
    source, which [%] unpacks; [is not] compares two small integers and
    so acts as [!=]; [matches] is a name that is bound nowhere. *)
Definition PrepareFlasher (self : t) (uboot payload : string)
    (update verify : bool) (boot_type bus : string) : M string :=
  fdt <- Fdt.Copy (_fdt self)
           (Py.path_join (Tools.outdir (_tools self)) "flasher.dtb") ;;
  payload_data <- Tools.ReadFile payload ;;
  let checksum := Z.land (binascii.crc32 payload_data) 0xffffffff in
  let '(script, replace_me) :=
    _GetFlashScript (Py.len payload_data) update verify boot_type checksum
                    bus in
  data <- Tools.ReadFile uboot ;;
  Fdt.PutString fdt "/config" "bootcmd" script ;;
  fdt_data <- Tools.ReadFile (Fdt.fname fdt) ;;
  let payload_offset := Py.len data + Py.len fdt_data in
  let alignment := 0x1000 in
  let payload_offset :=
    Z.land (payload_offset + alignment - 1) (Z.lnot (alignment - 1)) in
  let load_address := text_base self + payload_offset in
  let new_str := Py.fmt_x false 8 load_address in
  if negb (Py.len replace_me =? Py.len new_str) then
    raise (ValueError
             ("Internal error: replacement string '" ++ replace_me
              ++ "' length does not match new string '" ++ new_str ++ "'"))
  else if negb (Py.findall_count replace_me fdt_data =? 1) then
    raise (NameError "matches")
  else
    let fdt_data := Py.re_sub replace_me new_str fdt_data in
    let data := data ++ fdt_data in
    let data := data ++ Py.str_mul "000" (payload_offset - Py.len data) in
    let data := data ++ payload_data in
    let flasher :=
      Py.path_join (Tools.outdir (_tools self)) "flasher-for-image.bin" in
    Tools.WriteFile flasher data ;;
    Tools.OutputSize "U-Boot" uboot ;;
    Tools.OutputSize "Payload" payload ;;
    Output.Notice ("Payload checksum " ++ Py.fmt_x false 8 checksum) ;;
    Tools.OutputSize "Flasher" flasher ;;
    ret flasher.

(** The regular expression
    [DevType\[0\] = NvBootDevType_(?P<boot>([a-zA-Z])+);] matched at
    the start of a line; the result is the group [boot]. *)
Fixpoint strip_prefix (p s : string) : option string :=
  match p, s with
  | "", _ => Some s
  | String a p', String b s' =>
      if Ascii.eqb a b then strip_prefix p' s' else None
  | String _ _, "" => None
  end.

Fixpoint span_alpha (s : string) : string * string :=
  match s with
  | "" => ("", "")
  | String c s' =>
      if Py.is_alpha c
      then let (letters, rest) := span_alpha s' in (String c letters, rest)
      else ("", s)
  end.

Definition match_boot (line : string) : option string :=
  match strip_prefix "DevType[0] = NvBootDevType_" line with
  | None => None
  | Some rest =>
      match span_alpha rest with
      | (String c letters, String d _) =>
          if Ascii.eqb d ";" then Some (String c letters) else None
      | _ => None
      end
  end.

(** The loop [for tries in range(10)] of [_NvidiaFlashImage]; [tries]
    is the number of iterations left. *)
Fixpoint _NvidiaFlashImage_tries (self : t) (args : list string)
    (tries : nat) (last_err : option string) : M bool :=
  match tries with
  | O => ret false
  | S tries' =>
      try_except_CmdError
        (Tools.Run "nvflash" args true ;;
         Output.Notice
           "Flasher downloaded - please see serial output for progress." ;;
         ret true)
        (fun err =>
           if negb (Output.stdout_is_tty (_out self)) then ret false
           else if negb (Py.contains "USB device not found" err) then
             raise (CmdError ("nvflash failed: " ++ err))
           else
             last_err' <-
               (if negb (match last_err with
                         | Some e => String.eqb err e
                         | None => false
                         end)
                then
                  Output.Notice err ;;
                  Output.Progress2
                    "Please connect USB A-A cable and do a recovery-reset"
                    true ;;
                  ret (Some err)
                else ret last_err) ;;
             time_sleep 1000 ;;
             _NvidiaFlashImage_tries self args tries' last_err')
  end.

(** [_NvidiaFlashImage]; the bus [0] is rendered by [%s] as ['0']. *)
Definition _NvidiaFlashImage (self : t) (uboot bct payload : string)
  : M bool :=
  out <- Tools.Run "bct_dump" [bct] false ;;
  let bct_dumped := Py.splitlines out in
  let boot_type :=
    filter (fun line => match match_boot line with
                        | Some _ => true
                        | None => false
                        end) bct_dumped in
  match boot_type with
  | [] => raise IndexError
  | line :: _ =>
      let boot_type :=
        Py.lower (match match_boot line with Some b => b | None => "" end) in
      flasher <- PrepareFlasher self uboot payload (update self)
                   (verify self) boot_type "0" ;;
      Output.Progress "Uploading flasher image" ;;
      let args :=
        [ "--bct"; bct; "--setbct"; "--bl"; flasher; "--go"; "--setentry";
          Py.fmt_x true 0 (text_base self);
          Py.fmt_x true 0 (text_base self) ] in
      _NvidiaFlashImage_tries self args 10 None
  end.

(** The loop [for tries in range(timeout * 2)] of [_WaitForUSBDevice]. *)
Fixpoint _WaitForUSBDevice_tries (name : string) (vendor_id product_id : Z)
    (tries : nat) : M bool :=
  match tries with
  | O => ret false
  | S tries' =>
      try_except_CmdError
        (let args :=
           ["-d"; Py.fmt_x false 4 vendor_id ++ ":"
                  ++ Py.fmt_x false 4 product_id] in
         Tools.Run "lsusb" args true ;;
         Output.Progress ("Found " ++ name ++ " board") ;;
         ret true)
        (fun _ =>
           time_sleep 500 ;;
           _WaitForUSBDevice_tries name vendor_id product_id tries')
  end.

Definition _WaitForUSBDevice (self : t) (name : string)
    (vendor_id product_id timeout : Z) : M bool :=
  Output.Progress "Waiting for board to appear on USB bus" ;;
  _WaitForUSBDevice_tries name vendor_id product_id
    (Z.to_nat (timeout * 2)).

(** The loop [for item in download_list] of [_ExynosFlashImage]. *)
Fixpoint _ExynosFlashImage_stages (self : t) (vendor_id product_id : Z)
    (download_list : list (string * Z * string)) (first : bool) : M unit :=
  match download_list with
  | [] => ret tt
  | (stage, addr, file) :: rest =>
      found <- _WaitForUSBDevice self "exynos" vendor_id product_id 4 ;;
      if negb found then
        if first then
          raise (CmdError "Could not find Exynos board on USB port")
        else raise (CmdError ("Stage '" ++ stage ++ "' did not complete"))
      else
        let args := ["-a"; Py.fmt_x true 0 addr; "-f"; file] in
        Output.Notice file ;;
        Output.Progress ("Uploading stage '" ++ stage ++ "'") ;;
        time_sleep 1000 ;;
        Tools.Run "smdk-usbdl" args true ;;
        _ExynosFlashImage_stages self vendor_id product_id rest false
  end.

(** The [try ... finally] statement of [_ExynosFlashImage]. *)
Definition _ExynosFlashImage_download (self : t) (vendor_id product_id : Z)
    (download_list : list (string * Z * string)) : M unit :=
  try_finally
    (_ExynosFlashImage_stages self vendor_id product_id download_list true)
    (let args := ["fw_up:off"; "pwr_button:release"] in
     Tools.Run "dut-control" args false ;;
     ret tt).

Definition _ExynosFlashImage (self : t) (uboot bl1 bl2 payload : string)
  : M bool :=
  flasher <- PrepareFlasher self uboot payload (update self) (verify self)
               "Spi" "1:0" ;;
  let vendor_id := 0x04e8 in
  let product_id := 0x1234 in
  Output.Progress "Reseting board via servo" ;;
  let args := ["warm_reset:on"; "fw_up:on"; "pwr_button:press"; "sleep:.1";
               "warm_reset:off"] in
  let args := (["cold_reset:on"; "sleep:.2"; "cold_reset:off"] ++ args)%list in
  Tools.Run "dut-control" args false ;;
  time_sleep 2000 ;;
  Output.Progress "Uploading flasher image" ;;
  let download_list :=
    [ ("bl1", 0x02021400, bl1);
      ("bl2", 0x02023400, bl2);
      ("u-boot", 0x43e00000, flasher) ] in
  _ExynosFlashImage_download self vendor_id product_id download_list ;;
  Output.Notice
    "Flasher downloaded - please see serial output for progress." ;;
  ret true.

End WriteFirmware.

(** ** [DoWriteFirmware] *)

(** [file_list[key]] *)
Definition getitem (file_list : string -> option string) (key : string)
  : M string :=
  match file_list key with
  | Some v => ret v
  | None => raise (KeyError key)
  end.

(** ['%s' % dest], where [dest] may be [None]. *)
Definition str_of_dest (dest : option string) : string :=
  match dest with
  | Some s => s
  | None => "None"
  end.

Definition dest_is (dest : option string) (s : string) : bool :=
  match dest with
  | Some d => String.eqb d s
  | None => false
  end.

(** [DoWriteFirmware]; [if text_base:] is false for [None] and for [0]. *)
Definition DoWriteFirmware (output : Output.t) (tools : Tools.t)
    (fdt : Fdt.t) (flasher : string) (file_list : string -> option string)
    (image_fname : string) (text_base : option Z) (update verify : bool)
    (dest : option string) : M unit :=
  let write := WriteFirmware.__init__ tools fdt output in
  let text_base' :=
    match text_base with
    | Some tb => if tb =? 0 then WriteFirmware.text_base write else tb
    | None => WriteFirmware.text_base write
    end in
  let write :=
    WriteFirmware.Make (WriteFirmware._tools write) (WriteFirmware._fdt write)
      (WriteFirmware._out write) text_base' update verify in
  if dest_is dest "usb" then
    let method := Fdt.GetString fdt "/chromeos-config" "flash-method" "tegra" in
    ok <-
      (if String.eqb method "tegra" then
         bct <- getitem file_list "bct" ;;
         WriteFirmware._NvidiaFlashImage write flasher bct image_fname
       else if String.eqb method "exynos" then
         bl1 <- getitem file_list "exynos-bl1" ;;
         bl2 <- getitem file_list "exynos-bl2" ;;
         WriteFirmware._ExynosFlashImage write flasher bl1 bl2 image_fname
       else raise (CmdError ("Unknown flash method '" ++ method ++ "'"))) ;;
    if (ok : bool) then
      Output.Progress "Image uploaded - please wait for flashing to complete"
    else
      raise (CmdError "Image upload failed - please check board connection")
  else if dest_is dest "sd" then ret tt
  else
    raise (CmdError ("Unknown destination device '" ++ str_of_dest dest
                     ++ "'")).

(** ** Vocabulary of the statements *)

(** The two files [PrepareFlasher] creates under [tools.outdir]. *)
Definition dtb_path (self : WriteFirmware.t) : string :=
  Py.path_join (Tools.outdir (WriteFirmware._tools self)) "flasher.dtb".

Definition flasher_path (self : WriteFirmware.t) : string :=
  Py.path_join (Tools.outdir (WriteFirmware._tools self))
               "flasher-for-image.bin".

(** The file system once [fdt.Copy] has written its copy: what the two
    [ReadFile] calls of [PrepareFlasher] see. *)
Definition staged (self : WriteFirmware.t) (w : world)
  : string -> option string :=
  fun p =>
    if String.eqb p (dtb_path self)
    then Some (Fdt.blob (WriteFirmware._fdt self))
    else files w p.

Definition payload_checksum (payload_data : string) : Z :=
  Z.land (binascii.crc32 payload_data) 0xffffffff.

Definition boot_script (payload_data : string) (update verify : bool)
    (boot_type bus : string) : string :=
  fst (WriteFirmware._GetFlashScript (Py.len payload_data) update verify
         boot_type (payload_checksum payload_data) bus).

(** The serialized configuration bytes, the script embedded. *)
Definition config_bytes (self : WriteFirmware.t) (script : string) : string :=
  Fdt.blob_with (WriteFirmware._fdt self) "/config" "bootcmd" script.

Definition rendered_address (self : WriteFirmware.t) (data cfg : string)
  : string :=
  Py.fmt_x false 8
    (WriteFirmware.text_base self + RoundUp (Py.len data + Py.len cfg) 4096).

Definition flasher_image (self : WriteFirmware.t)
    (data cfg payload_data : string) : string :=
  let cfg' :=
    Py.re_sub WriteFirmware.replace_me (rendered_address self data cfg) cfg in
  ((data ++ cfg')
   ++ Py.str_mul "000"
        (RoundUp (Py.len data + Py.len cfg) 4096 - Py.len (data ++ cfg')))
  ++ payload_data.

(** The checksum-verification command of the script. *)
Definition crc_command (checksum : Z) : string :=
  "setenv _crc    " ++ WriteFirmware.dq
  ++ "crc32 -v ${address} ${firmware_size} " ++ Py.fmt_x true 8 checksum
  ++ WriteFirmware.dq.

(** The world [w] after the events [evs] and [k] more external commands. *)
Definition after (w : world) (evs : list event) (k : nat) : world :=
  World (trace w ++ evs)%list (files w) (replies w) (nruns w + k).

(** The arguments of the [lsusb] query. *)
Definition lsusb_args (vendor_id product_id : Z) : list string :=
  ["-d"; Py.fmt_x false 4 vendor_id ++ ":" ++ Py.fmt_x false 4 product_id].

(** What [k] failed probe cycles show. *)
Fixpoint failed_probes (args : list string) (k : nat) : list event :=
  match k with
  | O => []
  | S k' => EvRun "lsusb" args true :: EvSleep 500 :: failed_probes args k'
  end.

Definition waiting : event :=
  EvProgress "Waiting for board to appear on USB bus" None.

Definition found (name : string) : event :=
  EvProgress ("Found " ++ name ++ " board") None.

(** A failure [nvflash] is retried on. *)
Definition transient (msg : string) : bool :=
  Py.contains "USB device not found" msg.

(** [err != last_err] *)
Definition differs (msg : string) (last_err : option string) : bool :=
  negb match last_err with
       | Some e => String.eqb msg e
       | None => false
       end.

Definition reconnect : event :=
  EvProgress "Please connect USB A-A cable and do a recovery-reset" (Some true).

Definition downloaded : event :=
  EvNotice "Flasher downloaded - please see serial output for progress.".

(** What a run of transient failures with the messages [msgs] shows, when
    the failure before them, if any, had the message [previous]: every
    attempt runs the command and sleeps one second, and the message is
    shown when it is not the one of the failure before. *)
Fixpoint transient_events (args : list string) (previous : option string)
    (msgs : list string) : list event :=
  match msgs with
  | [] => []
  | msg :: rest =>
      (EvRun "nvflash" args true
       :: (if differs msg previous then [EvNotice msg; reconnect] else [])
       ++ [EvSleep 1000])
      ++ transient_events args (Some msg) rest
  end.



(** The command that releases the forced-recovery control lines. *)
Definition cleanup : event :=
  EvRun "dut-control" ["fw_up:off"; "pwr_button:release"] false.

Definition board_not_found : exn :=
  CmdError "Could not find Exynos board on USB port".

(** What [_ExynosFlashImage] shows between [PrepareFlasher] and the
    stage loop. *)
Definition reset_events : list event :=
  [ EvProgress "Reseting board via servo" None;
    EvRun "dut-control"
      ["cold_reset:on"; "sleep:.2"; "cold_reset:off"; "warm_reset:on";
       "fw_up:on"; "pwr_button:press"; "sleep:.1"; "warm_reset:off"] false;
    EvSleep 2000;
    EvProgress "Uploading flasher image" None ].

(** The [WriteFirmware] object as [DoWriteFirmware] configures it. *)
Definition writer (output : Output.t) (tools : Tools.t) (fdt : Fdt.t)
    (text_base : option Z) (update verify : bool) : WriteFirmware.t :=
  WriteFirmware.Make tools fdt output
    match text_base with
    | Some tb =>
        if tb =? 0 then Fdt.GetInt fdt "/chromeos-config" "textbase" else tb
    | None => Fdt.GetInt fdt "/chromeos-config" "textbase"
    end
    update verify.

Definition flash_method (fdt : Fdt.t) : string :=
  Fdt.GetString fdt "/chromeos-config" "flash-method" "tegra".

Definition uploaded : event :=
  EvProgress "Image uploaded - please wait for flashing to complete" None.

Definition upload_failed : exn :=
  CmdError "Image upload failed - please check board connection".

(** The session with its [update] attribute set to [b]. *)
Definition with_update (self : WriteFirmware.t) (b : bool) : WriteFirmware.t :=
  WriteFirmware.Make (WriteFirmware._tools self) (WriteFirmware._fdt self)
    (WriteFirmware._out self) (WriteFirmware.text_base self) b
    (WriteFirmware.verify self).

(** A computation only ever appends to the trace. *)
Definition grows {A} (m : M A) : Prop :=
  forall w, exists evs, trace (snd (m w)) = (trace w ++ evs)%list.

(** Two of the SPI command templates. *)
Definition spi_init_command (bus : string) : string :=
  "setenv _init   " ++ WriteFirmware.dq
  ++ "echo Init SPI;   sf probe            " ++ bus ++ WriteFirmware.dq.

Definition spi_update_command : string :=
  "setenv _update " ++ WriteFirmware.dq
  ++ "echo Update SPI; sf update ${address} 0 ${length}" ++ WriteFirmware.dq.

(** [keep K s] is [s] without the characters outside [K]. *)
Fixpoint keep (K : ascii -> bool) (s : string) : string :=
  match s with
  | "" => ""
  | String c s' => if K c then String c (keep K s') else keep K s'
  end.

(** Every character of [s] is in [K]. *)
Fixpoint all_chars (K : ascii -> bool) (s : string) : bool :=
  match s with
  | "" => true
  | String c s' => K c && all_chars K s'
  end.

(** [c] is one of the characters of [chars]. *)
Definition one_of (chars : string) (c : ascii) : bool :=
  existsb (Ascii.eqb c) (list_ascii_of_string chars).

(** The characters [%x] can produce. *)
Definition hexish : ascii -> bool := one_of "-x0123456789abcdef".

(** The characters of [run _up], none of which [%x] produces. *)
Definition update_chars : ascii -> bool := one_of "run _p".

(** ** Vocabulary of the further properties *)

(** Page size [_GetFlashScript] rounds with. *)
Definition page_size_of (boot_type : string) : Z :=
  if String.eqb boot_type "sdmmc" then 512 else 4096.

Definition setenv_length (n : Z) : string :=
  "setenv length        " ++ Py.fmt_x true 0 n.

Definition setenv_blocks (n : Z) : string :=
  "setenv blocks   " ++ Py.fmt_x true 0 n.

Definition setenv_firmware_size (n : Z) : string :=
  "setenv firmware_size " ++ Py.fmt_x true 0 n.

(** The update flag as [_GetFlashScript] uses it. *)
Definition effective_update (boot_type : string) (update : bool) : bool :=
  if String.eqb boot_type "spi" then update else false.

Definition checksum_error_cmds : list string :=
  [ "else";
    "echo";
    "echo " ++ WriteFirmware.dq
      ++ "** Checksum error on load: please check download tool **"
      ++ WriteFirmware.dq;
    "fi" ].

(** The characters that shape a command line: the double quote, the
    command separator [;] and the backslash. *)
Definition shell_chars : ascii -> bool :=
  one_of (String "034" (String ";" (String "092" ""))).

(** Reading [s] with text grouped by double quotes: a [;] outside the
    quotes, or a quote left open at the end. *)
Fixpoint unquoted_separator (in_quotes : bool) (s : string) : bool :=
  match s with
  | "" => in_quotes
  | String c s' =>
      if Ascii.eqb c "034" then unquoted_separator (negb in_quotes) s'
      else (negb in_quotes && Ascii.eqb c ";")
           || unquoted_separator in_quotes s'
  end.

Definition no_backslash (c : ascii) : bool := negb (Ascii.eqb c "092").

(** A single command that only sets a variable or prints: it starts with
    [setenv ] or [echo ], every [;] in it lies between a pair of double
    quotes, its quotes are balanced and it holds no backslash. *)
Definition harmless (cmd : string) : bool :=
  (String.prefix "setenv " cmd || String.prefix "echo " cmd)
  && negb (unquoted_separator false cmd)
  && all_chars no_backslash cmd.

(** The one upper-case letter of the marker that no fixed text of the
    script holds. *)
Definition marker_letter : ascii -> bool := one_of "H".

(** The load address patched into the script. *)
Definition load_address (self : WriteFirmware.t) (data cfg : string) : Z :=
  WriteFirmware.text_base self + RoundUp (Py.len data + Py.len cfg) 4096.

(** An event of the device-tree object. *)
Definition fdt_event (e : event) : bool :=
  match e with
  | EvFdtCopy _ | EvFdtPutString _ _ _ _ => true
  | _ => false
  end.

(** The lines of a BCT dump that name the boot device. *)
Definition boot_lines (out : string) : list string :=
  filter (fun line => match WriteFirmware.match_boot line with
                      | Some _ => true
                      | None => false
                      end) (Py.splitlines out).

Definition bct_dump_run (bct : string) : event := EvRun "bct_dump" [bct] false.

Definition nvflash_args (self : WriteFirmware.t) (bct flasher : string)
  : list string :=
  [ "--bct"; bct; "--setbct"; "--bl"; flasher; "--go"; "--setentry";
    Py.fmt_x true 0 (WriteFirmware.text_base self);
    Py.fmt_x true 0 (WriteFirmware.text_base self) ].

(** What one stage of the Exynos download shows when the board answers
    the probe after [k] failed queries. *)
Definition stage_events (vendor_id product_id : Z) (k : nat)
    (item : string * Z * string) : list event :=
  let '(stage, addr, file) := item in
  (waiting :: failed_probes (lsusb_args vendor_id product_id) k
   ++ [ EvRun "lsusb" (lsusb_args vendor_id product_id) true;
        found "exynos";
        EvNotice file;
        EvProgress ("Uploading stage '" ++ stage ++ "'") None;
        EvSleep 1000;
        EvRun "smdk-usbdl" ["-a"; Py.fmt_x true 0 addr; "-f"; file]
          true ])%list.

(** A plan pairs each stage with the number of failed probe queries
    before the board answers. *)
Fixpoint plan_events (vendor_id product_id : Z)
    (plan : list (string * Z * string * nat)) : list event :=
  match plan with
  | [] => []
  | (item, k) :: rest =>
      (stage_events vendor_id product_id k item
       ++ plan_events vendor_id product_id rest)%list
  end.

Fixpoint plan_runs (plan : list (string * Z * string * nat)) : nat :=
  match plan with
  | [] => O
  | (_, k) :: rest => (k + 2 + plan_runs rest)%nat
  end.

(** The commands from number [start] on answer as the plan says: for
    each stage [k] failed queries, with [k] below the budget of eight,
    then a successful query and a successful transfer. *)
Fixpoint plan_ok (rp : nat -> reply) (start : nat)
    (plan : list (string * Z * string * nat)) : Prop :=
  match plan with
  | [] => True
  | (_, k) :: rest =>
      (k < 8)%nat
      /\ (forall i, (i < k)%nat -> exists msg, rp (start + i)%nat = Failed msg)
      /\ (exists out, rp (start + k)%nat = Done out)
      /\ (exists out, rp (start + k + 1)%nat = Done out)
      /\ plan_ok rp (start + k + 2)%nat rest
  end.

Definition stage_stalled (stage : string) : exn :=
  CmdError ("Stage '" ++ stage ++ "' did not complete").

(** The three stages of the Exynos download. *)
Definition exynos_download_list (bl1 bl2 flasher : string)
  : list (string * Z * string) :=
  [ ("bl1", 0x02021400, bl1);
    ("bl2", 0x02023400, bl2);
    ("u-boot", 0x43e00000, flasher) ].

(** The time, in milliseconds, that the events of a trace spend asleep. *)
Fixpoint slept (tr : list event) : Z :=
  match tr with
  | [] => 0
  | EvSleep ms :: rest => ms + slept rest
  | _ :: rest => slept rest
  end.

(** The external commands among the events of a trace. *)
Fixpoint commands (tr : list event) : nat :=
  match tr with
  | [] => O
  | EvRun _ _ _ :: rest => S (commands rest)
  | _ :: rest => commands rest
  end.

(** The text a boot-device line of a BCT dump starts with. *)
Definition boot_line_prefix : string := "DevType[0] = NvBootDevType_".

(** ** A board and a host to run the code on *)

Module Sample.

Definition tools : Tools.t := Tools.Make "out".

Definition output (tty : bool) : Output.t := Output.Make tty.

(** A device description with the given text base and flash method,
    whose flattened form spells out the one property that is set. *)
Definition fdt (textbase : Z) (method : option string) : Fdt.t :=
  Fdt.Make "board.dtb"
    (fun _ _ => textbase)
    (fun _ prop => if String.eqb prop "flash-method" then method else None)
    "<fdt>"
    (fun node prop value =>
       "<fdt " ++ node ++ " " ++ prop ++ "=" ++ value ++ ">").

(** The same, but the flattened form repeats the value. *)
Definition echo_fdt (textbase : Z) : Fdt.t :=
  Fdt.Make "board.dtb"
    (fun _ _ => textbase)
    (fun _ _ => None)
    "<fdt>"
    (fun node prop value => value ++ value).

Definition self (fdt : Fdt.t) (tty update verify : bool) : WriteFirmware.t :=
  WriteFirmware.Make tools fdt (output tty)
    (Fdt.GetInt fdt "/chromeos-config" "textbase") update verify.

Definition disk : string -> option string :=
  fun p =>
    if String.eqb p "u-boot.bin" then Some "U-BOOT code"
    else if String.eqb p "image.bin" then Some "firmware image"
    else if String.eqb p "bl1.bin" then Some "BL1"
    else if String.eqb p "bl2.bin" then Some "BL2"
    else if String.eqb p "board.bct" then Some "BCT"
    else None.

Definition file_list : string -> option string :=
  fun key =>
    if String.eqb key "bct" then Some "board.bct"
    else if String.eqb key "exynos-bl1" then Some "bl1.bin"
    else if String.eqb key "exynos-bl2" then Some "bl2.bin"
    else None.

(** Commands answer as listed, then as [otherwise]. *)
Definition answers (l : list reply) (otherwise : reply) : nat -> reply :=
  fun n => nth n l otherwise.

Definition host (l : list reply) (otherwise : reply) : world :=
  World [] disk (answers l otherwise) 0.

(** What [bct_dump] prints for a board that boots from SPI. *)
Definition bct_dump : string :=
  "Version = 0x00020001;" ++ String Py.LF "DevType[0] = NvBootDevType_Spi;"
  ++ String Py.LF "".

(** A host where the servo reset works, the board never shows up on
    the bus, and the cleanup command answers [cleanup_reply]. *)
Definition exynos_host (cleanup_reply : reply) : world :=
  host
    (Done "" :: repeat (Failed "exit status 1") 8 ++ [cleanup_reply])%list
    (Done "").

End Sample.

(** * Properties *)

(** ** Alignment *)

Lemma RoundUp_pow2 (value k : Z) :
  0 <= k ->
  RoundUp value (2 ^ k) = (value + 2 ^ k - 1) / 2 ^ k * 2 ^ k.
Proof.
  intros Hk. unfold RoundUp.
  replace (2 ^ k - 1) with (Z.ones k)
    by (rewrite Z.ones_equiv; apply Z.sub_1_r).
  rewrite <- Z.ldiff_land, Z.ldiff_ones_r by assumption.
  rewrite Z.shiftl_mul_pow2, Z.shiftr_div_pow2 by assumption.
  reflexivity.
Qed.

Lemma round_up_div_least (value b : Z) :
  0 < b ->
  let r := (value + b - 1) / b * b in
  (b | r) /\ value <= r /\ forall m, (b | m) -> value <= m -> r <= m.
Proof.
  intros Hb r. subst r.
  pose proof (Z.div_mod (value + b - 1) b ltac:(lia)) as Hdm.
  pose proof (Z.mod_pos_bound (value + b - 1) b Hb) as Hmod.
  set (q0 := (value + b - 1) / b) in *.
  set (r0 := (value + b - 1) mod b) in *.
  split; [exists q0; reflexivity|].
  split; [lia|].
  intros m [q ->] Hle.
  assert (q0 <= q); [|nia].
  assert (q0 < q + 1); [|lia].
  nia.
Qed.

(** C8: for a non-negative offset and a boundary of 512 or 4096,
    [RoundUp offset boundary] is a multiple of the boundary, is at least
    the offset, and no smaller multiple of the boundary is. *)
Theorem RoundUp_smallest_multiple (offset boundary : Z) :
  0 <= offset ->
  boundary = 512 \/ boundary = 4096 ->
  (boundary | RoundUp offset boundary)
  /\ offset <= RoundUp offset boundary
  /\ forall m, (boundary | m) -> offset <= m -> RoundUp offset boundary <= m.
Proof.
  intros _ [-> | ->].
  - change 512 with (2 ^ 9). rewrite RoundUp_pow2 by lia.
    apply round_up_div_least. reflexivity.
  - change 4096 with (2 ^ 12). rewrite RoundUp_pow2 by lia.
    apply round_up_div_least. reflexivity.
Qed.

Lemma RoundUp_smallest_multiple_witness :
  RoundUp 1000000 4096 = 1003520
  /\ (4096 | RoundUp 1000000 4096)
  /\ 1000000 <= RoundUp 1000000 4096
  /\ forall m, (4096 | m) -> 1000000 <= m -> RoundUp 1000000 4096 <= m.
Proof.
  split; [reflexivity|].
  apply (RoundUp_smallest_multiple 1000000 4096); [lia | right; reflexivity].
Defined.

(** ** The boot script *)

Lemma prefix_app (p s : string) : String.prefix p (p ++ s) = true.
Proof.
  induction p as [|c p IH]; simpl.
  - destruct s; reflexivity.
  - destruct (ascii_dec c c) as [_|N]; [exact IH | contradiction].
Qed.

Lemma append_empty_r (s : string) : s ++ "" = s.
Proof. induction s as [|c s IH]; simpl; congruence. Qed.

Lemma append_assoc (a b c : string) : (a ++ b) ++ c = a ++ b ++ c.
Proof. induction a as [|x a IH]; simpl; congruence. Qed.

Lemma contains_of_prefix (p s : string) :
  String.prefix p s = true -> Py.contains p s = true.
Proof. destruct s; intros H; unfold Py.contains; rewrite H; reflexivity. Qed.

Lemma contains_prefix (p s : string) : Py.contains p (p ++ s) = true.
Proof. apply contains_of_prefix, prefix_app. Qed.

Lemma contains_app_r (p a t : string) :
  Py.contains p t = true -> Py.contains p (a ++ t) = true.
Proof.
  intros H. induction a as [|c a IH]; simpl; [exact H|].
  rewrite IH. apply orb_true_r.
Qed.

Lemma contains_concat (sep c : string) (cmds : list string) :
  In c cmds -> Py.contains c (String.concat sep cmds) = true.
Proof.
  induction cmds as [|x xs IH]; intros Hin; [destruct Hin|].
  destruct xs as [|y ys].
  - destruct Hin as [->|[]]. simpl.
    pose proof (contains_prefix c "") as H.
    rewrite append_empty_r in H. exact H.
  - change (String.concat sep (x :: y :: ys))
      with (x ++ sep ++ String.concat sep (y :: ys)).
    destruct Hin as [->|Hin].
    + apply contains_prefix.
    + do 2 apply contains_app_r. apply IH, Hin.
Qed.

Lemma keep_app K a b : keep K (a ++ b) = keep K a ++ keep K b.
Proof.
  induction a as [|c a IH]; simpl; [reflexivity|].
  destruct (K c); simpl; congruence.
Qed.

Lemma keep_all K s : all_chars K s = true -> keep K s = s.
Proof.
  induction s as [|c s IH]; simpl; [reflexivity|].
  intros H. apply andb_true_iff in H as [-> H]. rewrite IH by exact H.
  reflexivity.
Qed.

Lemma keep_none K H s :
  (forall c, H c = true -> K c = false) ->
  all_chars H s = true -> keep K s = "".
Proof.
  intros HK. induction s as [|c s IH]; simpl; [reflexivity|].
  intros Hs. apply andb_true_iff in Hs as [Hc Hs].
  rewrite (HK c Hc). apply IH, Hs.
Qed.

Lemma all_chars_app K a b :
  all_chars K (a ++ b) = all_chars K a && all_chars K b.
Proof.
  induction a as [|c a IH]; simpl; [reflexivity|].
  rewrite IH. apply andb_assoc.
Qed.

Lemma prefix_split p s : String.prefix p s = true -> exists b, s = p ++ b.
Proof.
  revert s. induction p as [|c p IH]; intros s H.
  - exists s. reflexivity.
  - destruct s as [|d s]; [discriminate H|]. simpl in H.
    destruct (ascii_dec c d) as [->|]; [|discriminate H].
    destruct (IH s H) as [b ->]. exists b. reflexivity.
Qed.

Lemma contains_split p s :
  Py.contains p s = true -> exists a b, s = a ++ p ++ b.
Proof.
  induction s as [|c s IH]; cbn [Py.contains]; intros H.
  - rewrite orb_false_r in H. destruct (prefix_split _ _ H) as [b Hb].
    exists "", b. exact Hb.
  - apply orb_true_iff in H as [H|H].
    + destruct (prefix_split _ _ H) as [b Hb]. exists "", b. exact Hb.
    + destruct (IH H) as (a & b & ->). exists (String c a), b. reflexivity.
Qed.

Lemma contains_join p a b : Py.contains p (a ++ p ++ b) = true.
Proof. apply contains_app_r, contains_prefix. Qed.

Lemma contains_keep K p s :
  all_chars K p = true ->
  Py.contains p s = true -> Py.contains p (keep K s) = true.
Proof.
  intros HK H. destruct (contains_split _ _ H) as (a & b & ->).
  rewrite !keep_app, (keep_all K p HK). apply contains_join.
Qed.

Lemma contains_trans q p s :
  Py.contains q p = true -> Py.contains p s = true -> Py.contains q s = true.
Proof.
  intros Hq Hp.
  destruct (contains_split _ _ Hq) as (a & b & ->).
  destruct (contains_split _ _ Hp) as (a' & b' & ->).
  rewrite !append_assoc, <- (append_assoc a' a).
  apply contains_join.
Qed.

Lemma of_pos_hexish : forall (p : positive) (rest : string),
  all_chars hexish rest = true ->
  all_chars hexish (HexString.Raw.of_pos p rest) = true.
Proof.
  fix IH 1. intros p rest H.
  do 4 try destruct p as [p|p|]; cbn [HexString.Raw.of_pos];
    try (apply IH); cbn [all_chars]; rewrite H; reflexivity.
Qed.

Lemma replicate_hexish n : all_chars hexish (Py.replicate "0" n) = true.
Proof. induction n as [|n IH]; [reflexivity|exact IH]. Qed.

Lemma fmt_x_hexish alt width n : all_chars hexish (Py.fmt_x alt width n) = true.
Proof.
  unfold Py.fmt_x. rewrite !all_chars_app, replicate_hexish.
  assert (Hd : all_chars hexish (Py.hex_digits n) = true).
  { destruct n; [reflexivity| |]; apply of_pos_hexish; reflexivity. }
  rewrite Hd. destruct (n <? 0), alt; reflexivity.
Qed.

Lemma hexish_not_update_chars c : hexish c = true -> update_chars c = false.
Proof.
  unfold hexish, one_of. cbn [list_ascii_of_string existsb]. intros H.
  repeat (apply orb_true_iff in H as [H|H];
          [apply Ascii.eqb_eq in H; subst c; reflexivity|]).
  discriminate H.
Qed.

Lemma keep_fmt_x alt width n : keep update_chars (Py.fmt_x alt width n) = "".
Proof.
  apply (keep_none update_chars hexish).
  - apply hexish_not_update_chars.
  - apply fmt_x_hexish.
Qed.

Lemma no_update_in_text (s : string) :
  Py.contains "run _up" (keep update_chars s) = false ->
  Py.contains "time run _update" s = false.
Proof.
  intros H. destruct (Py.contains "time run _update" s) eqn:E; [|reflexivity].
  rewrite <- H. symmetry. apply contains_keep; [reflexivity|].
  apply (contains_trans "run _up" "time run _update"); [reflexivity|exact E].
Qed.

Lemma script_without_update (payload_size checksum : Z) (update verify : bool)
    (boot_type bus : string) :
  boot_type = "nand" \/ boot_type = "sdmmc" ->
  Py.contains "time run _update"
    (fst (WriteFirmware._GetFlashScript payload_size update verify boot_type
            checksum bus)) = false.
Proof.
  intros [-> | ->]; apply no_update_in_text;
    unfold WriteFirmware._GetFlashScript, WriteFirmware._GetFlashScript_cmds;
    cbn [fst String.eqb Ascii.eqb Bool.eqb negb];
    destruct verify; cbn [app String.concat];
    rewrite !keep_app, !keep_fmt_x; vm_compute; reflexivity.
Qed.

Lemma script_Spi_without_update (payload_size checksum : Z)
    (update verify : bool) :
  Py.contains "time run _update"
    (fst (WriteFirmware._GetFlashScript payload_size update verify "Spi"
            checksum "1:0")) = false.
Proof.
  apply no_update_in_text;
    unfold WriteFirmware._GetFlashScript, WriteFirmware._GetFlashScript_cmds;
    cbn [fst String.eqb Ascii.eqb Bool.eqb negb];
    destruct verify; cbn [app String.concat];
    rewrite !keep_app, !keep_fmt_x; vm_compute; reflexivity.
Qed.

Ltac cmds_cases H :=
  repeat (destruct H as [H|H]; [discriminate H|]); try contradiction.

(** C3: the script is the command list joined by ["; "].  The length and
    block count are rounded with page size 512 for [sdmmc] and 4096 for
    every other boot type.  For [spi] with [update] set the commands
    include [time run _update] and neither [run _erase] nor [run _write];
    for [nand] and [sdmmc] the commands are those produced with [update]
    cleared, they include [run _erase] and [run _write] and they do not
    include [time run _update], which does not occur anywhere in the
    text of the script either. *)
Theorem GetFlashScript_modes (payload_size checksum : Z) (bus : string)
    (update verify : bool) (boot_type : string) :
  let cmds bt upd :=
    WriteFirmware._GetFlashScript_cmds payload_size upd verify bt checksum bus
  in
  let script bt upd :=
    fst (WriteFirmware._GetFlashScript payload_size upd verify bt checksum bus)
  in
  let page_size := if String.eqb boot_type "sdmmc" then 512 else 4096 in
  script boot_type update = String.concat "; " (cmds boot_type update)
  /\ In ("setenv length        "
         ++ Py.fmt_x true 0 (RoundUp payload_size page_size))
        (cmds boot_type update)
  /\ In ("setenv blocks   "
         ++ Py.fmt_x true 0 (RoundUp payload_size page_size / page_size))
        (cmds boot_type update)
  /\ (In "time run _update" (cmds "spi" true)
      /\ Py.contains "time run _update" (script "spi" true) = true
      /\ ~ In "run _erase" (cmds "spi" true)
      /\ ~ In "run _write" (cmds "spi" true))
  /\ (cmds "nand" update = cmds "nand" false
      /\ In "run _erase" (cmds "nand" update)
      /\ In "run _write" (cmds "nand" update)
      /\ Py.contains "run _erase" (script "nand" update) = true
      /\ Py.contains "run _write" (script "nand" update) = true
      /\ ~ In "time run _update" (cmds "nand" update)
      /\ Py.contains "time run _update" (script "nand" update) = false)
  /\ (cmds "sdmmc" update = cmds "sdmmc" false
      /\ In "run _erase" (cmds "sdmmc" update)
      /\ In "run _write" (cmds "sdmmc" update)
      /\ Py.contains "run _erase" (script "sdmmc" update) = true
      /\ Py.contains "run _write" (script "sdmmc" update) = true
      /\ ~ In "time run _update" (cmds "sdmmc" update)
      /\ Py.contains "time run _update" (script "sdmmc" update) = false).
Proof.
  intros cmds script page_size.
  assert (Hspi : In "time run _update" (cmds "spi" true)).
  { subst cmds. destruct verify; cbn -[Py.fmt_x RoundUp Z.div]; tauto. }
  assert (Hnand : forall upd,
             cmds "nand" upd = cmds "nand" false
             /\ In "run _erase" (cmds "nand" upd)
             /\ In "run _write" (cmds "nand" upd)).
  { intros upd. subst cmds.
    destruct verify; cbn -[Py.fmt_x RoundUp Z.div]; tauto. }
  assert (Hsd : forall upd,
             cmds "sdmmc" upd = cmds "sdmmc" false
             /\ In "run _erase" (cmds "sdmmc" upd)
             /\ In "run _write" (cmds "sdmmc" upd)).
  { intros upd. subst cmds.
    destruct verify; cbn -[Py.fmt_x RoundUp Z.div]; tauto. }
  split; [reflexivity|].
  split.
  { subst cmds page_size. unfold WriteFirmware._GetFlashScript_cmds.
    destruct (String.eqb boot_type "sdmmc"), (String.eqb boot_type "nand"),
      (String.eqb boot_type "spi"), update, verify;
      cbn -[Py.fmt_x RoundUp Z.div]; tauto. }
  split.
  { subst cmds page_size. unfold WriteFirmware._GetFlashScript_cmds.
    destruct (String.eqb boot_type "sdmmc"), (String.eqb boot_type "nand"),
      (String.eqb boot_type "spi"), update, verify;
      cbn -[Py.fmt_x RoundUp Z.div]; tauto. }
  split; [|split].
  - split; [exact Hspi|]. split; [apply contains_concat, Hspi|].
    subst cmds.
    split; intros H; destruct verify;
      cbn -[Py.fmt_x RoundUp Z.div] in H; cmds_cases H.
  - destruct (Hnand update) as (He & H1 & H2).
    repeat split; try assumption; try (apply contains_concat; assumption);
      try (apply script_without_update; left; reflexivity).
    subst cmds. intros H. destruct verify;
      cbn -[Py.fmt_x RoundUp Z.div] in H; cmds_cases H.
  - destruct (Hsd update) as (He & H1 & H2).
    repeat split; try assumption; try (apply contains_concat; assumption);
      try (apply script_without_update; right; reflexivity).
    subst cmds. intros H. destruct verify;
      cbn -[Py.fmt_x RoundUp Z.div] in H; cmds_cases H.
Qed.

(** ** Assembling the flasher *)

(** What [PrepareFlasher] does once its two input files are read: the
    outcome of the two checks decides between the two errors and the
    written image. *)
Lemma PrepareFlasher_run (self : WriteFirmware.t) (uboot payload : string)
    (update verify : bool) (boot_type bus : string) (w : world)
    (data payload_data : string) :
  staged self w payload = Some payload_data ->
  staged self w uboot = Some data ->
  let script := boot_script payload_data update verify boot_type bus in
  let cfg := config_bytes self script in
  let new_str := rendered_address self data cfg in
  let tr :=
    (trace w
     ++ [EvFdtCopy (dtb_path self);
         EvFdtPutString (dtb_path self) "/config" "bootcmd" script])%list in
  let fs p :=
    if String.eqb p (dtb_path self) then Some cfg else staged self w p in
  WriteFirmware.PrepareFlasher self uboot payload update verify boot_type bus
    w
  = if negb (8 =? Py.len new_str) then
      (Raise (ValueError
                ("Internal error: replacement string '"
                 ++ WriteFirmware.replace_me
                 ++ "' length does not match new string '" ++ new_str
                 ++ "'")),
       World tr fs (replies w) (nruns w))
    else if negb (Py.findall_count WriteFirmware.replace_me cfg =? 1) then
      (Raise (NameError "matches"), World tr fs (replies w) (nruns w))
    else
      (Ok (flasher_path self),
       World (tr ++ [EvOutputSize "U-Boot" uboot;
                     EvOutputSize "Payload" payload;
                     EvNotice ("Payload checksum "
                               ++ Py.fmt_x false 8
                                    (payload_checksum payload_data));
                     EvOutputSize "Flasher" (flasher_path self)])%list
             (fun p =>
                if String.eqb p (flasher_path self)
                then Some (flasher_image self data cfg payload_data)
                else fs p)
             (replies w) (nruns w)).
Proof.
  intros Hp Hu script cfg new_str tr fs.
  unfold WriteFirmware.PrepareFlasher, bind, Fdt.Copy, Fdt.PutString, bind,
    emit, write, ret, Tools.ReadFile, Tools.WriteFile, Tools.OutputSize,
    Output.Notice, emit, write.
  cbn [trace files replies nruns Fdt.fname Fdt.blob Fdt.blob_with].
  fold (dtb_path self). fold (flasher_path self).
  pose proof Hp as Hp'. pose proof Hu as Hu'.
  unfold staged in Hp', Hu'. rewrite Hp'.
  unfold WriteFirmware._GetFlashScript. cbv beta iota zeta.
  cbn [trace files replies nruns].
  rewrite Hu'. rewrite String.eqb_refl.
  cbn [trace files replies nruns].
  subst script cfg new_str tr fs.
  unfold rendered_address, config_bytes, boot_script, payload_checksum,
    WriteFirmware._GetFlashScript, RoundUp, flasher_image, rendered_address,
    RoundUp, staged, raise.
  cbn [fst].
  change (Py.len WriteFirmware.replace_me) with 8.
  match goal with |- context [negb (8 =? ?x)] => destruct (negb (8 =? x)) end;
    [|match goal with |- context [negb (?x =? 1)] =>
        destruct (negb (x =? 1)) end];
    cbv beta; cbn [trace files replies nruns];
    repeat rewrite <- app_assoc; reflexivity.
Qed.

Lemma length_append (a b : string) :
  String.length (a ++ b) = (String.length a + String.length b)%nat.
Proof. induction a as [|c a IH]; simpl; congruence. Qed.

Lemma len_append (a b : string) : Py.len (a ++ b) = Py.len a + Py.len b.
Proof. unfold Py.len. rewrite length_append. lia. Qed.

Lemma length_replicate (c : ascii) (n : nat) :
  String.length (Py.replicate c n) = n.
Proof. induction n as [|n IH]; simpl; congruence. Qed.

Lemma len_str_mul (c : ascii) (n : Z) : 0 <= n -> Py.len (Py.str_mul c n) = n.
Proof.
  intros Hn. unfold Py.len, Py.str_mul. rewrite length_replicate. lia.
Qed.

Lemma prefix_length (p s : string) :
  String.prefix p s = true -> (String.length p <= String.length s)%nat.
Proof.
  revert p. induction s as [|c s IH]; intros [|a p]; simpl; intros H;
    try lia; try discriminate H.
  destruct (ascii_dec a c); [|discriminate H].
  apply IH in H. lia.
Qed.

Lemma sub_from_length (pat repl : string) :
  (0 < String.length pat)%nat ->
  String.length repl = String.length pat ->
  forall s k, (k <= String.length s)%nat ->
    (String.length (Py.sub_from pat repl k s) + k = String.length s)%nat.
Proof.
  intros Hpos Hlen. induction s as [|c s IH]; intros k Hk.
  - simpl in *. lia.
  - destruct k as [|k].
    + cbn [Py.sub_from].
      destruct (String.prefix pat (String c s)) eqn:Hpre.
      * apply prefix_length in Hpre. cbn [String.length] in Hpre.
        rewrite length_append, Hlen.
        specialize (IH (String.length pat - 1)%nat ltac:(lia)).
        cbn [String.length]. lia.
      * cbn [String.length]. specialize (IH O ltac:(lia)). lia.
    + cbn [Py.sub_from String.length] in *.
      specialize (IH k ltac:(lia)). lia.
Qed.

Lemma len_re_sub (pat repl s : string) :
  0 < Py.len pat -> Py.len repl = Py.len pat ->
  Py.len (Py.re_sub pat repl s) = Py.len s.
Proof.
  unfold Py.len, Py.re_sub. intros Hpos Hlen.
  pose proof (sub_from_length pat repl ltac:(lia) ltac:(lia) s O ltac:(lia)).
  lia.
Qed.

Lemma substring_all (s : string) : String.substring 0 (String.length s) s = s.
Proof. induction s as [|c s IH]; simpl; congruence. Qed.

Lemma substring_skip (a b : string) (n : nat) :
  String.substring (String.length a) n (a ++ b) = String.substring 0 n b.
Proof. induction a as [|c a IH]; simpl; [reflexivity | exact IH]. Qed.

Lemma slice_after (a b : string) :
  Py.slice (Py.len a) (Py.len b) (a ++ b) = b.
Proof.
  unfold Py.slice, Py.len. rewrite !Nat2Z.id, substring_skip.
  apply substring_all.
Qed.

Lemma RoundUp_4096_ge (v : Z) : v <= RoundUp v 4096.
Proof.
  change 4096 with (2 ^ 12). rewrite RoundUp_pow2 by lia.
  apply (round_up_div_least v (2 ^ 12)). reflexivity.
Qed.

(** C4: when [PrepareFlasher] returns, the file it wrote is the
    bootloader bytes, then the configuration bytes with the marker
    replaced (their length unchanged), then zero bytes up to
    [payload_offset], the 4096-aligned sum of the bootloader and the
    configuration lengths, then the payload; the slice of the payload's
    length at [payload_offset] is the payload. *)
Theorem PrepareFlasher_image_layout (self : WriteFirmware.t)
    (uboot payload : string) (update verify : bool) (boot_type bus : string)
    (w w' : world)
    (data payload_data flasher : string) :
  staged self w payload = Some payload_data ->
  staged self w uboot = Some data ->
  WriteFirmware.PrepareFlasher self uboot payload update verify boot_type bus w
    = (Ok flasher, w') ->
  let cfg :=
    config_bytes self (boot_script payload_data update verify boot_type bus) in
  let cfg' :=
    Py.re_sub WriteFirmware.replace_me (rendered_address self data cfg) cfg in
  let payload_offset := RoundUp (Py.len data + Py.len cfg) 4096 in
  let padding := Py.str_mul "000" (payload_offset - Py.len (data ++ cfg')) in
  let image := data ++ cfg' ++ padding ++ payload_data in
  files w' flasher = Some image
  /\ Py.len cfg' = Py.len cfg
  /\ Py.len (data ++ cfg' ++ padding) = payload_offset
  /\ Py.slice payload_offset (Py.len payload_data) image = payload_data.
Proof.
  intros Hp Hu Hrun cfg cfg' payload_offset padding image.
  rewrite (PrepareFlasher_run _ _ _ _ _ _ _ _ _ _ Hp Hu) in Hrun.
  fold cfg in Hrun.
  destruct (negb (8 =? Py.len (rendered_address self data cfg))) eqn:Hlen;
    [discriminate Hrun|].
  destruct (negb (Py.findall_count WriteFirmware.replace_me cfg =? 1));
    [discriminate Hrun|].
  injection Hrun as <- <-.
  apply negb_false_iff, Z.eqb_eq in Hlen.
  assert (Hcfg : Py.len cfg' = Py.len cfg).
  { apply len_re_sub; [reflexivity|]. rewrite <- Hlen. reflexivity. }
  assert (Hpad : Py.len (data ++ cfg' ++ padding) = payload_offset).
  { assert (Hpl : Py.len padding = payload_offset - Py.len (data ++ cfg')).
    { apply len_str_mul. rewrite len_append, Hcfg.
      pose proof (RoundUp_4096_ge (Py.len data + Py.len cfg)).
      subst payload_offset. lia. }
    rewrite !len_append, Hpl, len_append. lia. }
  assert (Himg : image = (data ++ cfg' ++ padding) ++ payload_data).
  { subst image. rewrite !append_assoc. reflexivity. }
  split; [|split; [exact Hcfg|split; [exact Hpad|]]].
  - cbn [files]. rewrite String.eqb_refl. f_equal.
    unfold flasher_image. fold cfg cfg' payload_offset padding.
    subst image. rewrite !append_assoc. reflexivity.
  - rewrite Himg, <- Hpad. apply slice_after.
Qed.

Lemma run_pair {A} (m : M A) (w : world) (a : A) :
  fst (m w) = Ok a -> m w = (Ok a, snd (m w)).
Proof. destruct (m w) as [r w']. simpl. intros ->. reflexivity. Qed.

Lemma PrepareFlasher_image_layout_witness :
  let self := Sample.self (Sample.fdt 0x00e08000 None) true true false in
  let w := Sample.host [] (Done "") in
  let w' :=
    snd (WriteFirmware.PrepareFlasher self "u-boot.bin" "image.bin" true false
           "spi" "0" w) in
  let cfg :=
    config_bytes self (boot_script "firmware image" true false "spi" "0") in
  let cfg' :=
    Py.re_sub WriteFirmware.replace_me
      (rendered_address self "U-BOOT code" cfg) cfg in
  let padding := Py.str_mul "000" (4096 - Py.len ("U-BOOT code" ++ cfg')) in
  let image := "U-BOOT code" ++ cfg' ++ padding ++ "firmware image" in
  files w' "out/flasher-for-image.bin" = Some image
  /\ Py.len cfg' = Py.len cfg
  /\ Py.len ("U-BOOT code" ++ cfg' ++ padding) = 4096
  /\ Py.slice 4096 (Py.len "firmware image") image = "firmware image".
Proof.
  intros self w w' cfg cfg' padding image.
  apply (PrepareFlasher_image_layout self "u-boot.bin" "image.bin" true false
           "spi" "0" w w' "U-BOOT code" "firmware image"
           "out/flasher-for-image.bin").
  - vm_compute; reflexivity.
  - vm_compute; reflexivity.
  - apply (run_pair
             (WriteFirmware.PrepareFlasher self "u-boot.bin" "image.bin" true
                false "spi" "0") w).
    vm_compute; reflexivity.
Defined.

(** What [re.findall] and [re.sub] do around the one occurrence of the
    marker. *)

Lemma findall_skip (pat : string) : forall (x t : string),
  Py.findall_from pat (String.length x) (x ++ t) = Py.findall_from pat 0 t.
Proof.
  induction x as [|c x IH]; intros t; [reflexivity|].
  cbn [String.length append Py.findall_from]. apply IH.
Qed.

Lemma sub_skip (pat repl : string) : forall (x t : string),
  Py.sub_from pat repl (String.length x) (x ++ t) = Py.sub_from pat repl 0 t.
Proof.
  induction x as [|c x IH]; intros t; [reflexivity|].
  cbn [String.length append Py.sub_from]. apply IH.
Qed.

Lemma findall_occurrence (pat : string) :
  pat <> "" ->
  forall (u : string) (k : nat) (b : string),
    (k <= String.length u)%nat ->
    (1 <= Py.findall_from pat k (u ++ pat ++ b))%nat.
Proof.
  intros Hpat. induction u as [|c u IH]; intros k b Hk.
  - cbn [String.length] in Hk. replace k with O by lia. cbn [append].
    destruct pat as [|p pat']; [contradiction|].
    cbn [append Py.findall_from].
    change (String p (pat' ++ b)) with (String p pat' ++ b).
    rewrite prefix_app. lia.
  - cbn [append Py.findall_from]. destruct k as [|k].
    + destruct (String.prefix pat (String c (u ++ pat ++ b))); [lia|].
      apply IH. lia.
    + apply IH. cbn [String.length] in Hk. lia.
Qed.

Lemma sub_no_match (pat repl : string) : forall (t : string),
  Py.findall_from pat 0 t = O -> Py.sub_from pat repl 0 t = t.
Proof.
  induction t as [|c t IH]; intros H; [reflexivity|].
  cbn [Py.findall_from Py.sub_from] in *.
  destruct (String.prefix pat (String c t)); [discriminate H|].
  rewrite (IH H). reflexivity.
Qed.

Lemma marker_no_overlap (a b : string) :
  String.prefix WriteFirmware.replace_me (a ++ WriteFirmware.replace_me ++ b)
  = true ->
  a = "" \/ (8 <= String.length a)%nat.
Proof.
  unfold WriteFirmware.replace_me. intros H.
  destruct a as [|c1 a]; [left; reflexivity|]. right.
  do 7 (destruct a as [|? a];
        [ exfalso; cbn [append String.prefix] in H;
          repeat match type of H with
                 | context [ascii_dec ?x ?y] =>
                     destruct (ascii_dec x y); [|discriminate H]
                 end;
          congruence
        | ]).
  cbn [String.length]. lia.
Qed.

Lemma findall_at_match (pat b : string) :
  pat <> "" ->
  Py.findall_from pat 0 (pat ++ b) = S (Py.findall_from pat 0 b).
Proof.
  intros Hpat. destruct pat as [|p pat']; [contradiction|].
  cbn [append Py.findall_from].
  change (String p (pat' ++ b)) with (String p pat' ++ b).
  rewrite prefix_app. cbn [String.length]. rewrite Nat.sub_succ, Nat.sub_0_r.
  rewrite findall_skip. reflexivity.
Qed.

Lemma sub_at_match (pat repl b : string) :
  pat <> "" ->
  Py.sub_from pat repl 0 (pat ++ b) = repl ++ Py.sub_from pat repl 0 b.
Proof.
  intros Hpat. destruct pat as [|p pat']; [contradiction|].
  cbn [append Py.sub_from].
  change (String p (pat' ++ b)) with (String p pat' ++ b).
  rewrite prefix_app. cbn [String.length]. rewrite Nat.sub_succ, Nat.sub_0_r.
  rewrite sub_skip. reflexivity.
Qed.

Lemma sub_unique (repl : string) : forall (a s b : string),
  Py.findall_from WriteFirmware.replace_me 0 s = 1%nat ->
  s = a ++ WriteFirmware.replace_me ++ b ->
  Py.sub_from WriteFirmware.replace_me repl 0 s = a ++ repl ++ b.
Proof.
  induction a as [|c a IH]; intros s b Hone ->.
  - cbn [append] in *.
    rewrite findall_at_match in Hone by discriminate.
    injection Hone as Hone.
    rewrite sub_at_match by discriminate.
    rewrite (sub_no_match _ _ b Hone). reflexivity.
  - cbn [append Py.findall_from Py.sub_from] in *.
    destruct (String.prefix WriteFirmware.replace_me
                (String c (a ++ WriteFirmware.replace_me ++ b))) eqn:Hpre.
    + exfalso.
      destruct (marker_no_overlap (String c a) b Hpre) as [Ha|Ha];
        [discriminate Ha|].
      injection Hone as Hone.
      pose proof (findall_occurrence WriteFirmware.replace_me
                    ltac:(discriminate) a
                    (String.length WriteFirmware.replace_me - 1) b) as Hocc.
      cbn [String.length] in Ha.
      change (String.length WriteFirmware.replace_me - 1)%nat with 7%nat in *.
      specialize (Hocc ltac:(lia)).
      change (a ++ WriteFirmware.replace_me ++ b)
        with (a ++ String "z" (String "s" (String "H" (String "E"
                (String "X" (String "Y" (String "l" (String "a" b))))))))
        in Hocc.
      lia.
    + rewrite (IH _ b Hone eq_refl). reflexivity.
Qed.

Lemma findall_one_split (pat : string) : forall (s : string),
  (1 <= Py.findall_from pat 0 s)%nat -> exists a b, s = a ++ pat ++ b.
Proof.
  induction s as [|c s IH]; intros H.
  - cbn in H. lia.
  - cbn [Py.findall_from] in H.
    destruct (String.prefix pat (String c s)) eqn:Hpre.
    + destruct (prefix_split _ _ Hpre) as [b Hb]. exists "", b. exact Hb.
    + destruct (IH H) as (a & b & ->). exists (String c a), b. reflexivity.
Qed.

(** C2: once both input files are read, [PrepareFlasher] raises
    [ValueError] whenever the rendered address is not as long as the
    marker, and raises whenever the marker does not occur exactly once in
    the configuration bytes (the exception is then the [NameError] of the
    unbound name [matches] in the message, unless the length check has
    already raised); when both checks pass it returns, and the written
    image holds the configuration bytes with the marker replaced by the
    rendered address: the marker does occur in them, and for whatever
    text [a] before and [b] after it the image holds [a], the rendered
    address and [b] in its place. *)
Theorem PrepareFlasher_checks (self : WriteFirmware.t)
    (uboot payload : string)
    (update verify : bool) (boot_type bus : string) (w : world)
    (data payload_data : string) :
  staged self w payload = Some payload_data ->
  staged self w uboot = Some data ->
  let cfg :=
    config_bytes self (boot_script payload_data update verify boot_type bus) in
  let new_str := rendered_address self data cfg in
  let r :=
    WriteFirmware.PrepareFlasher self uboot payload update verify boot_type
      bus w in
  (Py.len new_str <> Py.len WriteFirmware.replace_me ->
   exists msg, fst r = Raise (ValueError msg))
  /\ (Py.findall_count WriteFirmware.replace_me cfg <> 1 ->
      exists e, fst r = Raise e
                /\ (Py.len new_str = Py.len WriteFirmware.replace_me ->
                    e = NameError "matches"))
  /\ (Py.len new_str = Py.len WriteFirmware.replace_me ->
      Py.findall_count WriteFirmware.replace_me cfg = 1 ->
      fst r = Ok (flasher_path self)
      /\ (exists padding,
            files (snd r) (flasher_path self)
            = Some (data ++ Py.re_sub WriteFirmware.replace_me new_str cfg
                    ++ padding ++ payload_data))
      /\ (exists a b, cfg = a ++ WriteFirmware.replace_me ++ b)
      /\ (forall a b,
            cfg = a ++ WriteFirmware.replace_me ++ b ->
            exists padding,
              files (snd r) (flasher_path self)
              = Some (data ++ (a ++ new_str ++ b) ++ padding
                      ++ payload_data))).
Proof.
  intros Hp Hu cfg new_str r. subst r.
  rewrite (PrepareFlasher_run _ _ _ _ _ _ _ _ _ _ Hp Hu).
  fold cfg. fold new_str. change (Py.len WriteFirmware.replace_me) with 8.
  destruct (Z.eqb_spec 8 (Py.len new_str)) as [Hlen|Hlen]; cbn [negb].
  - destruct (Z.eqb_spec (Py.findall_count WriteFirmware.replace_me cfg) 1)
      as [Hn|Hn];
      cbn [negb fst snd files].
    + split; [intros H; congruence|]. split; [intros H; congruence|].
      intros _ _. split; [reflexivity|].
      rewrite String.eqb_refl. unfold flasher_image. fold cfg. fold new_str.
      assert (Hone : Py.findall_from WriteFirmware.replace_me 0 cfg = 1%nat)
        by (unfold Py.findall_count in Hn; lia).
      split; [|split].
      * exists (Py.str_mul "000"
                  (RoundUp (Py.len data + Py.len cfg) 4096
                   - Py.len (data
                             ++ Py.re_sub WriteFirmware.replace_me new_str
                                  cfg))).
        rewrite !append_assoc. reflexivity.
      * apply findall_one_split. lia.
      * intros a b Hab. unfold Py.re_sub.
        rewrite (sub_unique new_str a cfg b Hone Hab).
        exists (Py.str_mul "000"
                  (RoundUp (Py.len data + Py.len cfg) 4096
                   - Py.len (data ++ a ++ new_str ++ b))).
        rewrite !append_assoc. reflexivity.
    + split; [intros H; congruence|]. split; [|intros _ H; congruence].
      intros _. eexists. split; reflexivity.
  - split; [intros _; eexists; reflexivity|].
    split; [|intros H; congruence].
    intros _. eexists. split; [reflexivity|]. intros H. congruence.
Qed.

Lemma PrepareFlasher_checks_witness :
  let ok_self := Sample.self (Sample.fdt 0x00e08000 None) true true false in
  let ok_run :=
    WriteFirmware.PrepareFlasher ok_self "u-boot.bin" "image.bin" true false
      "spi" "0" (Sample.host [] (Done "")) in
  let cfg :=
    config_bytes ok_self (boot_script "firmware image" true false "spi" "0") in
  let a := "<fdt /config bootcmd=setenv address       0x" in
  let b :=
    String.substring (String.length a + 8)
      (String.length cfg - String.length a - 8) cfg in
  (exists msg,
     fst (WriteFirmware.PrepareFlasher
            (Sample.self (Sample.fdt 0xfffffffff None) true true false)
            "u-boot.bin" "image.bin" true false "spi" "0"
            (Sample.host [] (Done "")))
     = Raise (ValueError msg))
  /\ (exists e,
        fst (WriteFirmware.PrepareFlasher
               (Sample.self (Sample.echo_fdt 0x00e08000) true true false)
               "u-boot.bin" "image.bin" true false "spi" "0"
               (Sample.host [] (Done "")))
        = Raise e /\ e = NameError "matches")
  /\ fst ok_run = Ok "out/flasher-for-image.bin"
  /\ cfg = a ++ "zsHEXYla" ++ b
  /\ rendered_address ok_self "U-BOOT code" cfg = "00e09000"
  /\ exists padding,
       files (snd ok_run) "out/flasher-for-image.bin"
       = Some ("U-BOOT code"
               ++ (a ++ rendered_address ok_self "U-BOOT code" cfg ++ b)
               ++ padding ++ "firmware image").
Proof.
  intros ok_self ok_run cfg a b.
  split; [|split].
  - apply (PrepareFlasher_checks
             (Sample.self (Sample.fdt 0xfffffffff None) true true false)
             "u-boot.bin" "image.bin" true false "spi" "0"
             (Sample.host [] (Done "")) "U-BOOT code" "firmware image");
      [vm_compute; reflexivity | vm_compute; reflexivity
      | vm_compute; discriminate].
  - destruct (PrepareFlasher_checks
             (Sample.self (Sample.echo_fdt 0x00e08000) true true false)
             "u-boot.bin" "image.bin" true false "spi" "0"
             (Sample.host [] (Done "")) "U-BOOT code" "firmware image")
      as (_ & H & _); [vm_compute; reflexivity | vm_compute; reflexivity|].
    destruct H as (e & He & Hname); [vm_compute; discriminate|].
    exists e. split; [exact He|]. apply Hname. vm_compute; reflexivity.
  - destruct (PrepareFlasher_checks ok_self
             "u-boot.bin" "image.bin" true false "spi" "0"
             (Sample.host [] (Done "")) "U-BOOT code" "firmware image")
      as (_ & _ & H); [vm_compute; reflexivity | vm_compute; reflexivity|].
    destruct H as (Hok & _ & _ & Hsub);
      [vm_compute; reflexivity | vm_compute; reflexivity|].
    assert (Hcfg : cfg = a ++ "zsHEXYla" ++ b) by (vm_compute; reflexivity).
    split; [exact Hok|]. split; [exact Hcfg|].
    split; [vm_compute; reflexivity|].
    exact (Hsub a b Hcfg).
Defined.

(** ** The payload checksum *)

Lemma lxor_below (n a b : Z) :
  0 < n -> 0 <= a < 2 ^ n -> 0 <= b < 2 ^ n -> 0 <= Z.lxor a b < 2 ^ n.
Proof.
  intros Hn Ha Hb.
  assert (H0 : 0 <= Z.lxor a b) by (apply Z.lxor_nonneg; lia).
  split; [exact H0|].
  destruct (Z.eq_dec (Z.lxor a b) 0) as [->|Hne]; [lia|].
  apply Z.log2_lt_pow2; [lia|].
  pose proof (Z.log2_lxor a b ltac:(lia) ltac:(lia)) as Hl.
  assert (Z.log2 a < n).
  { destruct (Z.eq_dec a 0) as [->|]; [simpl; lia|].
    apply Z.log2_lt_pow2; lia. }
  assert (Z.log2 b < n).
  { destruct (Z.eq_dec b 0) as [->|]; [simpl; lia|].
    apply Z.log2_lt_pow2; lia. }
  lia.
Qed.

Lemma crc_bit_range (crc : Z) :
  0 <= crc < 2 ^ 32 -> 0 <= binascii.crc_bit crc < 2 ^ 32.
Proof.
  intros H. unfold binascii.crc_bit.
  assert (0 <= Z.shiftr crc 1 < 2 ^ 32).
  { rewrite Z.shiftr_div_pow2 by lia. change (2 ^ 1) with 2.
    split; [apply Z.div_pos; lia|].
    apply Z.div_lt_upper_bound; lia. }
  destruct (Z.testbit crc 0); [|assumption].
  apply lxor_below; [lia|assumption|lia].
Qed.

Lemma crc_byte_range (crc : Z) (c : ascii) :
  0 <= crc < 2 ^ 32 -> 0 <= binascii.crc_byte crc c < 2 ^ 32.
Proof.
  intros H. unfold binascii.crc_byte. cbn [Nat.iter].
  do 8 apply crc_bit_range.
  apply lxor_below; [lia|assumption|].
  pose proof (N_ascii_bounded c). lia.
Qed.

Lemma crc_update_range (s : string) (crc : Z) :
  0 <= crc < 2 ^ 32 -> 0 <= binascii.crc_update crc s < 2 ^ 32.
Proof.
  revert crc. induction s as [|c s IH]; intros crc H; simpl; [exact H|].
  apply IH, crc_byte_range, H.
Qed.

Lemma crc32_unsigned_range (s : string) :
  0 <= binascii.crc32_unsigned s < 2 ^ 32.
Proof.
  unfold binascii.crc32_unsigned.
  apply lxor_below; [lia| |lia]. apply crc_update_range. lia.
Qed.

Lemma payload_checksum_unsigned (payload_data : string) :
  payload_checksum payload_data = binascii.crc32_unsigned payload_data.
Proof.
  unfold payload_checksum, binascii.crc32.
  pose proof (crc32_unsigned_range payload_data) as H.
  change 0xffffffff with (Z.ones 32). rewrite Z.land_ones by lia.
  destruct (0x80000000 <=? binascii.crc32_unsigned payload_data).
  - replace (binascii.crc32_unsigned payload_data - 0x100000000)
      with (binascii.crc32_unsigned payload_data + (-1) * 2 ^ 32) by lia.
    rewrite Z.mod_add by lia. apply Z.mod_small, H.
  - apply Z.mod_small, H.
Qed.

Lemma crc_command_in_cmds (payload_size checksum : Z) (update verify : bool)
    (boot_type bus : string) :
  In (crc_command checksum)
     (WriteFirmware._GetFlashScript_cmds payload_size update verify boot_type
        checksum bus).
Proof.
  unfold WriteFirmware._GetFlashScript_cmds, crc_command.
  cbv zeta.
  repeat match goal with
         | |- context [if ?c then _ else _] => destruct c
         end;
    repeat (apply in_or_app; left); simpl; tauto.
Qed.

(** C9: the checksum [PrepareFlasher] computes is a function of the
    payload bytes only: [binascii.crc32] of the payload masked with
    [0xffffffff], which is the unsigned CRC-32 and lies in [0, 2^32).
    That value is the argument of the script's [crc32 -v] command, in
    the script handed to [fdt.PutString], and the value of the
    [Payload checksum] notice. *)
Theorem payload_checksum_embedded (self : WriteFirmware.t)
    (uboot payload : string) (update verify : bool) (boot_type bus : string)
    (w w' : world) (data payload_data flasher : string) :
  staged self w payload = Some payload_data ->
  staged self w uboot = Some data ->
  WriteFirmware.PrepareFlasher self uboot payload update verify boot_type bus w
    = (Ok flasher, w') ->
  let checksum := payload_checksum payload_data in
  checksum = Z.land (binascii.crc32 payload_data) 0xffffffff
  /\ checksum = binascii.crc32_unsigned payload_data
  /\ 0 <= checksum < 2 ^ 32
  /\ (exists cmds,
        In (crc_command checksum) cmds
        /\ In (EvFdtPutString (dtb_path self) "/config" "bootcmd"
                 (String.concat "; " cmds)) (trace w'))
  /\ In (EvNotice ("Payload checksum " ++ Py.fmt_x false 8 checksum))
        (trace w').
Proof.
  intros Hp Hu Hrun checksum.
  rewrite (PrepareFlasher_run _ _ _ _ _ _ _ _ _ _ Hp Hu) in Hrun.
  repeat match type of Hrun with
         | (if ?c then _ else _) = _ => destruct c; [discriminate Hrun|]
         end.
  injection Hrun as <- <-. cbn [trace].
  split; [reflexivity|].
  split; [apply payload_checksum_unsigned|].
  split.
  { subst checksum. rewrite payload_checksum_unsigned.
    apply crc32_unsigned_range. }
  split.
  - exists (WriteFirmware._GetFlashScript_cmds (Py.len payload_data) update
              verify boot_type checksum bus).
    split; [apply crc_command_in_cmds|].
    rewrite !in_app_iff. left. right. simpl. right. left. reflexivity.
  - rewrite !in_app_iff. right. simpl. tauto.
Qed.

Lemma payload_checksum_embedded_witness :
  let self := Sample.self (Sample.fdt 0x00e08000 None) true true false in
  let w := Sample.host [] (Done "") in
  let w' :=
    snd (WriteFirmware.PrepareFlasher self "u-boot.bin" "image.bin" true false
           "spi" "0" w) in
  let checksum := payload_checksum "firmware image" in
  checksum = Z.land (binascii.crc32 "firmware image") 0xffffffff
  /\ checksum = binascii.crc32_unsigned "firmware image"
  /\ 0 <= checksum < 2 ^ 32
  /\ (exists cmds,
        In (crc_command checksum) cmds
        /\ In (EvFdtPutString (dtb_path self) "/config" "bootcmd"
                 (String.concat "; " cmds)) (trace w'))
  /\ In (EvNotice ("Payload checksum " ++ Py.fmt_x false 8 checksum))
        (trace w').
Proof.
  intros self w w' checksum.
  apply (payload_checksum_embedded self "u-boot.bin" "image.bin" true false
           "spi" "0" w w' "U-BOOT code" "firmware image"
           "out/flasher-for-image.bin").
  - vm_compute; reflexivity.
  - vm_compute; reflexivity.
  - apply (run_pair
             (WriteFirmware.PrepareFlasher self "u-boot.bin" "image.bin" true
                false "spi" "0") w).
    vm_compute; reflexivity.
Defined.

(** ** Running commands *)

Lemma after_eq (w : world) (tr : list event) (n : nat) (evs : list event)
    (k : nat) :
  tr = (trace w ++ evs)%list -> n = (nruns w + k)%nat ->
  World tr (files w) (replies w) n = after w evs k.
Proof. intros -> ->. reflexivity. Qed.

Lemma after_after (w : world) (e1 e2 : list event) (k1 k2 : nat) :
  after (after w e1 k1) e2 k2 = after w (e1 ++ e2)%list (k1 + k2).
Proof.
  unfold after. cbn [trace files replies nruns].
  f_equal; [apply eq_sym, app_assoc | lia].
Qed.

Lemma after_nil (w : world) : after w [] 0 = w.
Proof.
  destruct w as [tr fs rp n]. unfold after. cbn [trace files replies nruns].
  f_equal; [apply app_nil_r | lia].
Qed.

Lemma Run_done cmd args sudo w out :
  replies w (nruns w) = Done out ->
  Tools.Run cmd args sudo w = (Ok out, after w [EvRun cmd args sudo] 1).
Proof.
  intros H. unfold Tools.Run. rewrite H. f_equal.
  apply after_eq; [reflexivity|lia].
Qed.

Lemma Run_failed cmd args sudo w msg :
  replies w (nruns w) = Failed msg ->
  Tools.Run cmd args sudo w
  = (Raise (CmdError msg), after w [EvRun cmd args sudo] 1).
Proof.
  intros H. unfold Tools.Run. rewrite H. f_equal.
  apply after_eq; [reflexivity|lia].
Qed.

Lemma emit_after e w : emit e w = (Ok tt, after w [e] 0).
Proof. unfold emit. f_equal. apply after_eq; [reflexivity|lia]. Qed.

Section Probe.

Variables (name : string) (vendor_id product_id : Z).

Let args := lsusb_args vendor_id product_id.
Let tries := WriteFirmware._WaitForUSBDevice_tries name vendor_id product_id.

Lemma tries_step_failed (n : nat) (w : world) (msg : string) :
  replies w (nruns w) = Failed msg ->
  tries (S n) w
  = tries n (after w [EvRun "lsusb" args true; EvSleep 500] 1).
Proof.
  intros H. subst tries. cbn [WriteFirmware._WaitForUSBDevice_tries].
  unfold try_except_CmdError, bind at 1.
  fold args. unfold lsusb_args in args. fold args.
  rewrite (Run_failed _ _ _ _ _ H).
  unfold bind, time_sleep. rewrite emit_after, after_after. reflexivity.
Qed.

Lemma tries_step_found (n : nat) (w : world) (out : string) :
  replies w (nruns w) = Done out ->
  tries (S n) w
  = (Ok true,
     after w [EvRun "lsusb" args true;
              EvProgress ("Found " ++ name ++ " board") None] 1).
Proof.
  intros H. subst tries. cbn [WriteFirmware._WaitForUSBDevice_tries].
  unfold try_except_CmdError, bind.
  rewrite (Run_done _ _ _ _ _ H).
  unfold Output.Progress. rewrite emit_after, after_after. reflexivity.
Qed.

Lemma tries_exhausted (n : nat) : forall w,
  (forall i, (i < n)%nat -> exists msg, replies w (nruns w + i) = Failed msg) ->
  tries n w = (Ok false, after w (failed_probes args n) n).
Proof.
  induction n as [|n IH]; intros w H.
  - subst tries. cbn. unfold ret. rewrite after_nil. reflexivity.
  - destruct (H O ltac:(lia)) as [msg Hmsg].
    rewrite Nat.add_0_r in Hmsg.
    rewrite (tries_step_failed n w msg Hmsg), IH, after_after.
    + reflexivity.
    + intros i Hi. destruct (H (S i) ltac:(lia)) as [m Hm].
      exists m. cbn [after replies nruns]. rewrite <- Hm. f_equal. lia.
Qed.

Lemma tries_found (k : nat) : forall n w out,
  (k < n)%nat ->
  (forall i, (i < k)%nat -> exists msg, replies w (nruns w + i) = Failed msg) ->
  replies w (nruns w + k) = Done out ->
  tries n w
  = (Ok true,
     after w (failed_probes args k
              ++ [EvRun "lsusb" args true;
                  EvProgress ("Found " ++ name ++ " board") None])%list
           (k + 1)).
Proof.
  induction k as [|k IH]; intros n w out Hk H Hout.
  - destruct n as [|n]; [lia|]. rewrite Nat.add_0_r in Hout.
    rewrite (tries_step_found n w out Hout). reflexivity.
  - destruct n as [|n]; [lia|].
    destruct (H O ltac:(lia)) as [msg Hmsg].
    rewrite Nat.add_0_r in Hmsg.
    rewrite (tries_step_failed n w msg Hmsg), (IH n _ out), after_after.
    + reflexivity.
    + lia.
    + intros i Hi. destruct (H (S i) ltac:(lia)) as [m Hm].
      exists m. cbn [after replies nruns]. rewrite <- Hm. f_equal. lia.
    + cbn [after replies nruns]. rewrite <- Hout. f_equal. lia.
Qed.

End Probe.

(** ** Waiting for the USB device *)

Lemma first_answer (rp : nat -> reply) (start n : nat) :
  (exists k out, (k < n)%nat
                 /\ (forall i, (i < k)%nat ->
                                exists msg, rp (start + i)%nat = Failed msg)
                 /\ rp (start + k)%nat = Done out)
  \/ (forall i, (i < n)%nat -> exists msg, rp (start + i)%nat = Failed msg).
Proof.
  induction n as [|n IH].
  - right. intros i Hi. lia.
  - destruct IH as [(k & out & Hk & Hf & Hd)|Hall].
    + left. exists k, out. repeat split; [lia|exact Hf|exact Hd].
    + destruct (rp (start + n)%nat) as [out|msg] eqn:E.
      * left. exists n, out. repeat split; [lia|exact Hall|exact E].
      * right. intros i Hi. destruct (Nat.eq_dec i n) as [->|Hne].
        -- exists msg. exact E.
        -- apply Hall. lia.
Qed.

Lemma wait_found (self : WriteFirmware.t) (name : string)
    (vendor_id product_id timeout : Z) (w : world) (k : nat) (out : string) :
  (k < Z.to_nat (timeout * 2))%nat ->
  (forall i, (i < k)%nat -> exists msg, replies w (nruns w + i) = Failed msg) ->
  replies w (nruns w + k) = Done out ->
  WriteFirmware._WaitForUSBDevice self name vendor_id product_id timeout w
  = (Ok true,
     after w (waiting :: failed_probes (lsusb_args vendor_id product_id) k
              ++ [EvRun "lsusb" (lsusb_args vendor_id product_id) true;
                  found name])%list
           (k + 1)).
Proof.
  intros Hk Hf Hd.
  unfold WriteFirmware._WaitForUSBDevice, bind, Output.Progress.
  rewrite emit_after.
  rewrite (tries_found name vendor_id product_id k _ _ out Hk).
  - rewrite after_after. reflexivity.
  - intros i Hi. cbn [after replies nruns]. rewrite Nat.add_0_r.
    apply Hf, Hi.
  - cbn [after replies nruns]. rewrite Nat.add_0_r. exact Hd.
Qed.

Lemma wait_exhausted (self : WriteFirmware.t) (name : string)
    (vendor_id product_id timeout : Z) (w : world) :
  (forall i, (i < Z.to_nat (timeout * 2))%nat ->
             exists msg, replies w (nruns w + i) = Failed msg) ->
  WriteFirmware._WaitForUSBDevice self name vendor_id product_id timeout w
  = (Ok false,
     after w (waiting
              :: failed_probes (lsusb_args vendor_id product_id)
                   (Z.to_nat (timeout * 2)))
           (Z.to_nat (timeout * 2))).
Proof.
  intros Hf.
  unfold WriteFirmware._WaitForUSBDevice, bind, Output.Progress.
  rewrite emit_after, tries_exhausted.
  - rewrite after_after. reflexivity.
  - intros i Hi. cbn [after replies nruns]. rewrite Nat.add_0_r.
    apply Hf, Hi.
Qed.

(** C5: for a timeout of at least zero the probe has a budget of
    [timeout * 2] cycles.  If the first [k] queries fail, whatever their
    error, and the next one, within the budget, succeeds, the probe
    returns [True] right after that query, having slept half a second
    after each failed one; if every query of the budget fails it returns
    [False] after exactly [timeout * 2] cycles, each followed by the
    half-second sleep.  It returns [False] in no other way, and it never
    raises. *)
Theorem WaitForUSBDevice_cycles (self : WriteFirmware.t) (name : string)
    (vendor_id product_id timeout : Z) (w : world) :
  0 <= timeout ->
  let budget := Z.to_nat (timeout * 2) in
  let args := lsusb_args vendor_id product_id in
  let run :=
    WriteFirmware._WaitForUSBDevice self name vendor_id product_id timeout w in
  Z.of_nat budget = timeout * 2
  /\ (forall k out,
        (k < budget)%nat ->
        (forall i, (i < k)%nat ->
                   exists msg, replies w (nruns w + i) = Failed msg) ->
        replies w (nruns w + k) = Done out ->
        run = (Ok true,
               after w (waiting :: failed_probes args k
                        ++ [EvRun "lsusb" args true; found name])%list
                     (k + 1)))
  /\ ((forall i, (i < budget)%nat ->
                 exists msg, replies w (nruns w + i) = Failed msg) ->
      run = (Ok false, after w (waiting :: failed_probes args budget) budget))
  /\ (fst run = Ok false ->
      snd run = after w (waiting :: failed_probes args budget) budget)
  /\ exists b, fst run = Ok b.
Proof.
  intros Ht budget args run.
  split; [subst budget; lia|].
  split; [intros k out; apply wait_found|].
  split; [apply wait_exhausted|].
  destruct (first_answer (replies w) (nruns w) budget)
    as [(k & out & Hk & Hf & Hd)|Hall]; subst run.
  - rewrite (wait_found self name vendor_id product_id timeout w k out Hk Hf
               Hd).
    split; [discriminate|]. exists true. reflexivity.
  - rewrite (wait_exhausted self name vendor_id product_id timeout w Hall).
    split; [reflexivity|]. exists false. reflexivity.
Qed.

Lemma WaitForUSBDevice_cycles_witness :
  let self := Sample.self (Sample.fdt 0x43e00000 None) true true false in
  let absent := Failed "exit status 1" in
  let args := lsusb_args 0x04e8 0x1234 in
  WriteFirmware._WaitForUSBDevice self "exynos" 0x04e8 0x1234 4
    (Sample.host [absent; absent; Failed "lsusb: not found"] (Done "Bus 001"))
  = (Ok true,
     after (Sample.host [absent; absent; Failed "lsusb: not found"]
              (Done "Bus 001"))
       (waiting :: failed_probes args 3
        ++ [EvRun "lsusb" args true; found "exynos"])%list 4)
  /\ WriteFirmware._WaitForUSBDevice self "exynos" 0x04e8 0x1234 4
       (Sample.host [] absent)
     = (Ok false, after (Sample.host [] absent)
                    (waiting :: failed_probes args 8) 8).
Proof.
  intros self absent args. split.
  - destruct (WaitForUSBDevice_cycles self "exynos" 0x04e8 0x1234 4
                (Sample.host [absent; absent; Failed "lsusb: not found"]
                   (Done "Bus 001")) ltac:(lia)) as (_ & Hfound & _).
    apply (Hfound 3%nat "Bus 001").
    + vm_compute. lia.
    + intros i Hi.
      destruct i as [|[|[|i]]]; [eexists; reflexivity .. | lia].
    + reflexivity.
  - destruct (WaitForUSBDevice_cycles self "exynos" 0x04e8 0x1234 4
                (Sample.host [] absent) ltac:(lia)) as (_ & _ & Hnone & _).
    apply Hnone.
    intros i _. exists "exit status 1".
    unfold Sample.host, Sample.answers. cbn [replies nruns Nat.add].
    destruct i as [|i]; reflexivity.
Defined.

(** ** The Nvidia path *)

Section Nvflash.

Variables (self : WriteFirmware.t) (args : list string).

Let tries := WriteFirmware._NvidiaFlashImage_tries self args.

Lemma nv_step_done (n : nat) (last : option string) (w : world)
    (out : string) :
  replies w (nruns w) = Done out ->
  tries (S n) last w
  = (Ok true, after w [EvRun "nvflash" args true; downloaded] 1).
Proof.
  intros H. subst tries. cbn [WriteFirmware._NvidiaFlashImage_tries].
  unfold try_except_CmdError, bind.
  rewrite (Run_done _ _ _ _ _ H).
  unfold Output.Notice. rewrite emit_after, after_after. reflexivity.
Qed.

Lemma nv_step_not_tty (n : nat) (last : option string) (w : world)
    (msg : string) :
  Output.stdout_is_tty (WriteFirmware._out self) = false ->
  replies w (nruns w) = Failed msg ->
  tries (S n) last w = (Ok false, after w [EvRun "nvflash" args true] 1).
Proof.
  intros Htty H. subst tries. cbn [WriteFirmware._NvidiaFlashImage_tries].
  unfold try_except_CmdError, bind.
  rewrite (Run_failed _ _ _ _ _ H), Htty. reflexivity.
Qed.

Lemma nv_step_fatal (n : nat) (last : option string) (w : world)
    (msg : string) :
  Output.stdout_is_tty (WriteFirmware._out self) = true ->
  replies w (nruns w) = Failed msg ->
  transient msg = false ->
  tries (S n) last w
  = (Raise (CmdError ("nvflash failed: " ++ msg)),
     after w [EvRun "nvflash" args true] 1).
Proof.
  intros Htty H Hmsg. subst tries.
  cbn [WriteFirmware._NvidiaFlashImage_tries].
  unfold try_except_CmdError, bind.
  rewrite (Run_failed _ _ _ _ _ H), Htty. unfold transient in Hmsg.
  cbn [negb]. rewrite Hmsg. reflexivity.
Qed.

Lemma nv_step_transient (n : nat) (last : option string) (w : world)
    (msg : string) :
  Output.stdout_is_tty (WriteFirmware._out self) = true ->
  replies w (nruns w) = Failed msg ->
  transient msg = true ->
  tries (S n) last w
  = tries n (Some msg) (after w (transient_events args last [msg]) 1).
Proof.
  intros Htty H Hmsg. subst tries.
  cbn [WriteFirmware._NvidiaFlashImage_tries].
  unfold try_except_CmdError, bind at 1.
  rewrite (Run_failed _ _ _ _ _ H), Htty. unfold transient in Hmsg.
  cbn [negb]. rewrite Hmsg. cbn [negb transient_events].
  unfold differs.
  destruct last as [e|]; [destruct (String.eqb_spec msg e) as [->|Hne]|];
    cbn [negb]; unfold bind, ret, time_sleep, Output.Notice,
      Output.Progress2; rewrite ?emit_after, ?after_after;
    rewrite app_nil_r; reflexivity.
Qed.



End Nvflash.




(** ** The Exynos path *)

Lemma download_finally (self : WriteFirmware.t) (vendor_id product_id : Z)
    (download_list : list (string * Z * string)) (w : world)
    (r1 : result unit) (w1 : world) :
  WriteFirmware._ExynosFlashImage_stages self vendor_id product_id
    download_list true w = (r1, w1) ->
  WriteFirmware._ExynosFlashImage_download self vendor_id product_id
    download_list w
  = (match replies w1 (nruns w1) with
     | Done _ => r1
     | Failed msg => Raise (CmdError msg)
     end,
     after w1 [cleanup] 1).
Proof.
  intros H. unfold WriteFirmware._ExynosFlashImage_download, try_finally.
  rewrite H. unfold bind.
  destruct (replies w1 (nruns w1)) as [out|msg] eqn:E.
  - rewrite (Run_done _ _ _ _ _ E). reflexivity.
  - rewrite (Run_failed _ _ _ _ _ E). reflexivity.
Qed.

Lemma stages_board_absent (self : WriteFirmware.t) (vendor_id product_id : Z)
    (item : string * Z * string) (rest : list (string * Z * string))
    (w : world) :
  (forall i, (i < 8)%nat -> exists msg, replies w (nruns w + i) = Failed msg) ->
  WriteFirmware._ExynosFlashImage_stages self vendor_id product_id
    (item :: rest) true w
  = (Raise board_not_found,
     after w (waiting :: failed_probes (lsusb_args vendor_id product_id) 8) 8).
Proof.
  intros Hf. destruct item as [[stage addr] file].
  cbn [WriteFirmware._ExynosFlashImage_stages]. unfold bind.
  rewrite (wait_exhausted self "exynos" vendor_id product_id 4 w Hf).
  reflexivity.
Qed.

Lemma exynos_after_prepare (self : WriteFirmware.t)
    (uboot bl1 bl2 payload flasher out : string) (w0 w : world) :
  WriteFirmware.PrepareFlasher self uboot payload (WriteFirmware.update self)
    (WriteFirmware.verify self) "Spi" "1:0" w0 = (Ok flasher, w) ->
  replies w (nruns w) = Done out ->
  WriteFirmware._ExynosFlashImage self uboot bl1 bl2 payload w0
  = (WriteFirmware._ExynosFlashImage_download self 0x04e8 0x1234
       [ ("bl1", 0x02021400, bl1);
         ("bl2", 0x02023400, bl2);
         ("u-boot", 0x43e00000, flasher) ] ;;
     Output.Notice
       "Flasher downloaded - please see serial output for progress." ;;
     ret true) (after w reset_events 1).
Proof.
  intros Hprep Hout.
  unfold WriteFirmware._ExynosFlashImage, bind at 1. rewrite Hprep.
  unfold bind at 1, Output.Progress at 1. rewrite emit_after.
  unfold bind at 1. cbn [app].
  rewrite (Run_done _ _ _ (after w _ 0) out)
    by (cbn [after replies nruns]; rewrite Nat.add_0_r; exact Hout).
  unfold bind at 1, time_sleep. rewrite emit_after.
  unfold bind at 1, Output.Progress at 1. rewrite emit_after.
  rewrite !after_after. reflexivity.
Qed.

(** C6, amended: whatever the stage loop does, the cleanup command
    [dut-control fw_up:off pwr_button:release] is the next thing issued,
    and the statement ends as the loop did unless the cleanup command
    fails, in which case its own [CmdError] is what propagates.  When the
    eight probe cycles before the first stage all fail, nothing but the
    probes and the cleanup command runs (no [smdk-usbdl] transfer), and
    the error raised is
    [CmdError "Could not find Exynos board on USB port"] provided the
    cleanup command succeeds; the same holds of [_ExynosFlashImage] as a
    whole once the flasher is prepared and the servo reset went
    through. *)
Theorem ExynosFlashImage_cleanup (self : WriteFirmware.t)
    (vendor_id product_id : Z) (w : world) :
  let download :=
    WriteFirmware._ExynosFlashImage_download self vendor_id product_id in
  let probes := failed_probes (lsusb_args vendor_id product_id) 8 in
  (forall download_list,
     exists r1 w1,
       WriteFirmware._ExynosFlashImage_stages self vendor_id product_id
         download_list true w = (r1, w1)
       /\ snd (download download_list w) = after w1 [cleanup] 1
       /\ fst (download download_list w)
          = match replies w1 (nruns w1) with
            | Done _ => r1
            | Failed msg => Raise (CmdError msg)
            end)
  /\ (forall item rest,
        (forall i, (i < 8)%nat ->
                   exists msg, replies w (nruns w + i) = Failed msg) ->
        snd (download (item :: rest) w)
        = after w (waiting :: probes ++ [cleanup])%list 9
        /\ (forall cmd args sudo,
              In (EvRun cmd args sudo) (waiting :: probes ++ [cleanup])%list ->
              cmd <> "smdk-usbdl")
        /\ (forall out,
              replies w (nruns w + 8) = Done out ->
              fst (download (item :: rest) w) = Raise board_not_found)
        /\ (forall msg,
              replies w (nruns w + 8) = Failed msg ->
              fst (download (item :: rest) w) = Raise (CmdError msg)))
  /\ (forall uboot bl1 bl2 payload flasher out w0,
        let session :=
          WriteFirmware._ExynosFlashImage self uboot bl1 bl2 payload w0 in
        let probes := failed_probes (lsusb_args 0x04e8 0x1234) 8 in
        WriteFirmware.PrepareFlasher self uboot payload
          (WriteFirmware.update self) (WriteFirmware.verify self) "Spi" "1:0"
          w0 = (Ok flasher, w) ->
        replies w (nruns w) = Done out ->
        (forall i, (i < 8)%nat ->
                   exists msg, replies w (nruns w + 1 + i) = Failed msg) ->
        snd session
        = after w (reset_events ++ waiting :: probes ++ [cleanup])%list 10
        /\ (forall out',
              replies w (nruns w + 9) = Done out' ->
              fst session = Raise board_not_found)
        /\ (forall msg,
              replies w (nruns w + 9) = Failed msg ->
              fst session = Raise (CmdError msg))).
Proof.
  intros download probes. split; [|split].
  - intros download_list.
    destruct (WriteFirmware._ExynosFlashImage_stages self vendor_id product_id
                download_list true w) as [r1 w1] eqn:E.
    exists r1, w1. subst download.
    rewrite (download_finally _ _ _ _ _ _ _ E). repeat split.
  - intros item rest Hf. subst download.
    rewrite (download_finally _ _ _ _ _ _ _
               (stages_board_absent self vendor_id product_id item rest w Hf)).
    cbn [fst snd after replies nruns]. split; [|split; [|split]].
    + rewrite after_after. reflexivity.
    + intros cmd args sudo Hin. subst probes. cbn in Hin.
      repeat (destruct Hin as [Hin|Hin];
              [first [discriminate Hin
                     | injection Hin as <- _ _; discriminate]|]);
        contradiction.
    + intros out ->. reflexivity.
    + intros msg ->. reflexivity.
  - intros uboot bl1 bl2 payload flasher out w0 session probes'
      Hprep Hout Hf.
    assert (Hs : session
                 = (match replies w (nruns w + 9) with
                    | Done _ => Raise board_not_found
                    | Failed msg => Raise (CmdError msg)
                    end,
                    after w (reset_events ++ waiting :: probes'
                             ++ [cleanup])%list 10)).
    { subst session.
      rewrite (exynos_after_prepare _ _ _ _ _ _ _ _ _ Hprep Hout).
      unfold bind at 1.
      rewrite (download_finally _ _ _ _ _ _ _
                 (stages_board_absent self _ _ _ _ (after w reset_events 1)
                    Hf)).
      cbn [after replies nruns].
      replace (nruns w + 1 + 8)%nat with (nruns w + 9)%nat by lia.
      fold (after w reset_events 1).
      fold (after (after w reset_events 1) (waiting :: probes') 8).
      fold (after (after (after w reset_events 1) (waiting :: probes') 8)
                  [cleanup] 1).
      rewrite !after_after.
      destruct (replies w (nruns w + 9)); reflexivity. }
    rewrite Hs. cbn [fst snd]. split; [reflexivity|].
    split; [intros o ->; reflexivity | intros msg ->; reflexivity].
Qed.

Lemma ExynosFlashImage_cleanup_witness :
  let self :=
    Sample.self (Sample.fdt 0x43e00000 (Some "exynos")) true true false in
  let session :=
    WriteFirmware._ExynosFlashImage self "u-boot.bin" "bl1.bin" "bl2.bin"
      "image.bin" (Sample.exynos_host (Done "")) in
  fst session = Raise board_not_found
  /\ List.last (trace (snd session)) waiting = cleanup
  /\ nruns (snd session) = 10%nat.
Proof.
  intros self session.
  pose (w := snd (WriteFirmware.PrepareFlasher self "u-boot.bin" "image.bin"
                    (WriteFirmware.update self) (WriteFirmware.verify self)
                    "Spi" "1:0" (Sample.exynos_host (Done "")))).
  destruct (ExynosFlashImage_cleanup self 0x04e8 0x1234 w) as (_ & _ & H).
  destruct (H "u-boot.bin" "bl1.bin" "bl2.bin" "image.bin"
              "out/flasher-for-image.bin" "" (Sample.exynos_host (Done "")))
    as (Hsnd & Hdone & _).
  - apply (run_pair
             (WriteFirmware.PrepareFlasher self "u-boot.bin" "image.bin"
                (WriteFirmware.update self) (WriteFirmware.verify self)
                "Spi" "1:0") (Sample.exynos_host (Done ""))).
    vm_compute; reflexivity.
  - vm_compute; reflexivity.
  - intros i Hi. exists "exit status 1".
    do 8 (destruct i as [|i]; [vm_compute; reflexivity|]). lia.
  - split; [apply (Hdone ""); vm_compute; reflexivity|].
    fold session in Hsnd. rewrite Hsnd. split; vm_compute; reflexivity.
Defined.

Lemma ExynosFlashImage_cleanup_failure_counterexample :
  let self :=
    Sample.self (Sample.fdt 0x43e00000 (Some "exynos")) true true false in
  let w0 := Sample.exynos_host (Failed "dut-control: servod is not running") in
  let session :=
    WriteFirmware._ExynosFlashImage self "u-boot.bin" "bl1.bin" "bl2.bin"
      "image.bin" w0 in
  map (replies w0) (seq 1 8) = repeat (Failed "exit status 1") 8
  /\ fst session = Raise (CmdError "dut-control: servod is not running")
  /\ fst session <> Raise board_not_found
  /\ List.last (trace (snd session)) waiting = cleanup.
Proof.
  vm_compute. repeat split; try reflexivity. discriminate.
Qed.

(** ** Dispatch on the destination *)

Lemma dest_is_spec (dest : option string) (s : string) :
  dest_is dest s = true <-> dest = Some s.
Proof.
  destruct dest as [d|]; cbn.
  - rewrite String.eqb_eq. split; congruence.
  - split; discriminate.
Qed.

Lemma dest_is_false (dest : option string) (s : string) :
  dest <> Some s -> dest_is dest s = false.
Proof.
  intros H. destruct (dest_is dest s) eqn:E; [|reflexivity].
  apply dest_is_spec in E. contradiction.
Qed.

(** C7: [DoWriteFirmware] with [dest = 'sd'] returns and leaves the
    world as it was; with a destination that is neither ['usb'] nor
    ['sd'] it raises [CmdError] naming the destination; with ['usb'] and
    a flash method other than ['tegra'] and ['exynos'] it raises
    [CmdError] naming the method; with ['usb'], when the family's method
    returns [False] it raises the upload-failure [CmdError], and when it
    returns [True] it reports that the image was uploaded. *)
Theorem DoWriteFirmware_dispatch (output : Output.t) (tools : Tools.t)
    (fdt : Fdt.t) (flasher : string) (file_list : string -> option string)
    (image_fname : string) (text_base : option Z) (update verify : bool)
    (dest : option string) (w : world) :
  let run :=
    DoWriteFirmware output tools fdt flasher file_list image_fname text_base
      update verify dest w in
  let write := writer output tools fdt text_base update verify in
  let method := flash_method fdt in
  let finish (ok : bool) (w' : world) :=
    if ok then (Ok tt, after w' [uploaded] 0) else (Raise upload_failed, w') in
  (dest = Some "sd" -> run = (Ok tt, w))
  /\ (dest <> Some "usb" -> dest <> Some "sd" ->
      run = (Raise (CmdError ("Unknown destination device '"
                              ++ str_of_dest dest ++ "'")), w))
  /\ (dest = Some "usb" -> method <> "tegra" -> method <> "exynos" ->
      run = (Raise (CmdError ("Unknown flash method '" ++ method ++ "'")), w))
  /\ (dest = Some "usb" -> method = "tegra" ->
      forall bct ok w',
        file_list "bct" = Some bct ->
        WriteFirmware._NvidiaFlashImage write flasher bct image_fname w
        = (Ok ok, w') ->
        run = finish ok w')
  /\ (dest = Some "usb" -> method = "exynos" ->
      forall bl1 bl2 ok w',
        file_list "exynos-bl1" = Some bl1 ->
        file_list "exynos-bl2" = Some bl2 ->
        WriteFirmware._ExynosFlashImage write flasher bl1 bl2 image_fname w
        = (Ok ok, w') ->
        run = finish ok w').
Proof.
  intros run write method finish.
  assert (Husb : dest = Some "usb" ->
                 run = (ok <-
                          (if String.eqb method "tegra" then
                             bct <- getitem file_list "bct" ;;
                             WriteFirmware._NvidiaFlashImage write flasher bct
                               image_fname
                           else if String.eqb method "exynos" then
                             bl1 <- getitem file_list "exynos-bl1" ;;
                             bl2 <- getitem file_list "exynos-bl2" ;;
                             WriteFirmware._ExynosFlashImage write flasher bl1
                               bl2 image_fname
                           else raise (CmdError ("Unknown flash method '"
                                                 ++ method ++ "'"))) ;;
                        if (ok : bool) then
                          Output.Progress
                            ("Image uploaded - please wait for flashing "
                             ++ "to complete")
                        else raise upload_failed) w).
  { intros ->. reflexivity. }
  split; [intros ->; reflexivity|].
  split.
  { intros H1 H2. subst run. unfold DoWriteFirmware.
    rewrite (dest_is_false dest "usb" H1), (dest_is_false dest "sd" H2).
    reflexivity. }
  split.
  { intros Hd H1 H2. rewrite (Husb Hd).
    apply String.eqb_neq in H1, H2. rewrite H1, H2. reflexivity. }
  split.
  - intros Hd Hm bct ok w' Hbct Hrun. rewrite (Husb Hd), Hm.
    cbn [String.eqb Ascii.eqb Bool.eqb]. unfold bind at 1, bind at 1, getitem.
    rewrite Hbct. unfold ret at 1. rewrite Hrun.
    destruct ok; [|reflexivity].
    unfold Output.Progress. rewrite emit_after. reflexivity.
  - intros Hd Hm bl1 bl2 ok w' Hbl1 Hbl2 Hrun. rewrite (Husb Hd), Hm.
    cbn [String.eqb Ascii.eqb Bool.eqb].
    unfold bind at 1, bind at 1, bind at 1, getitem.
    rewrite Hbl1, Hbl2. unfold ret at 1 2. rewrite Hrun.
    destruct ok; [|reflexivity].
    unfold Output.Progress. rewrite emit_after. reflexivity.
Qed.

Lemma DoWriteFirmware_dispatch_witness :
  let fdt := Sample.fdt 0x00e08000 None in
  let run out fdt dest w :=
    DoWriteFirmware (Sample.output out) Sample.tools fdt "u-boot.bin"
      Sample.file_list "image.bin" None true false dest w in
  let quiet := Sample.host [] (Done "") in
  let unplugged :=
    Sample.host [Done Sample.bct_dump; Failed "USB device not found"]
      (Done "") in
  let plugged := Sample.host [Done Sample.bct_dump] (Done "") in
  run true fdt (Some "sd") quiet = (Ok tt, quiet)
  /\ run true fdt None quiet
     = (Raise (CmdError "Unknown destination device 'None'"), quiet)
  /\ run true (Sample.fdt 0 (Some "jtag")) (Some "usb") quiet
     = (Raise (CmdError "Unknown flash method 'jtag'"), quiet)
  /\ fst (run false fdt (Some "usb") unplugged) = Raise upload_failed
  /\ (fst (run true fdt (Some "usb") plugged) = Ok tt
      /\ List.last (trace (snd (run true fdt (Some "usb") plugged))) waiting
         = uploaded)
  /\ fst (run true (Sample.fdt 0x43e00000 (Some "exynos")) (Some "usb") quiet)
     = Ok tt.
Proof.
  intros fdt run quiet unplugged plugged.
  split; [|split; [|split; [|split; [|split]]]].
  - apply (DoWriteFirmware_dispatch (Sample.output true) Sample.tools fdt
             "u-boot.bin" Sample.file_list "image.bin" None true false
             (Some "sd") quiet).
    reflexivity.
  - apply (DoWriteFirmware_dispatch (Sample.output true) Sample.tools fdt
             "u-boot.bin" Sample.file_list "image.bin" None true false
             None quiet); discriminate.
  - apply (DoWriteFirmware_dispatch (Sample.output true) Sample.tools
             (Sample.fdt 0 (Some "jtag"))
             "u-boot.bin" Sample.file_list "image.bin" None true false
             (Some "usb") quiet); [reflexivity | discriminate ..].
  - destruct (DoWriteFirmware_dispatch (Sample.output false) Sample.tools fdt
                "u-boot.bin" Sample.file_list "image.bin" None true false
                (Some "usb") unplugged) as (_ & _ & _ & H & _).
    unfold run.
    rewrite (H eq_refl eq_refl "board.bct" false
               (snd (WriteFirmware._NvidiaFlashImage
                       (writer (Sample.output false) Sample.tools fdt None
                               true false)
                       "u-boot.bin" "board.bct" "image.bin" unplugged))
               eq_refl).
    + reflexivity.
    + apply (run_pair
               (WriteFirmware._NvidiaFlashImage
                  (writer (Sample.output false) Sample.tools fdt None true
                          false)
                  "u-boot.bin" "board.bct" "image.bin") unplugged).
      vm_compute; reflexivity.
  - destruct (DoWriteFirmware_dispatch (Sample.output true) Sample.tools fdt
                "u-boot.bin" Sample.file_list "image.bin" None true false
                (Some "usb") plugged) as (_ & _ & _ & H & _).
    unfold run.
    rewrite (H eq_refl eq_refl "board.bct" true
               (snd (WriteFirmware._NvidiaFlashImage
                       (writer (Sample.output true) Sample.tools fdt None
                               true false)
                       "u-boot.bin" "board.bct" "image.bin" plugged))
               eq_refl).
    + split; [reflexivity | vm_compute; reflexivity].
    + apply (run_pair
               (WriteFirmware._NvidiaFlashImage
                  (writer (Sample.output true) Sample.tools fdt None true
                          false)
                  "u-boot.bin" "board.bct" "image.bin") plugged).
      vm_compute; reflexivity.
  - pose (fdt' := Sample.fdt 0x43e00000 (Some "exynos")).
    destruct (DoWriteFirmware_dispatch (Sample.output true) Sample.tools fdt'
                "u-boot.bin" Sample.file_list "image.bin" None true false
                (Some "usb") quiet) as (_ & _ & _ & _ & H).
    unfold run. fold fdt'.
    rewrite (H eq_refl eq_refl "bl1.bin" "bl2.bin" true
               (snd (WriteFirmware._ExynosFlashImage
                       (writer (Sample.output true) Sample.tools fdt' None
                               true false)
                       "u-boot.bin" "bl1.bin" "bl2.bin" "image.bin" quiet))
               eq_refl eq_refl).
    + reflexivity.
    + apply (run_pair
               (WriteFirmware._ExynosFlashImage
                  (writer (Sample.output true) Sample.tools fdt' None true
                          false)
                  "u-boot.bin" "bl1.bin" "bl2.bin" "image.bin") quiet).
      vm_compute; reflexivity.
Defined.

(** ** The update flag on the Exynos path *)

Lemma grows_ret {A} (a : A) : grows (ret a).
Proof. intros w. exists []. cbn. rewrite app_nil_r. reflexivity. Qed.

Lemma grows_raise {A} (e : exn) : grows (@raise A e).
Proof. intros w. exists []. cbn. rewrite app_nil_r. reflexivity. Qed.

Lemma grows_emit (e : event) : grows (emit e).
Proof. intros w. exists [e]. reflexivity. Qed.

Lemma grows_Run cmd args sudo : grows (Tools.Run cmd args sudo).
Proof.
  intros w. exists [EvRun cmd args sudo]. unfold Tools.Run.
  destruct (replies w (nruns w)); reflexivity.
Qed.

Lemma grows_bind {A B} (m : M A) (k : A -> M B) :
  grows m -> (forall a, grows (k a)) -> grows (bind m k).
Proof.
  intros Hm Hk w. unfold bind. destruct (Hm w) as [e1 H1].
  destruct (m w) as [[a|e] w1]; cbn [snd] in *.
  - destruct (Hk a w1) as [e2 H2]. exists (e1 ++ e2)%list.
    rewrite H2, H1, app_assoc. reflexivity.
  - exists e1. exact H1.
Qed.

Lemma grows_try_except {A} (body : M A) (handler : string -> M A) :
  grows body -> (forall msg, grows (handler msg)) ->
  grows (try_except_CmdError body handler).
Proof.
  intros Hb Hh w. unfold try_except_CmdError. destruct (Hb w) as [e1 H1].
  destruct (body w) as [[a|e] w1]; cbn [snd] in *; [exists e1; exact H1|].
  destruct e; try (exists e1; exact H1).
  destruct (Hh msg w1) as [e2 H2]. exists (e1 ++ e2)%list.
  rewrite H2, H1, app_assoc. reflexivity.
Qed.

Lemma grows_try_finally {A} (body : M A) (final : M unit) :
  grows body -> grows final -> grows (try_finally body final).
Proof.
  intros Hb Hf w. unfold try_finally. destruct (Hb w) as [e1 H1].
  destruct (body w) as [r w1]; cbn [snd] in *.
  destruct (Hf w1) as [e2 H2]. exists (e1 ++ e2)%list.
  destruct (final w1) as [[u|e] w2]; cbn [snd] in *;
    rewrite H2, H1, app_assoc; reflexivity.
Qed.

Create HintDb grows.

#[local] Hint Resolve grows_ret grows_raise grows_emit grows_Run : grows.
#[local] Hint Extern 2 (grows (bind _ _)) =>
  apply grows_bind; [|intro] : grows.
#[local] Hint Extern 2 (grows (try_except_CmdError _ _)) =>
  apply grows_try_except; [|intro] : grows.
#[local] Hint Extern 2 (grows (try_finally _ _)) =>
  apply grows_try_finally : grows.
#[local] Hint Extern 1 (grows (Output.Progress _)) =>
  unfold Output.Progress : grows.
#[local] Hint Extern 1 (grows (Output.Notice _)) =>
  unfold Output.Notice : grows.
#[local] Hint Extern 1 (grows (time_sleep _)) => unfold time_sleep : grows.
#[local] Hint Extern 1 (grows (if ?c then _ else _)) => destruct c : grows.

Lemma grows_wait_tries name vendor_id product_id (n : nat) :
  grows (WriteFirmware._WaitForUSBDevice_tries name vendor_id product_id n).
Proof.
  induction n as [|n IH]; cbn [WriteFirmware._WaitForUSBDevice_tries];
    auto 10 with grows.
Qed.

Lemma grows_wait self name vendor_id product_id timeout :
  grows (WriteFirmware._WaitForUSBDevice self name vendor_id product_id
           timeout).
Proof.
  unfold WriteFirmware._WaitForUSBDevice.
  pose proof grows_wait_tries. auto 10 with grows.
Qed.

Lemma grows_stages self vendor_id product_id download_list : forall first,
  grows (WriteFirmware._ExynosFlashImage_stages self vendor_id product_id
           download_list first).
Proof.
  induction download_list as [|[[stage addr] file] rest IH]; intros first;
    cbn [WriteFirmware._ExynosFlashImage_stages].
  - auto with grows.
  - pose proof grows_wait. auto 12 with grows.
Qed.

Lemma grows_download self vendor_id product_id download_list :
  grows (WriteFirmware._ExynosFlashImage_download self vendor_id product_id
           download_list).
Proof.
  unfold WriteFirmware._ExynosFlashImage_download.
  pose proof grows_stages. auto 10 with grows.
Qed.

Lemma GetFlashScript_Spi (payload_size checksum : Z) (update verify : bool)
    (bus : string) :
  WriteFirmware._GetFlashScript payload_size update verify "Spi" checksum bus
  = WriteFirmware._GetFlashScript payload_size false verify "Spi" checksum bus.
Proof. reflexivity. Qed.

Lemma PrepareFlasher_Spi (self : WriteFirmware.t) (uboot payload : string)
    (update verify b : bool) (bus : string) (w : world) :
  WriteFirmware.PrepareFlasher (with_update self b) uboot payload update
    verify "Spi" bus w
  = WriteFirmware.PrepareFlasher self uboot payload false verify "Spi" bus w.
Proof. reflexivity. Qed.

Lemma bind_ext {A B} (m : M A) (k1 k2 : A -> M B) (w : world) :
  (forall a w', k1 a w' = k2 a w') -> bind m k1 w = bind m k2 w.
Proof.
  intros H. unfold bind. destruct (m w) as [[a|e] w']; [apply H|reflexivity].
Qed.

Lemma stages_self (s1 s2 : WriteFirmware.t) (vendor_id product_id : Z)
    (download_list : list (string * Z * string)) : forall first w,
  WriteFirmware._ExynosFlashImage_stages s1 vendor_id product_id
    download_list first w
  = WriteFirmware._ExynosFlashImage_stages s2 vendor_id product_id
      download_list first w.
Proof.
  induction download_list as [|[[stage addr] file] rest IH]; intros first w;
    cbn [WriteFirmware._ExynosFlashImage_stages]; [reflexivity|].
  change (WriteFirmware._WaitForUSBDevice s1)
    with (WriteFirmware._WaitForUSBDevice s2).
  apply bind_ext. intros [|] w1; cbn [negb]; [|reflexivity].
  repeat (apply bind_ext; intros ? ?). apply IH.
Qed.

Lemma download_self (s1 s2 : WriteFirmware.t) (vendor_id product_id : Z)
    (download_list : list (string * Z * string)) (w : world) :
  WriteFirmware._ExynosFlashImage_download s1 vendor_id product_id
    download_list w
  = WriteFirmware._ExynosFlashImage_download s2 vendor_id product_id
      download_list w.
Proof.
  unfold WriteFirmware._ExynosFlashImage_download, try_finally.
  rewrite (stages_self s1 s2). reflexivity.
Qed.

Lemma ExynosFlashImage_self (self : WriteFirmware.t) (b : bool)
    (uboot bl1 bl2 payload : string) (w : world) :
  WriteFirmware._ExynosFlashImage (with_update self b) uboot bl1 bl2 payload w
  = WriteFirmware._ExynosFlashImage self uboot bl1 bl2 payload w.
Proof.
  unfold WriteFirmware._ExynosFlashImage.
  cbn [with_update WriteFirmware.update WriteFirmware.verify].
  unfold bind at 1 8.
  rewrite PrepareFlasher_Spi,
    <- (PrepareFlasher_Spi self uboot payload (WriteFirmware.update self)
          (WriteFirmware.verify self) (WriteFirmware.update self)).
  assert (Hself : with_update self (WriteFirmware.update self) = self)
    by (destruct self; reflexivity).
  rewrite Hself.
  destruct (WriteFirmware.PrepareFlasher self uboot payload
              (WriteFirmware.update self) (WriteFirmware.verify self) "Spi"
              "1:0" w) as [[flasher|e] w1]; [|reflexivity].
  do 4 (apply bind_ext; intros ? ?).
  unfold bind at 1 4.
  rewrite (download_self (with_update self b) self). reflexivity.
Qed.

Lemma grows_ExynosFlashImage_rest (self : WriteFirmware.t)
    (bl1 bl2 flasher : string) (args : list string) :
  grows (Output.Progress "Reseting board via servo" ;;
         Tools.Run "dut-control" args false ;;
         time_sleep 2000 ;;
         Output.Progress "Uploading flasher image" ;;
         WriteFirmware._ExynosFlashImage_download self 0x04e8 0x1234
           [ ("bl1", 0x02021400, bl1);
             ("bl2", 0x02023400, bl2);
             ("u-boot", 0x43e00000, flasher) ] ;;
         Output.Notice
           "Flasher downloaded - please see serial output for progress." ;;
         ret true).
Proof. pose proof grows_download. auto 12 with grows. Qed.

(** C10: ['Spi'] is not ['spi'].  An Exynos session does the same
    whatever its [update] attribute is; the script it hands to
    [fdt.PutString] is the one built with [update] cleared for boot type
    ['Spi'] and bus ['1:0']; its commands include [run _erase] and
    [run _write], do not include [time run _update] (which occurs
    nowhere in the script's text), and come from the SPI templates
    ([sf probe 1:0], [sf update]). *)
Theorem ExynosFlashImage_never_updates (self : WriteFirmware.t)
    (uboot bl1 bl2 payload : string) (w : world)
    (data payload_data : string) :
  staged self w payload = Some payload_data ->
  staged self w uboot = Some data ->
  let session s :=
    WriteFirmware._ExynosFlashImage s uboot bl1 bl2 payload w in
  let cmds :=
    WriteFirmware._GetFlashScript_cmds (Py.len payload_data) false
      (WriteFirmware.verify self) "Spi" (payload_checksum payload_data) "1:0"
  in
  String.eqb "Spi" "spi" = false
  /\ (forall b, session (with_update self b) = session self)
  /\ (exists evs,
        trace (snd (session self))
        = (trace w
           ++ [EvFdtCopy (dtb_path self);
               EvFdtPutString (dtb_path self) "/config" "bootcmd"
                 (String.concat "; " cmds)]
           ++ evs)%list)
  /\ In "run _erase" cmds
  /\ In "run _write" cmds
  /\ ~ In "time run _update" cmds
  /\ Py.contains "time run _update" (String.concat "; " cmds) = false
  /\ In (spi_init_command "1:0") cmds
  /\ In spi_update_command cmds.
Proof.
  intros Hp Hu session cmds.
  split; [reflexivity|].
  split; [intros b; apply ExynosFlashImage_self|].
  split.
  { subst session. cbv beta. unfold WriteFirmware._ExynosFlashImage.
    unfold bind at 1.
    rewrite (PrepareFlasher_run _ _ _ _ _ _ _ _ _ _ Hp Hu).
    unfold boot_script. rewrite GetFlashScript_Spi. cbn [fst].
    fold cmds.
    repeat match goal with
           | |- context [if ?c then (_, _) else _] => destruct c
           end;
      try (exists []; cbn [snd trace]; rewrite app_nil_r; reflexivity).
    match goal with
    | |- context [snd (?k ?w1)] =>
        destruct (grows_ExynosFlashImage_rest self bl1 bl2
                    (flasher_path self)
                    ["cold_reset:on"; "sleep:.2"; "cold_reset:off";
                     "warm_reset:on"; "fw_up:on"; "pwr_button:press";
                     "sleep:.1"; "warm_reset:off"] w1) as [evs Hevs]
    end.
    eexists. cbn [app] in Hevs |- *. rewrite Hevs. cbn [trace].
    rewrite <- !app_assoc. cbn [app]. reflexivity. }
  assert (Htext : Py.contains "time run _update" (String.concat "; " cmds)
                  = false).
  { apply (script_Spi_without_update (Py.len payload_data)
             (payload_checksum payload_data) false
             (WriteFirmware.verify self)). }
  subst cmds. destruct (WriteFirmware.verify self);
    cbn -[Py.fmt_x RoundUp Z.div String.concat] in *;
    repeat split; try tauto; try exact Htext;
    intros H; cmds_cases H.
Qed.

Lemma ExynosFlashImage_never_updates_witness :
  let self :=
    Sample.self (Sample.fdt 0x43e00000 (Some "exynos")) true true false in
  let w := Sample.host [] (Done "") in
  let session s :=
    WriteFirmware._ExynosFlashImage s "u-boot.bin" "bl1.bin" "bl2.bin"
      "image.bin" w in
  let cmds :=
    WriteFirmware._GetFlashScript_cmds (Py.len "firmware image") false
      (WriteFirmware.verify self) "Spi" (payload_checksum "firmware image")
      "1:0" in
  String.eqb "Spi" "spi" = false
  /\ (forall b, session (with_update self b) = session self)
  /\ (exists evs,
        trace (snd (session self))
        = (trace w
           ++ [EvFdtCopy (dtb_path self);
               EvFdtPutString (dtb_path self) "/config" "bootcmd"
                 (String.concat "; " cmds)]
           ++ evs)%list)
  /\ In "run _erase" cmds
  /\ In "run _write" cmds
  /\ ~ In "time run _update" cmds
  /\ Py.contains "time run _update" (String.concat "; " cmds) = false
  /\ In (spi_init_command "1:0") cmds
  /\ In spi_update_command cmds.
Proof.
  intros self w session cmds.
  apply (ExynosFlashImage_never_updates self "u-boot.bin" "bl1.bin" "bl2.bin"
           "image.bin" w "U-BOOT code" "firmware image");
    vm_compute; reflexivity.
Defined.

(** ** Further properties: alignment and the boot script *)

Lemma RoundUp_pow2_bounds (value k : Z) :
  0 <= k ->
  (2 ^ k | RoundUp value (2 ^ k))
  /\ value <= RoundUp value (2 ^ k) < value + 2 ^ k
  /\ (forall m, (2 ^ k | m) -> value <= m -> RoundUp value (2 ^ k) <= m).
Proof.
  intros Hk.
  assert (Hb : 0 < 2 ^ k) by (apply Z.pow_pos_nonneg; lia).
  rewrite RoundUp_pow2 by exact Hk.
  destruct (round_up_div_least value (2 ^ k) Hb) as (Hd & Hge & Hmin).
  split; [exact Hd|]. split; [|exact Hmin].
  split; [exact Hge|].
  pose proof (Z.div_mod (value + 2 ^ k - 1) (2 ^ k) ltac:(lia)) as Hdm.
  pose proof (Z.mod_pos_bound (value + 2 ^ k - 1) (2 ^ k) Hb) as Hmod.
  lia.
Qed.

Lemma RoundUp_pow2_fixed (value k : Z) :
  0 <= k -> (2 ^ k | value) -> RoundUp value (2 ^ k) = value.
Proof.
  intros Hk Hv.
  destruct (RoundUp_pow2_bounds value k Hk) as (_ & [Hge _] & Hmin).
  specialize (Hmin value Hv ltac:(lia)). lia.
Qed.

(** X1: for every power of two [2^k] and every integer [value], negative
    ones included, [RoundUp value (2^k)] is the least multiple of [2^k]
    that is at least [value]; it exceeds [value] by less than [2^k],
    leaves multiples of [2^k] unchanged, and rounding twice is rounding
    once. *)
Theorem RoundUp_power_of_two (value k : Z) :
  0 <= k ->
  let b := 2 ^ k in
  (b | RoundUp value b)
  /\ value <= RoundUp value b < value + b
  /\ (forall m, (b | m) -> value <= m -> RoundUp value b <= m)
  /\ ((b | value) -> RoundUp value b = value)
  /\ RoundUp (RoundUp value b) b = RoundUp value b.
Proof.
  intros Hk b. subst b.
  destruct (RoundUp_pow2_bounds value k Hk) as (Hd & Hr & Hmin).
  split; [exact Hd|]. split; [exact Hr|]. split; [exact Hmin|].
  split; [apply RoundUp_pow2_fixed, Hk|].
  apply RoundUp_pow2_fixed; assumption.
Qed.

Lemma RoundUp_power_of_two_witness :
  RoundUp (-5) (2 ^ 3) = 0
  /\ (2 ^ 3 | RoundUp (-5) (2 ^ 3))
  /\ -5 <= RoundUp (-5) (2 ^ 3) < -5 + 2 ^ 3
  /\ RoundUp (RoundUp (-5) (2 ^ 3)) (2 ^ 3) = RoundUp (-5) (2 ^ 3).
Proof.
  split; [reflexivity|].
  destruct (RoundUp_power_of_two (-5) 3 ltac:(lia)) as (H1 & H2 & _ & _ & H5).
  repeat split; try assumption; apply H2.
Defined.

Lemma head_cmds_in (payload_size checksum : Z) (update verify : bool)
    (boot_type bus c : string) :
  In c [ setenv_firmware_size payload_size;
         setenv_length (RoundUp payload_size (page_size_of boot_type));
         setenv_blocks (RoundUp payload_size (page_size_of boot_type)
                        / page_size_of boot_type) ] ->
  In c (WriteFirmware._GetFlashScript_cmds payload_size update verify
          boot_type checksum bus).
Proof.
  intros Hc.
  unfold WriteFirmware._GetFlashScript_cmds, page_size_of in *. cbv zeta.
  repeat match goal with
         | |- context [if ?c then _ else _] => destruct c
         end;
    repeat (apply in_or_app; left);
    cbn [In] in *;
    unfold setenv_firmware_size, setenv_length, setenv_blocks in *;
    tauto.
Qed.

(** X2: the script sets [firmware_size] to the payload size, [length]
    to that size rounded up to the page size (512 for [sdmmc], 4096
    otherwise) and [blocks] to [length / page size]; the block count times
    the page size is exactly [length], and [length] covers the payload
    with less than one page to spare. *)
Theorem GetFlashScript_length_covers_payload (payload_size checksum : Z)
    (update verify : bool) (boot_type bus : string) :
  let cmds :=
    WriteFirmware._GetFlashScript_cmds payload_size update verify boot_type
      checksum bus in
  let page := page_size_of boot_type in
  let length := RoundUp payload_size page in
  let blocks := length / page in
  In (setenv_firmware_size payload_size) cmds
  /\ In (setenv_length length) cmds
  /\ In (setenv_blocks blocks) cmds
  /\ blocks * page = length
  /\ payload_size <= length < payload_size + page.
Proof.
  intros cmds page length blocks.
  split; [apply head_cmds_in; cbn [In]; tauto|].
  split; [apply head_cmds_in; cbn [In]; tauto|].
  split; [apply head_cmds_in; cbn [In]; tauto|].
  assert (Hk : exists k, 0 <= k /\ page = 2 ^ k).
  { subst page. unfold page_size_of.
    destruct (String.eqb boot_type "sdmmc");
      [exists 9 | exists 12]; split; (lia || reflexivity). }
  destruct Hk as (k & Hk & Hpage).
  subst length blocks. rewrite Hpage.
  destruct (RoundUp_pow2_bounds payload_size k Hk) as ([q Hq] & Hr & _).
  split; [|exact Hr].
  rewrite Hq. rewrite Z.div_mul; [reflexivity|].
  pose proof (Z.pow_pos_nonneg 2 k ltac:(lia) Hk). lia.
Qed.

Lemma shell_chars_false (c : ascii) :
  shell_chars c = false ->
  Ascii.eqb c "034" = false /\ Ascii.eqb c ";" = false
  /\ Ascii.eqb c "092" = false.
Proof.
  unfold shell_chars, one_of. cbn [list_ascii_of_string existsb]. intros H.
  apply orb_false_iff in H as [H1 H]. apply orb_false_iff in H as [H2 H].
  apply orb_false_iff in H as [H3 _]. auto.
Qed.

Lemma unquoted_separator_keep (s : string) : forall in_quotes,
  unquoted_separator in_quotes (keep shell_chars s)
  = unquoted_separator in_quotes s.
Proof.
  induction s as [|c s IH]; intros q; [reflexivity|].
  cbn [keep]. destruct (shell_chars c) eqn:Hc.
  - cbn [unquoted_separator]. rewrite !IH. reflexivity.
  - destruct (shell_chars_false c Hc) as (H1 & H2 & _).
    cbn [unquoted_separator]. rewrite H1, H2, andb_false_r. apply IH.
Qed.

Lemma no_backslash_keep (s : string) :
  all_chars no_backslash (keep shell_chars s) = all_chars no_backslash s.
Proof.
  induction s as [|c s IH]; [reflexivity|].
  cbn [keep]. destruct (shell_chars c) eqn:Hc.
  - cbn [all_chars]. rewrite IH. reflexivity.
  - destruct (shell_chars_false c Hc) as (_ & _ & H3).
    cbn [all_chars]. unfold no_backslash at 2. rewrite H3. exact IH.
Qed.

Lemma harmless_by_keep (cmd : string) :
  String.prefix "setenv " cmd || String.prefix "echo " cmd = true ->
  negb (unquoted_separator false (keep shell_chars cmd))
  && all_chars no_backslash (keep shell_chars cmd) = true ->
  harmless cmd = true.
Proof.
  intros Hp Hk. unfold harmless.
  rewrite unquoted_separator_keep, no_backslash_keep in Hk.
  rewrite Hp, <- andb_assoc. exact Hk.
Qed.

Lemma hexish_not_shell_chars c : hexish c = true -> shell_chars c = false.
Proof.
  unfold hexish, one_of. cbn [list_ascii_of_string existsb]. intros H.
  repeat (apply orb_true_iff in H as [H|H];
          [apply Ascii.eqb_eq in H; subst c; reflexivity|]).
  discriminate H.
Qed.

Lemma keep_shell_fmt_x alt width n :
  keep shell_chars (Py.fmt_x alt width n) = "".
Proof.
  apply (keep_none shell_chars hexish).
  - apply hexish_not_shell_chars.
  - apply fmt_x_hexish.
Qed.

Lemma keep_shell_bus (bus : string) :
  all_chars (fun c => negb (shell_chars c)) bus = true ->
  keep shell_chars bus = "".
Proof.
  apply (keep_none shell_chars (fun c => negb (shell_chars c))).
  intros c H. apply negb_true_iff, H.
Qed.

Lemma harmless_cons (cmd : string) (rest : list string) :
  harmless cmd = true -> forallb harmless rest = true ->
  forallb harmless (cmd :: rest) = true.
Proof. intros H1 H2. cbn [forallb]. rewrite H1. exact H2. Qed.

Ltac setup_harmless Hk :=
  repeat (apply harmless_cons;
          [ apply harmless_by_keep;
            [ reflexivity
            | rewrite ?keep_app, ?keep_shell_fmt_x, ?Hk;
              vm_compute; reflexivity ]
          | ]);
  reflexivity.

(** X3: for the boot types [nand] and [sdmmc], and for every other
    boot type provided the bus text holds no double quote, semicolon or
    backslash, the command list is a run of commands each of which
    starts with [setenv ] or [echo ], has every [;] between a pair of
    double quotes, has its quotes balanced and holds no backslash,
    followed by [if run _crc; then], [run _init], the transfer commands
    ([time run _update] when the boot type is [spi] and [update] is
    set, [run _erase] and [run _write] otherwise), the read-back check
    ([run _clear], [run _read], [run _crc]) when [verify] is set or
    [echo Skipping verify] when it is not, and the checksum-error
    branch. *)
Theorem GetFlashScript_guarded_by_checksum (payload_size checksum : Z)
    (update verify : bool) (boot_type bus : string) :
  boot_type = "nand" \/ boot_type = "sdmmc"
  \/ all_chars (fun c => negb (shell_chars c)) bus = true ->
  exists setup,
    WriteFirmware._GetFlashScript_cmds payload_size update verify boot_type
      checksum bus
    = (setup
       ++ ["if run _crc; then"; "run _init"]
       ++ (if effective_update boot_type update then ["time run _update"]
           else ["run _erase"; "run _write"])
       ++ (if verify then ["run _clear"; "run _read"; "run _crc"]
           else ["echo Skipping verify"])
       ++ checksum_error_cmds)%list
    /\ forallb harmless setup = true.
Proof.
  intros Hbt.
  assert (Hk : boot_type <> "nand" -> boot_type <> "sdmmc" ->
               keep shell_chars bus = "").
  { intros Hn Hs. destruct Hbt as [Hb | [Hb | Hb]]; [contradiction..|].
    apply keep_shell_bus, Hb. }
  unfold WriteFirmware._GetFlashScript_cmds, effective_update. cbv zeta.
  destruct (String.eqb boot_type "spi"); cbn [negb];
    (destruct (String.eqb_spec boot_type "nand") as [Hn|Hn];
     [|destruct (String.eqb_spec boot_type "sdmmc") as [Hs|Hs]]);
    try specialize (Hk Hn Hs);
    destruct update, verify; cbn [app];
    match goal with
    | |- exists s, ?L = _ /\ _ =>
        first [ exists (firstn 11 L); cbn [firstn app];
                split; [reflexivity | setup_harmless Hk]
              | exists (firstn 12 L); cbn [firstn app];
                split; [reflexivity | setup_harmless Hk] ]
    end.
Qed.

Lemma GetFlashScript_guarded_by_checksum_witness :
  exists setup,
    WriteFirmware._GetFlashScript_cmds 14 true false "spi" 0x1234 "1:0"
    = (setup
       ++ ["if run _crc; then"; "run _init"; "time run _update";
           "echo Skipping verify"]
       ++ checksum_error_cmds)%list
    /\ forallb harmless setup = true.
Proof.
  apply (GetFlashScript_guarded_by_checksum 14 0x1234 true false "spi"
           "1:0").
  right; right. vm_compute; reflexivity.
Defined.

Lemma findall_none (pat s : string) (skip : nat) :
  Py.contains pat s = false -> Py.findall_from pat skip s = O.
Proof.
  revert skip. induction s as [|c s IH]; intros skip H; [reflexivity|].
  cbn [Py.contains] in H. apply orb_false_iff in H as [Hp Hs].
  cbn [Py.findall_from]. destruct skip as [|k]; [rewrite Hp|]; apply IH, Hs.
Qed.

Lemma absent_by_keep (K : ascii -> bool) (q p s : string) :
  all_chars K q = true ->
  Py.contains q p = true ->
  Py.contains q (keep K s) = false ->
  Py.contains p s = false.
Proof.
  intros HK Hq H. destruct (Py.contains p s) eqn:E; [|reflexivity].
  rewrite <- H. symmetry. apply contains_keep; [exact HK|].
  apply (contains_trans q p); assumption.
Qed.

Lemma hexish_not_marker_letter c : hexish c = true -> marker_letter c = false.
Proof.
  unfold hexish, one_of. cbn [list_ascii_of_string existsb]. intros H.
  repeat (apply orb_true_iff in H as [H|H];
          [apply Ascii.eqb_eq in H; subst c; reflexivity|]).
  discriminate H.
Qed.

Lemma keep_marker_fmt_x alt width n :
  keep marker_letter (Py.fmt_x alt width n) = "".
Proof.
  apply (keep_none marker_letter hexish).
  - apply hexish_not_marker_letter.
  - apply fmt_x_hexish.
Qed.

Lemma keep_absent_letter (c : ascii) (s : string) :
  Py.contains (String c "") s = false -> keep (one_of (String c "")) s = "".
Proof.
  induction s as [|d s IH]; intros H; [reflexivity|].
  cbn [Py.contains] in H. apply orb_false_iff in H as [Hp Hs].
  cbn [keep]. unfold one_of at 1. cbn [list_ascii_of_string existsb].
  cbn [String.prefix] in Hp.
  destruct (Ascii.eqb_spec d c) as [->|Hne].
  - destruct (ascii_dec c c) as [_|Hcc]; [|contradiction].
    destruct s; discriminate Hp.
  - cbn [orb]. apply IH, Hs.
Qed.

Lemma marker_once_after (tail : string) :
  Py.contains WriteFirmware.replace_me tail = false ->
  Py.findall_count WriteFirmware.replace_me
    (("setenv address       0x" ++ WriteFirmware.replace_me) ++ tail) = 1.
Proof.
  intros H. unfold Py.findall_count.
  replace (Py.findall_from WriteFirmware.replace_me 0
             (("setenv address       0x" ++ WriteFirmware.replace_me) ++ tail))
    with (S (Py.findall_from WriteFirmware.replace_me 0 tail)).
  - rewrite (findall_none _ _ _ H). reflexivity.
  - unfold WriteFirmware.replace_me. cbn. destruct tail; reflexivity.
Qed.

Lemma script_head_tail (payload_size checksum : Z) (update verify : bool)
    (boot_type bus : string) :
  fst (WriteFirmware._GetFlashScript payload_size update verify boot_type
         checksum bus)
  = ("setenv address       0x" ++ WriteFirmware.replace_me)
    ++ "; "
    ++ String.concat "; "
         (tl (WriteFirmware._GetFlashScript_cmds payload_size update verify
                boot_type checksum bus)).
Proof.
  unfold WriteFirmware._GetFlashScript, WriteFirmware._GetFlashScript_cmds.
  cbv zeta. cbn [fst].
  destruct (String.eqb boot_type "nand"), (String.eqb boot_type "sdmmc"),
    (negb (String.eqb boot_type "spi")), update, verify; reflexivity.
Qed.

Lemma keep_concat_empty (K : ascii -> bool) (sep : string)
    (l : list string) :
  keep K sep = "" ->
  Forall (fun c => keep K c = "") l ->
  keep K (String.concat sep l) = "".
Proof.
  intros Hsep Hl. induction Hl as [|c l Hc Hl IH]; [reflexivity|].
  destruct l as [|d l]; [exact Hc|].
  change (String.concat sep (c :: d :: l))
    with (c ++ sep ++ String.concat sep (d :: l)).
  rewrite !keep_app, Hc, Hsep, IH. reflexivity.
Qed.

Ltac no_marker_letter Hk :=
  cbn [app tl]; repeat apply Forall_cons; try apply Forall_nil;
  rewrite ?keep_app, ?keep_marker_fmt_x, ?Hk; reflexivity.

Lemma script_tail_no_marker_letter (payload_size checksum : Z)
    (update verify : bool) (boot_type bus : string) :
  boot_type = "nand" \/ boot_type = "sdmmc" \/ Py.contains "H" bus = false ->
  Forall (fun c => keep marker_letter c = "")
    (tl (WriteFirmware._GetFlashScript_cmds payload_size update verify
           boot_type checksum bus)).
Proof.
  intros Hbt. unfold WriteFirmware._GetFlashScript_cmds. cbv zeta.
  assert (Hk : boot_type <> "nand" -> boot_type <> "sdmmc" ->
               keep marker_letter bus = "").
  { intros Hn Hs. destruct Hbt as [Hb | [Hb | Hb]]; [contradiction..|].
    apply (keep_absent_letter "H" bus Hb). }
  destruct (negb (String.eqb boot_type "spi")).
  - destruct (String.eqb_spec boot_type "nand") as [Hn|Hn];
      [|destruct (String.eqb_spec boot_type "sdmmc") as [Hs|Hs]];
      try specialize (Hk Hn Hs);
      destruct verify; no_marker_letter Hk.
  - destruct (String.eqb_spec boot_type "nand") as [Hn|Hn];
      [|destruct (String.eqb_spec boot_type "sdmmc") as [Hs|Hs]];
      try specialize (Hk Hn Hs);
      destruct update, verify; no_marker_letter Hk.
Qed.

(** X4: the marker returned with the script is [zsHEXYla], the script
    starts with [setenv address       0x] followed by it, and it occurs
    exactly once in the script, as [re.findall] counts, for the boot
    types [nand] and [sdmmc] and for every other boot type provided the
    bus text holds no letter [H]. *)
Theorem GetFlashScript_marker_once (payload_size checksum : Z)
    (update verify : bool) (boot_type bus : string) :
  boot_type = "nand" \/ boot_type = "sdmmc" \/ Py.contains "H" bus = false ->
  let r :=
    WriteFirmware._GetFlashScript payload_size update verify boot_type
      checksum bus in
  snd r = "zsHEXYla"
  /\ String.prefix ("setenv address       0x" ++ snd r) (fst r) = true
  /\ Py.findall_count (snd r) (fst r) = 1.
Proof.
  intros Hbt r. subst r.
  split; [reflexivity|]. split.
  { rewrite script_head_tail. apply prefix_app. }
  rewrite script_head_tail.
  change (snd (WriteFirmware._GetFlashScript payload_size update verify
                 boot_type checksum bus)) with WriteFirmware.replace_me.
  apply marker_once_after.
  apply (absent_by_keep marker_letter "H"); [reflexivity|reflexivity|].
  rewrite keep_app, keep_concat_empty;
    [reflexivity | reflexivity
    | apply script_tail_no_marker_letter, Hbt].
Qed.

Lemma GetFlashScript_marker_once_witness :
  Py.findall_count "zsHEXYla"
    (fst (WriteFirmware._GetFlashScript 14 true false "spi" 0x1234 "1:0")) = 1.
Proof.
  apply (GetFlashScript_marker_once 14 0x1234 true false "spi" "1:0").
  right; right. vm_compute; reflexivity.
Defined.

(** ** Further properties: the flasher image *)

Lemma of_pos_length_ge : forall (p : positive) (rest : string),
  (S (String.length rest) <= String.length (HexString.Raw.of_pos p rest))%nat.
Proof.
  fix IH 1. intros p rest.
  do 4 try destruct p as [p|p|]; cbn [HexString.Raw.of_pos];
    try (eapply Nat.le_trans; [|apply IH]); cbn [String.length]; lia.
Qed.

Lemma of_pos_length_le : forall (p : positive) (rest : string) (k : nat),
  (String.length (HexString.Raw.of_pos p rest) <= S k + String.length rest)%nat
  <-> Z.pos p < 16 * 16 ^ Z.of_nat k.
Proof.
  fix IH 1. intros p rest k.
  assert (Hpow : 0 < 16 ^ Z.of_nat k) by (apply Z.pow_pos_nonneg; lia).
  do 4 try destruct p as [p|p|]; cbn [HexString.Raw.of_pos].
  all: try (cbn [String.length]; split; intros _; lia).
  all: destruct k as [|k];
    [ match goal with
      | |- context [HexString.Raw.of_pos ?q ?r] =>
          pose proof (of_pos_length_ge q r) as Hge
      end;
      cbn [String.length] in Hge; change (16 ^ Z.of_nat 0) with 1; lia
    | match goal with
      | |- context [HexString.Raw.of_pos ?q ?r] =>
          pose proof (IH q r k) as Hk
      end;
      cbn [String.length] in Hk;
      rewrite Nat2Z.inj_succ, Z.pow_succ_r by lia;
      assert (0 < 16 ^ Z.of_nat k) by (apply Z.pow_pos_nonneg; lia);
      lia ].
Qed.

Lemma hex_digits_length (n : Z) (k : nat) :
  (String.length (Py.hex_digits n) <= S k)%nat
  <-> Z.abs n < 16 * 16 ^ Z.of_nat k.
Proof.
  assert (Hpow : 0 < 16 ^ Z.of_nat k) by (apply Z.pow_pos_nonneg; lia).
  destruct n as [|p|p]; cbn [Py.hex_digits Z.abs].
  - cbn [String.length]. lia.
  - rewrite <- (of_pos_length_le p "" k). cbn [String.length]. lia.
  - rewrite <- (of_pos_length_le p "" k). cbn [String.length]. lia.
Qed.

Lemma fmt_x_08_length (n : Z) :
  Py.len (Py.fmt_x false 8 n) = 8 <-> - 2 ^ 28 < n < 2 ^ 32.
Proof.
  unfold Py.fmt_x, Py.len. cbv zeta.
  pose proof (hex_digits_length n 7) as H8.
  pose proof (hex_digits_length n 6) as H7.
  change (16 * 16 ^ Z.of_nat 7) with (2 ^ 32) in H8.
  change (16 * 16 ^ Z.of_nat 6) with (2 ^ 28) in H7.
  destruct (Z.ltb_spec n 0) as [Hn|Hn];
    rewrite !length_append, length_replicate; cbn [String.length]; lia.
Qed.

Lemma append_inj_l (a x y : string) : a ++ x = a ++ y -> x = y.
Proof.
  induction a as [|c a IH]; cbn [append]; intros H; [exact H|].
  injection H as H. apply IH, H.
Qed.

Lemma path_join_inj (a x y : string) :
  Py.path_join a x = Py.path_join a y -> x = y.
Proof.
  unfold Py.path_join.
  destruct (String.eqb a ""); [auto|].
  destruct (Py.ends_with_slash a); intros H; apply append_inj_l in H;
    [exact H|].
  apply (append_inj_l "/"), H.
Qed.

Lemma flasher_path_not_dtb (self : WriteFirmware.t) :
  String.eqb (flasher_path self) (dtb_path self) = false.
Proof.
  apply String.eqb_neq. intros H. apply path_join_inj in H. discriminate H.
Qed.

Lemma dtb_path_not_flasher (self : WriteFirmware.t) :
  String.eqb (dtb_path self) (flasher_path self) = false.
Proof.
  apply String.eqb_neq. intros H. apply path_join_inj in H. discriminate H.
Qed.

Lemma sub_from_contains (pat repl s : string) (skip : nat) :
  (0 < Py.findall_from pat skip s)%nat ->
  Py.contains repl (Py.sub_from pat repl skip s) = true.
Proof.
  revert skip. induction s as [|c s IH]; intros skip H.
  - cbn [Py.findall_from] in H. lia.
  - cbn [Py.findall_from Py.sub_from] in *. destruct skip as [|k].
    + destruct (String.prefix pat (String c s)).
      * apply contains_prefix.
      * cbn [Py.contains]. rewrite (IH O H). apply orb_true_r.
    + apply IH, H.
Qed.

(** X5: once both files are read, [PrepareFlasher] raises [ValueError]
    exactly when the load address, the text base plus the aligned
    payload offset, is not rendered by [%08x] in eight characters, that
    is exactly when it is at least [2^32] or at most [-2^28]. *)
Theorem PrepareFlasher_address_range (self : WriteFirmware.t)
    (uboot payload : string) (update verify : bool) (boot_type bus : string)
    (w : world) (data payload_data : string) :
  staged self w payload = Some payload_data ->
  staged self w uboot = Some data ->
  let cfg :=
    config_bytes self (boot_script payload_data update verify boot_type bus) in
  let r :=
    WriteFirmware.PrepareFlasher self uboot payload update verify boot_type
      bus w in
  (exists msg, fst r = Raise (ValueError msg))
  <-> ~ (- 2 ^ 28 < load_address self data cfg < 2 ^ 32).
Proof.
  intros Hp Hu cfg r. subst r.
  rewrite (PrepareFlasher_run _ _ _ _ _ _ _ _ _ _ Hp Hu). fold cfg.
  pose proof (fmt_x_08_length (load_address self data cfg)) as Hlen.
  fold (rendered_address self data cfg) in Hlen.
  destruct (Z.eqb_spec 8 (Py.len (rendered_address self data cfg)))
    as [H8|H8]; cbn [negb].
  - split.
    + intros [msg Hmsg].
      destruct (negb (Py.findall_count WriteFirmware.replace_me cfg =? 1));
        discriminate Hmsg.
    + intros Hout. exfalso. apply Hout, Hlen. symmetry. exact H8.
  - split.
    + intros _ Hin. apply H8. symmetry. apply Hlen, Hin.
    + intros _. eexists. reflexivity.
Qed.

Lemma PrepareFlasher_address_range_witness :
  exists msg,
    fst (WriteFirmware.PrepareFlasher
           (Sample.self (Sample.fdt 0xfffff000 None) true true false)
           "u-boot.bin" "image.bin" true false "spi" "0"
           (Sample.host [] (Done "")))
    = Raise (ValueError msg).
Proof.
  apply (PrepareFlasher_address_range
           (Sample.self (Sample.fdt 0xfffff000 None) true true false)
           "u-boot.bin" "image.bin" true false "spi" "0"
           (Sample.host [] (Done "")) "U-BOOT code" "firmware image").
  - vm_compute; reflexivity.
  - vm_compute; reflexivity.
  - vm_compute. intros [_ H]. discriminate H.
Defined.

(** X6: when [PrepareFlasher] succeeds, the image it wrote starts with
    the bootloader, its payload offset is a multiple of 4096 that
    exceeds the size of bootloader and configuration by less than 4096,
    its length is that offset plus the payload size, the load address
    rendered as eight hexadecimal digits occurs in it, and that address
    lies between [-2^28] and [2^32]; the copy of the device tree keeps
    the configuration with the marker unreplaced. *)
Theorem PrepareFlasher_image_aligned (self : WriteFirmware.t)
    (uboot payload : string) (update verify : bool) (boot_type bus : string)
    (w w' : world) (data payload_data flasher : string) :
  staged self w payload = Some payload_data ->
  staged self w uboot = Some data ->
  WriteFirmware.PrepareFlasher self uboot payload update verify boot_type bus w
    = (Ok flasher, w') ->
  let cfg :=
    config_bytes self (boot_script payload_data update verify boot_type bus) in
  let payload_offset := RoundUp (Py.len data + Py.len cfg) 4096 in
  exists image,
    files w' flasher = Some image
    /\ (4096 | payload_offset)
    /\ Py.len data + Py.len cfg <= payload_offset
       < Py.len data + Py.len cfg + 4096
    /\ Py.len image = payload_offset + Py.len payload_data
    /\ String.prefix data image = true
    /\ Py.contains (Py.fmt_x false 8 (load_address self data cfg)) image = true
    /\ - 2 ^ 28 < load_address self data cfg < 2 ^ 32
    /\ files w' (dtb_path self) = Some cfg.
Proof.
  intros Hp Hu Hrun cfg payload_offset.
  rewrite (PrepareFlasher_run _ _ _ _ _ _ _ _ _ _ Hp Hu) in Hrun.
  fold cfg in Hrun.
  destruct (Z.eqb_spec 8 (Py.len (rendered_address self data cfg)))
    as [Hlen|Hlen]; cbn [negb] in Hrun; [|discriminate Hrun].
  destruct (Z.eqb_spec (Py.findall_count WriteFirmware.replace_me cfg) 1)
    as [Hone|Hone]; cbn [negb] in Hrun; [|discriminate Hrun].
  injection Hrun as <- <-.
  exists (flasher_image self data cfg payload_data).
  destruct (RoundUp_pow2_bounds (Py.len data + Py.len cfg) 12 ltac:(lia))
    as (Hdiv & Hbounds & _).
  change (2 ^ 12) with 4096 in Hdiv, Hbounds.
  fold payload_offset in Hdiv, Hbounds.
  set (cfg' := Py.re_sub WriteFirmware.replace_me
                 (rendered_address self data cfg) cfg).
  assert (Hcfg : Py.len cfg' = Py.len cfg).
  { apply len_re_sub; [reflexivity|]. rewrite <- Hlen. reflexivity. }
  split; [cbn [files]; rewrite String.eqb_refl; reflexivity|].
  split; [exact Hdiv|]. split; [exact Hbounds|].
  unfold flasher_image. fold cfg' payload_offset.
  split; [|split; [|split; [|split]]].
  - rewrite !len_append, len_str_mul; rewrite ?len_append, ?Hcfg; lia.
  - rewrite !append_assoc. apply prefix_app.
  - rewrite !append_assoc. apply contains_app_r.
    destruct (contains_split _ _
                (sub_from_contains WriteFirmware.replace_me
                   (rendered_address self data cfg) cfg O
                   ltac:(unfold Py.findall_count in Hone; lia)))
      as (a & b & Hab).
    fold (Py.re_sub WriteFirmware.replace_me
            (rendered_address self data cfg) cfg) in Hab.
    fold cfg' in Hab. rewrite Hab, !append_assoc.
    apply contains_join.
  - apply fmt_x_08_length. symmetry. exact Hlen.
  - cbn [files]. rewrite dtb_path_not_flasher, String.eqb_refl. reflexivity.
Qed.

Lemma PrepareFlasher_image_aligned_witness :
  let self := Sample.self (Sample.fdt 0x00e08000 None) true true false in
  let w := Sample.host [] (Done "") in
  let w' :=
    snd (WriteFirmware.PrepareFlasher self "u-boot.bin" "image.bin" true false
           "spi" "0" w) in
  let cfg :=
    config_bytes self (boot_script "firmware image" true false "spi" "0") in
  exists image,
    files w' "out/flasher-for-image.bin" = Some image
    /\ (4096 | RoundUp (Py.len "U-BOOT code" + Py.len cfg) 4096)
    /\ Py.len image
       = RoundUp (Py.len "U-BOOT code" + Py.len cfg) 4096
         + Py.len "firmware image"
    /\ Py.contains "00e09000" image = true.
Proof.
  intros self w w' cfg.
  destruct (PrepareFlasher_image_aligned self "u-boot.bin" "image.bin" true
              false "spi" "0" w w' "U-BOOT code" "firmware image"
              "out/flasher-for-image.bin")
    as (image & Hf & Hdiv & _ & Hlen & _ & Haddr & _ & _).
  - vm_compute; reflexivity.
  - vm_compute; reflexivity.
  - apply (run_pair
             (WriteFirmware.PrepareFlasher self "u-boot.bin" "image.bin" true
                false "spi" "0") w).
    vm_compute; reflexivity.
  - exists image. repeat split; assumption.
Defined.

(** X7: when [PrepareFlasher] raises, whatever the error, the flasher
    image is not written: every file other than the copy of the device
    tree is as before, no external command has run, and the only events
    are those of the device-tree object. *)
Theorem PrepareFlasher_failure_leaves_no_image (self : WriteFirmware.t)
    (uboot payload : string) (update verify : bool) (boot_type bus : string)
    (w : world) (e : exn) :
  let r :=
    WriteFirmware.PrepareFlasher self uboot payload update verify boot_type
      bus w in
  fst r = Raise e ->
  files (snd r) (flasher_path self) = files w (flasher_path self)
  /\ (forall p, p <> dtb_path self -> files (snd r) p = files w p)
  /\ nruns (snd r) = nruns w
  /\ exists evs, trace (snd r) = (trace w ++ evs)%list
                 /\ forallb fdt_event evs = true.
Proof.
  intros r Hr.
  assert (Hfiles : forall p, p <> dtb_path self -> files (snd r) p = files w p
          /\ nruns (snd r) = nruns w
          /\ exists evs, trace (snd r) = (trace w ++ evs)%list
                         /\ forallb fdt_event evs = true).
  { subst r. intros p Hp. apply String.eqb_neq in Hp.
    destruct (staged self w payload) as [payload_data|] eqn:Hpay;
      [destruct (staged self w uboot) as [data|] eqn:Hub|].
    - rewrite (PrepareFlasher_run _ _ _ _ _ _ _ _ _ _ Hpay Hub) in Hr |- *.
      destruct (negb (8 =? _));
        [|destruct (negb (_ =? 1)); [|discriminate Hr]];
        cbn [snd files nruns trace]; rewrite Hp; unfold staged; rewrite Hp;
        (split; [reflexivity|]); (split; [reflexivity|]);
        eexists; split; reflexivity.
    - revert Hr.
      unfold WriteFirmware.PrepareFlasher, bind, Fdt.Copy, Fdt.PutString, bind,
        emit, write, ret, Tools.ReadFile.
      cbn [trace files replies nruns Fdt.fname Fdt.blob Fdt.blob_with].
      fold (dtb_path self).
      pose proof Hpay as Hpay'. pose proof Hub as Hub'.
      unfold staged in Hpay', Hub'. rewrite Hpay'.
      unfold WriteFirmware._GetFlashScript. cbv beta iota zeta.
      cbn [trace files replies nruns]. rewrite Hub'.
      cbn [snd files nruns trace]. rewrite Hp. intros _.
      (split; [reflexivity|]); (split; [reflexivity|]).
      eexists; split; reflexivity.
    - revert Hr.
      unfold WriteFirmware.PrepareFlasher, bind, Fdt.Copy, Fdt.PutString, bind,
        emit, write, ret, Tools.ReadFile.
      cbn [trace files replies nruns Fdt.fname Fdt.blob Fdt.blob_with].
      fold (dtb_path self).
      pose proof Hpay as Hpay'.
      unfold staged in Hpay'. rewrite Hpay'.
      cbn [snd files nruns trace]. rewrite Hp. intros _.
      (split; [reflexivity|]); (split; [reflexivity|]).
      eexists; split; reflexivity. }
  split; [|split; [intros p Hp; apply (Hfiles p Hp)|]].
  - apply Hfiles. apply String.eqb_neq, flasher_path_not_dtb.
  - apply (Hfiles (flasher_path self)).
    apply String.eqb_neq, flasher_path_not_dtb.
Qed.

Lemma PrepareFlasher_failure_leaves_no_image_witness :
  files (snd (WriteFirmware.PrepareFlasher
                (Sample.self (Sample.fdt 0xfffff000 None) true true false)
                "u-boot.bin" "image.bin" true false "spi" "0"
                (Sample.host [] (Done ""))))
        "out/flasher-for-image.bin" = None.
Proof.
  destruct (PrepareFlasher_failure_leaves_no_image
              (Sample.self (Sample.fdt 0xfffff000 None) true true false)
              "u-boot.bin" "image.bin" true false "spi" "0"
              (Sample.host [] (Done ""))
              (ValueError
                 ("Internal error: replacement string 'zsHEXYla' length does "
                  ++ "not match new string '100000000'")))
    as (H & _); [vm_compute; reflexivity | exact H].
Defined.

(** ** Further properties: the Nvidia path *)

Lemma splitlines_from_substring (line : string) :
  forall (s cur : string) (after_cr : bool),
    (after_cr = true -> cur = "") ->
    In line (Py.splitlines_from cur after_cr s) ->
    exists a b, cur ++ s = a ++ line ++ b.
Proof.
  induction s as [|c s IH]; intros cur after_cr Hcr Hin.
  - cbn [Py.splitlines_from] in Hin.
    destruct (String.eqb cur ""); [destruct Hin|].
    destruct Hin as [<-|[]]. exists "", "". reflexivity.
  - cbn [Py.splitlines_from] in Hin.
    destruct (Ascii.eqb c Py.CR).
    + destruct Hin as [<-|Hin].
      * exists "", (String c s). reflexivity.
      * destruct (IH "" true ltac:(reflexivity) Hin) as (a & b & Hab).
        cbn [append] in Hab. exists (cur ++ String c a), b.
        rewrite Hab, append_assoc. reflexivity.
    + destruct (Ascii.eqb c Py.LF).
      * destruct after_cr.
        -- rewrite (Hcr eq_refl) in *.
           destruct (IH "" false ltac:(discriminate) Hin) as (a & b & Hab).
           cbn [append] in Hab. exists (String c a), b.
           cbn [append]. rewrite Hab. reflexivity.
        -- destruct Hin as [<-|Hin].
           ++ exists "", (String c s). reflexivity.
           ++ destruct (IH "" false ltac:(discriminate) Hin)
                as (a & b & Hab).
              cbn [append] in Hab. exists (cur ++ String c a), b.
              rewrite Hab, append_assoc. reflexivity.
      * destruct (IH (cur ++ String c "") false ltac:(discriminate) Hin)
          as (a & b & Hab).
        exists a, b. rewrite <- Hab, append_assoc. reflexivity.
Qed.

Lemma strip_prefix_prefix (p s rest : string) :
  WriteFirmware.strip_prefix p s = Some rest -> String.prefix p s = true.
Proof.
  revert s. induction p as [|a p IH]; intros s H; [destruct s; reflexivity|].
  destruct s as [|b s]; [discriminate H|].
  cbn [WriteFirmware.strip_prefix] in H. cbn [String.prefix].
  destruct (Ascii.eqb_spec a b) as [->|Hne]; [|discriminate H].
  destruct (ascii_dec b b); [apply IH, H|contradiction].
Qed.

Lemma boot_lines_none (out : string) :
  Py.contains "DevType[0] = NvBootDevType_" out = false ->
  boot_lines out = [].
Proof.
  intros H. unfold boot_lines.
  assert (Hall : forall line, In line (Py.splitlines out) ->
                   WriteFirmware.match_boot line = None).
  { intros line Hin.
    destruct (WriteFirmware.match_boot line) as [name|] eqn:Hm;
      [|reflexivity].
    exfalso. unfold WriteFirmware.match_boot in Hm.
    destruct (WriteFirmware.strip_prefix "DevType[0] = NvBootDevType_" line)
      as [rest|] eqn:Hs; [|discriminate Hm].
    apply strip_prefix_prefix, contains_of_prefix in Hs.
    destruct (splitlines_from_substring line out "" false
                ltac:(discriminate) Hin) as (a & b & Hab).
    cbn [append] in Hab.
    assert (Hc : Py.contains line out = true)
      by (rewrite Hab; apply contains_join).
    rewrite (contains_trans _ _ _ Hs Hc) in H. discriminate H. }
  induction (Py.splitlines out) as [|l ls IH]; [reflexivity|].
  cbn [filter]. rewrite (Hall l (or_introl eq_refl)).
  apply IH. intros line Hin. apply Hall. right. exact Hin.
Qed.

(** X8: [_NvidiaFlashImage] starts by running [bct_dump] on the BCT
    file.  If that command fails its [CmdError] propagates, and if its
    output nowhere holds [DevType[0] = NvBootDevType_] the method raises
    [IndexError]; in both cases nothing else has happened: no file is
    written and [nvflash] is not run. *)
Theorem NvidiaFlashImage_needs_boot_device (self : WriteFirmware.t)
    (uboot bct payload : string) (w : world) :
  let run := WriteFirmware._NvidiaFlashImage self uboot bct payload w in
  (forall msg,
     replies w (nruns w) = Failed msg ->
     run = (Raise (CmdError msg), after w [bct_dump_run bct] 1))
  /\ (forall out,
        replies w (nruns w) = Done out ->
        Py.contains "DevType[0] = NvBootDevType_" out = false ->
        run = (Raise IndexError, after w [bct_dump_run bct] 1)).
Proof.
  intros run. subst run. unfold WriteFirmware._NvidiaFlashImage. split.
  - intros msg H. unfold bind at 1. rewrite (Run_failed _ _ _ _ _ H).
    reflexivity.
  - intros out H Hnone. unfold bind at 1. rewrite (Run_done _ _ _ _ _ H).
    cbv zeta. fold (boot_lines out). rewrite (boot_lines_none out Hnone).
    reflexivity.
Qed.

Lemma NvidiaFlashImage_needs_boot_device_witness :
  WriteFirmware._NvidiaFlashImage
    (Sample.self (Sample.fdt 0x00e08000 None) true true false)
    "u-boot.bin" "board.bct" "image.bin"
    (Sample.host [Done "Version = 0x00020001;"] (Done ""))
  = (Raise IndexError,
     after (Sample.host [Done "Version = 0x00020001;"] (Done ""))
           [bct_dump_run "board.bct"] 1).
Proof.
  destruct (NvidiaFlashImage_needs_boot_device
              (Sample.self (Sample.fdt 0x00e08000 None) true true false)
              "u-boot.bin" "board.bct" "image.bin"
              (Sample.host [Done "Version = 0x00020001;"] (Done "")))
    as [_ H].
  apply (H "Version = 0x00020001;").
  - reflexivity.
  - vm_compute; reflexivity.
Defined.

Lemma grows_nv_tries (self : WriteFirmware.t) (args : list string) (n : nat) :
  forall last, grows (WriteFirmware._NvidiaFlashImage_tries self args n last).
Proof.
  induction n as [|n IH]; intros last;
    cbn [WriteFirmware._NvidiaFlashImage_tries].
  - auto with grows.
  - apply grows_try_except; [auto 10 with grows|]. intros err.
    destruct (negb (Output.stdout_is_tty (WriteFirmware._out self)));
      [auto with grows|].
    destruct (negb (Py.contains "USB device not found" err));
      [auto with grows|].
    apply grows_bind.
    + destruct (negb _); unfold Output.Progress2; auto 10 with grows.
    + intros last'. unfold time_sleep. auto 10 with grows.
Qed.

Lemma lower_cmds_use_update (payload_size checksum : Z) (verify : bool)
    (bus : string) :
  In "time run _update"
     (WriteFirmware._GetFlashScript_cmds payload_size true verify "spi"
        checksum bus).
Proof.
  unfold WriteFirmware._GetFlashScript_cmds.
  cbn [String.eqb Ascii.eqb Bool.eqb negb]. cbv zeta.
  destruct verify; cbn [app]; repeat (try (left; reflexivity); right).
Qed.

(** X9: the boot type of the Nvidia path is the name on the first
    boot-device line of the dump, in lower case: the script stored in
    the device tree is the one for that lower-cased name, so a BCT that
    names [Spi] in any letter case gives, with the [update] attribute
    set, a script that holds [time run _update]. *)
Theorem NvidiaFlashImage_boot_type_lowered (self : WriteFirmware.t)
    (uboot bct payload : string) (w : world)
    (out line name data payload_data : string) (rest : list string) :
  replies w (nruns w) = Done out ->
  boot_lines out = line :: rest ->
  WriteFirmware.match_boot line = Some name ->
  staged self w payload = Some payload_data ->
  staged self w uboot = Some data ->
  let run := WriteFirmware._NvidiaFlashImage self uboot bct payload w in
  let script :=
    boot_script payload_data (WriteFirmware.update self)
      (WriteFirmware.verify self) (Py.lower name) "0" in
  In (EvFdtPutString (dtb_path self) "/config" "bootcmd" script)
     (trace (snd run))
  /\ (Py.lower name = "spi" -> WriteFirmware.update self = true ->
      Py.contains "time run _update" script = true).
Proof.
  intros Hout Hlines Hname Hp Hu run script. split.
  - subst run. unfold WriteFirmware._NvidiaFlashImage.
    unfold bind at 1. rewrite (Run_done _ _ _ _ _ Hout). cbv zeta.
    fold (boot_lines out). rewrite Hlines, Hname.
    set (w1 := after w [EvRun "bct_dump" [bct] false] 1).
    set (k := fun flasher : string =>
                Output.Progress "Uploading flasher image" ;;
                WriteFirmware._NvidiaFlashImage_tries self
                  (nvflash_args self bct flasher) 10 None).
    change (In (EvFdtPutString (dtb_path self) "/config" "bootcmd" script)
              (trace (snd (bind (WriteFirmware.PrepareFlasher self uboot
                                   payload (WriteFirmware.update self)
                                   (WriteFirmware.verify self)
                                   (Py.lower name) "0") k w1)))).
    assert (Hk : forall flasher, grows (k flasher)).
    { intros flasher. subst k. cbv beta. pose proof grows_nv_tries.
      auto 10 with grows. }
    assert (Hprep :
      exists evs,
        trace (snd (WriteFirmware.PrepareFlasher self uboot payload
                      (WriteFirmware.update self) (WriteFirmware.verify self)
                      (Py.lower name) "0" w1))
        = (trace w1
           ++ EvFdtCopy (dtb_path self)
           :: EvFdtPutString (dtb_path self) "/config" "bootcmd" script
           :: evs)%list).
    { rewrite (PrepareFlasher_run self uboot payload _ _ _ _ w1 data
                 payload_data Hp Hu).
      fold script.
      destruct (negb (8 =? _));
        [|destruct (negb (_ =? 1))]; cbn [snd trace];
        rewrite <- ?app_assoc; eexists; reflexivity. }
    destruct Hprep as [evs Hevs].
    unfold bind.
    destruct (WriteFirmware.PrepareFlasher self uboot payload
                (WriteFirmware.update self) (WriteFirmware.verify self)
                (Py.lower name) "0" w1) as [[flasher|e] w2];
      cbn [snd] in Hevs |- *.
    + destruct (Hk flasher w2) as [evs' ->]. rewrite Hevs.
      apply in_or_app. left. apply in_or_app. right. right. left.
      reflexivity.
    + rewrite Hevs. apply in_or_app. right. right. left. reflexivity.
  - intros Hspi Hupd. subst script. unfold boot_script.
    rewrite Hspi, Hupd. unfold WriteFirmware._GetFlashScript. cbn [fst].
    apply contains_concat, lower_cmds_use_update.
Qed.

Lemma NvidiaFlashImage_boot_type_lowered_witness :
  let self := Sample.self (Sample.fdt 0x00e08000 None) true true false in
  let w := Sample.host [Done Sample.bct_dump] (Done "") in
  In (EvFdtPutString "out/flasher.dtb" "/config" "bootcmd"
        (boot_script "firmware image" true false "spi" "0"))
     (trace (snd (WriteFirmware._NvidiaFlashImage self "u-boot.bin"
                    "board.bct" "image.bin" w)))
  /\ Py.contains "time run _update"
       (boot_script "firmware image" true false "spi" "0") = true.
Proof.
  intros self w.
  destruct (NvidiaFlashImage_boot_type_lowered self "u-boot.bin" "board.bct"
              "image.bin" w Sample.bct_dump
              "DevType[0] = NvBootDevType_Spi;" "Spi" "U-BOOT code"
              "firmware image" [])
    as [Hin Hupd]; try (vm_compute; reflexivity).
  split; [exact Hin|]. apply Hupd; reflexivity.
Defined.

Lemma nv_tries_outcomes (self : WriteFirmware.t) (args : list string)
    (n : nat) : forall (last : option string) (w : world),
  let r := WriteFirmware._NvidiaFlashImage_tries self args n last w in
  (nruns w <= nruns (snd r) <= nruns w + n)%nat
  /\ files (snd r) = files w
  /\ replies (snd r) = replies w
  /\ match fst r with
     | Ok true =>
         (nruns w < nruns (snd r))%nat
         /\ exists out, replies w (nruns (snd r) - 1) = Done out
     | Ok false =>
         Output.stdout_is_tty (WriteFirmware._out self) = false
         \/ nruns (snd r) = (nruns w + n)%nat
     | Raise e =>
         Output.stdout_is_tty (WriteFirmware._out self) = true
         /\ exists msg,
              e = CmdError ("nvflash failed: " ++ msg)
              /\ transient msg = false
              /\ replies w (nruns (snd r) - 1) = Failed msg
     end.
Proof.
  induction n as [|n IH]; intros last w r.
  - subst r. cbn. repeat split; lia.
  - destruct (replies w (nruns w)) as [out|msg] eqn:Hr.
    + subst r. rewrite (nv_step_done self args n last w out Hr).
      cbn [fst snd after nruns files replies].
      replace (nruns w + 1 - 1)%nat with (nruns w) by lia.
      repeat split; try lia. exists out. exact Hr.
    + destruct (Output.stdout_is_tty (WriteFirmware._out self)) eqn:Htty.
      * destruct (transient msg) eqn:Hmsg.
        -- subst r.
           rewrite (nv_step_transient self args n last w msg Htty Hr Hmsg).
           specialize (IH (Some msg)
                         (after w (transient_events args last [msg]) 1)).
           cbv zeta in IH.
           destruct (WriteFirmware._NvidiaFlashImage_tries self args n
                       (Some msg)
                       (after w (transient_events args last [msg]) 1))
             as [res w'].
           cbn [fst snd after nruns files replies] in IH |- *.
           destruct IH as (Hn & Hf & Hrp & Hres).
           split; [lia|]. split; [exact Hf|]. split; [exact Hrp|].
           destruct res as [[|]|e].
           ++ destruct Hres as [Hlt Hout]. split; [lia|exact Hout].
           ++ destruct Hres as [Hres|Hres]; [discriminate Hres|].
              right. lia.
           ++ exact Hres.
        -- subst r.
           rewrite (nv_step_fatal self args n last w msg Htty Hr Hmsg).
           cbn [fst snd after nruns files replies].
           replace (nruns w + 1 - 1)%nat with (nruns w) by lia.
           repeat split; try lia. exists msg. repeat split; assumption.
      * subst r. rewrite (nv_step_not_tty self args n last w msg Htty Hr).
        cbn [fst snd after nruns files replies].
        repeat split; try lia; left; reflexivity.
Qed.

(** X10: whatever the commands answer, the [nvflash] loop runs at most
    ten commands and writes no file.  It returns [True]
    only right after a command that succeeded; it returns [False] only
    when the output is not a terminal or all ten attempts are used; and
    the only error it raises is [CmdError "nvflash failed: ..."], on a
    terminal, for a failure whose message lacks
    [USB device not found]. *)
Theorem NvidiaFlashImage_tries_outcomes (self : WriteFirmware.t)
    (args : list string) (last : option string) (w : world) :
  let r := WriteFirmware._NvidiaFlashImage_tries self args 10 last w in
  (nruns w <= nruns (snd r) <= nruns w + 10)%nat
  /\ files (snd r) = files w
  /\ match fst r with
     | Ok true =>
         (nruns w < nruns (snd r))%nat
         /\ exists out, replies w (nruns (snd r) - 1) = Done out
     | Ok false =>
         Output.stdout_is_tty (WriteFirmware._out self) = false
         \/ nruns (snd r) = (nruns w + 10)%nat
     | Raise e =>
         Output.stdout_is_tty (WriteFirmware._out self) = true
         /\ exists msg,
              e = CmdError ("nvflash failed: " ++ msg)
              /\ transient msg = false
              /\ replies w (nruns (snd r) - 1) = Failed msg
     end.
Proof.
  intros r.
  destruct (nv_tries_outcomes self args 10 last w) as (Hn & Hf & _ & Hres).
  fold r in Hn, Hf, Hres. repeat split; try assumption; lia.
Qed.

(** ** Further properties: the Exynos path *)

Lemma after_congr (w : world) (e1 e2 : list event) (k1 k2 : nat) :
  e1 = e2 -> k1 = k2 -> after w e1 k1 = after w e2 k2.
Proof. intros -> ->. reflexivity. Qed.

Section Stages.

Variables (self : WriteFirmware.t) (vendor_id product_id : Z).

Let stages := WriteFirmware._ExynosFlashImage_stages self vendor_id product_id.

Lemma stage_probe_found (item : string * Z * string)
    (rest : list (string * Z * string)) (first : bool) (w : world)
    (k : nat) :
  (k < 8)%nat ->
  (forall i, (i < k)%nat -> exists msg, replies w (nruns w + i) = Failed msg) ->
  (exists out, replies w (nruns w + k) = Done out) ->
  stages (item :: rest) first w
  = match replies w (nruns w + k + 1) with
    | Done _ =>
        stages rest false
          (after w (stage_events vendor_id product_id k item) (k + 2))
    | Failed msg =>
        (Raise (CmdError msg),
         after w (stage_events vendor_id product_id k item) (k + 2))
    end.
Proof.
  intros Hk Hf [out Hd]. subst stages. destruct item as [[stage addr] file].
  cbn [WriteFirmware._ExynosFlashImage_stages]. unfold bind at 1.
  rewrite (wait_found self "exynos" vendor_id product_id 4 w k out Hk Hf Hd).
  cbn [negb]. unfold bind at 1, Output.Notice. rewrite emit_after.
  unfold bind at 1, Output.Progress. rewrite emit_after.
  unfold bind at 1, time_sleep. rewrite emit_after.
  rewrite !after_after. unfold bind at 1.
  assert (Hevs : forall (tr : list event) (n : nat),
            after (after w tr n)
              [EvRun "smdk-usbdl" ["-a"; Py.fmt_x true 0 addr; "-f"; file]
                 true] 1
            = after w (tr ++ [EvRun "smdk-usbdl"
                                ["-a"; Py.fmt_x true 0 addr; "-f"; file]
                                true]) (n + 1))
    by (intros; apply after_after).
  destruct (replies w (nruns w + k + 1)) as [o|msg] eqn:Ht.
  - rewrite (Run_done _ _ _ _ o), Hevs.
    + f_equal. apply after_congr; [|lia].
      cbn [stage_events app]. rewrite <- !app_assoc. reflexivity.
    + cbn [after replies nruns]. rewrite <- Ht. f_equal. lia.
  - rewrite (Run_failed _ _ _ _ msg), Hevs.
    + f_equal. apply after_congr; [|lia].
      cbn [stage_events app]. rewrite <- !app_assoc. reflexivity.
    + cbn [after replies nruns]. rewrite <- Ht. f_equal. lia.
Qed.

Lemma stage_probe_stalled (stage : string) (addr : Z) (file : string)
    (rest : list (string * Z * string)) (w : world) :
  (forall i, (i < 8)%nat -> exists msg, replies w (nruns w + i) = Failed msg) ->
  stages ((stage, addr, file) :: rest) false w
  = (Raise (stage_stalled stage),
     after w (waiting :: failed_probes (lsusb_args vendor_id product_id) 8) 8).
Proof.
  intros Hf. subst stages.
  cbn [WriteFirmware._ExynosFlashImage_stages]. unfold bind.
  rewrite (wait_exhausted self "exynos" vendor_id product_id 4 w Hf).
  reflexivity.
Qed.

Lemma stages_follow_plan (plan : list (string * Z * string * nat)) :
  forall (rest : list (string * Z * string)) (first : bool) (w : world),
    plan_ok (replies w) (nruns w) plan ->
    stages (map fst plan ++ rest)%list first w
    = stages rest (match plan with [] => first | _ => false end)
        (after w (plan_events vendor_id product_id plan) (plan_runs plan)).
Proof.
  induction plan as [|[item k] plan IH]; intros rest first w Hok.
  - cbn. rewrite after_nil. reflexivity.
  - cbn [plan_ok] in Hok. destruct Hok as (Hk & Hf & Hd & [o Ht] & Hrest).
    cbn [map fst app].
    rewrite (stage_probe_found item _ first w k Hk Hf Hd), Ht.
    rewrite (IH rest false).
    + rewrite after_after. cbn [plan_events plan_runs].
      replace (k + 2 + plan_runs plan)%nat with (k + 2 + plan_runs plan)%nat
        by reflexivity.
      destruct plan; reflexivity.
    + cbn [after replies nruns].
      replace (nruns w + (k + 2))%nat with (nruns w + k + 2)%nat by lia.
      exact Hrest.
Qed.

End Stages.

(** X11: once the flasher is prepared and the servo reset has run,
    when for each of the three stages the board answers a probe within
    the eight queries and the transfer succeeds, and the cleanup command
    succeeds, [_ExynosFlashImage] returns [True] having transferred
    [bl1] to 0x02021400, [bl2] to 0x02023400 and the flasher to
    0x43e00000, in that order, each after its own probe, then run the
    cleanup command and shown the download notice. *)
Theorem ExynosFlashImage_stages_in_order (self : WriteFirmware.t)
    (uboot bl1 bl2 payload flasher : string) (w0 w : world)
    (k1 k2 k3 : nat) :
  WriteFirmware.PrepareFlasher self uboot payload (WriteFirmware.update self)
    (WriteFirmware.verify self) "Spi" "1:0" w0 = (Ok flasher, w) ->
  let plan :=
    [ (("bl1", 0x02021400, bl1), k1);
      (("bl2", 0x02023400, bl2), k2);
      (("u-boot", 0x43e00000, flasher), k3) ] in
  (exists out, replies w (nruns w) = Done out) ->
  plan_ok (replies w) (nruns w + 1) plan ->
  (exists out, replies w (nruns w + 1 + plan_runs plan) = Done out) ->
  WriteFirmware._ExynosFlashImage self uboot bl1 bl2 payload w0
  = (Ok true,
     after w (reset_events ++ plan_events 0x04e8 0x1234 plan
              ++ [cleanup; downloaded])%list
           (1 + plan_runs plan + 1)).
Proof.
  intros Hprep plan [out Hreset] Hplan [out' Hclean].
  rewrite (exynos_after_prepare self uboot bl1 bl2 payload flasher out w0 w
             Hprep Hreset).
  set (w1 := after w reset_events 1).
  pose proof (stages_follow_plan self 0x04e8 0x1234 plan [] true w1) as Hst.
  cbn [WriteFirmware._ExynosFlashImage_stages] in Hst.
  specialize (Hst Hplan).
  change (map fst plan ++ [])%list
    with [ ("bl1", 0x02021400, bl1); ("bl2", 0x02023400, bl2);
           ("u-boot", 0x43e00000, flasher) ] in Hst.
  unfold bind at 1.
  rewrite (download_finally self 0x04e8 0x1234 _ w1 _ _ Hst).
  assert (Hc : replies (after w1 (plan_events 0x04e8 0x1234 plan)
                          (plan_runs plan))
                 (nruns (after w1 (plan_events 0x04e8 0x1234 plan)
                           (plan_runs plan))) = Done out').
  { cbn [after replies nruns w1]. rewrite <- Hclean. f_equal. }
  rewrite Hc. cbv beta iota. unfold ret at 1.
  unfold bind, Output.Notice. rewrite emit_after. unfold ret.
  subst w1. rewrite !after_after. f_equal.
Qed.

Lemma ExynosFlashImage_stages_in_order_witness :
  fst (WriteFirmware._ExynosFlashImage
         (Sample.self (Sample.fdt 0x00e08000 None) true true false)
         "u-boot.bin" "bl1.bin" "bl2.bin" "image.bin"
         (Sample.host [] (Done ""))) = Ok true.
Proof.
  rewrite (ExynosFlashImage_stages_in_order
             (Sample.self (Sample.fdt 0x00e08000 None) true true false)
             "u-boot.bin" "bl1.bin" "bl2.bin" "image.bin"
             "out/flasher-for-image.bin" (Sample.host [] (Done ""))
             (snd (WriteFirmware.PrepareFlasher
                     (Sample.self (Sample.fdt 0x00e08000 None) true true false)
                     "u-boot.bin" "image.bin" true false "Spi" "1:0"
                     (Sample.host [] (Done ""))))
             0 0 0).
  - reflexivity.
  - apply (run_pair
             (WriteFirmware.PrepareFlasher
                (Sample.self (Sample.fdt 0x00e08000 None) true true false)
                "u-boot.bin" "image.bin" true false "Spi" "1:0")
             (Sample.host [] (Done ""))).
    vm_compute; reflexivity.
  - exists "". vm_compute; reflexivity.
  - cbn [plan_ok].
    repeat split; try lia; try (exists ""; vm_compute; reflexivity);
      intros i Hi; lia.
  - exists "". vm_compute; reflexivity.
Defined.

(** X12: when some stages have been transferred and the board then
    fails all eight probe queries before the next stage, the download
    ends with [CmdError "Stage '<name>' did not complete"] naming the
    stage that was about to be transferred, provided the cleanup command
    succeeds (its own error propagates otherwise); that stage and the
    later ones are never transferred, and the cleanup command is the
    last thing run. *)
Theorem ExynosFlashImage_later_stage_stall (self : WriteFirmware.t)
    (vendor_id product_id : Z) (plan : list (string * Z * string * nat))
    (stage : string) (addr : Z) (file : string)
    (rest : list (string * Z * string)) (w : world) :
  plan <> [] ->
  plan_ok (replies w) (nruns w) plan ->
  (forall i, (i < 8)%nat ->
     exists msg, replies w (nruns w + plan_runs plan + i) = Failed msg) ->
  WriteFirmware._ExynosFlashImage_download self vendor_id product_id
    (map fst plan ++ (stage, addr, file) :: rest)%list w
  = (match replies w (nruns w + plan_runs plan + 8) with
     | Done _ => Raise (stage_stalled stage)
     | Failed msg => Raise (CmdError msg)
     end,
     after w (plan_events vendor_id product_id plan
              ++ waiting
              :: failed_probes (lsusb_args vendor_id product_id) 8
              ++ [cleanup])%list
           (plan_runs plan + 8 + 1)).
Proof.
  intros Hne Hplan Hfail.
  pose proof (stages_follow_plan self vendor_id product_id plan
                ((stage, addr, file) :: rest) true w Hplan) as Hst.
  destruct plan as [|p plan']; [contradiction|].
  set (plan := p :: plan') in *.
  rewrite (stage_probe_stalled self vendor_id product_id stage addr file rest)
    in Hst
    by (intros i Hi; cbn [after replies nruns]; apply Hfail, Hi).
  rewrite after_after in Hst.
  rewrite (download_finally self vendor_id product_id _ w _ _ Hst).
  rewrite after_after. cbn [after replies nruns].
  replace (nruns w + (plan_runs plan + 8))%nat
    with (nruns w + plan_runs plan + 8)%nat by lia.
  f_equal. apply after_congr; [|lia].
  rewrite <- !app_assoc. reflexivity.
Qed.

(** X13: when the transfer command of a stage fails, at the first stage
    or after some stages went through, the download ends with the
    [CmdError] of that command, provided the cleanup command succeeds
    (its own error propagates otherwise); no later stage is probed for
    or transferred, and the cleanup command is the last thing run. *)
Theorem ExynosFlashImage_transfer_failure (self : WriteFirmware.t)
    (vendor_id product_id : Z) (plan : list (string * Z * string * nat))
    (item : string * Z * string) (rest : list (string * Z * string))
    (w : world) (k : nat) (msg : string) :
  plan_ok (replies w) (nruns w) plan ->
  (k < 8)%nat ->
  (forall i, (i < k)%nat ->
     exists m, replies w (nruns w + plan_runs plan + i) = Failed m) ->
  (exists out, replies w (nruns w + plan_runs plan + k) = Done out) ->
  replies w (nruns w + plan_runs plan + k + 1) = Failed msg ->
  WriteFirmware._ExynosFlashImage_download self vendor_id product_id
    (map fst plan ++ item :: rest)%list w
  = (match replies w (nruns w + plan_runs plan + k + 2) with
     | Done _ => Raise (CmdError msg)
     | Failed msg' => Raise (CmdError msg')
     end,
     after w (plan_events vendor_id product_id plan
              ++ stage_events vendor_id product_id k item
              ++ [cleanup])%list
           (plan_runs plan + (k + 2) + 1)).
Proof.
  intros Hplan Hk Hfail Hfound Hmsg.
  pose proof (stages_follow_plan self vendor_id product_id plan
                (item :: rest) true w Hplan) as Hst.
  rewrite (stage_probe_found self vendor_id product_id item rest _ _ k Hk)
    in Hst
    by (cbn [after replies nruns]; assumption).
  cbn [after replies nruns] in Hst. rewrite Hmsg in Hst.
  fold (after w (plan_events vendor_id product_id plan) (plan_runs plan))
    in Hst.
  rewrite after_after in Hst.
  rewrite (download_finally self vendor_id product_id _ w _ _ Hst).
  rewrite after_after. cbn [after replies nruns].
  replace (nruns w + (plan_runs plan + (k + 2)))%nat
    with (nruns w + plan_runs plan + k + 2)%nat by lia.
  f_equal. apply after_congr; [|lia].
  rewrite <- !app_assoc. reflexivity.
Qed.

Lemma ExynosFlashImage_later_stage_stall_witness :
  let w :=
    Sample.host (Done "" :: Done "" :: repeat (Failed "exit status 1") 8)%list
                (Done "") in
  WriteFirmware._ExynosFlashImage_download
    (Sample.self (Sample.fdt 0x00e08000 None) true true false) 0x04e8 0x1234
    (exynos_download_list "bl1.bin" "bl2.bin" "flasher.bin") w
  = (Raise (stage_stalled "bl2"),
     after w (plan_events 0x04e8 0x1234 [(("bl1", 0x02021400, "bl1.bin"), O)]
              ++ waiting :: failed_probes (lsusb_args 0x04e8 0x1234) 8
              ++ [cleanup])%list 11).
Proof.
  intros w.
  apply (ExynosFlashImage_later_stage_stall
           (Sample.self (Sample.fdt 0x00e08000 None) true true false)
           0x04e8 0x1234 [(("bl1", 0x02021400, "bl1.bin"), O)]
           "bl2" 0x02023400 "bl2.bin" [("u-boot", 0x43e00000, "flasher.bin")]
           w).
  - discriminate.
  - cbn [plan_ok]. repeat split; try lia; try (exists ""; reflexivity).
  - intros i Hi.
    do 8 (destruct i as [|i]; [eexists; reflexivity|]). lia.
Defined.

Lemma ExynosFlashImage_transfer_failure_witness :
  let w := Sample.host [Done ""; Failed "usb error"] (Done "") in
  WriteFirmware._ExynosFlashImage_download
    (Sample.self (Sample.fdt 0x00e08000 None) true true false) 0x04e8 0x1234
    (exynos_download_list "bl1.bin" "bl2.bin" "flasher.bin") w
  = (Raise (CmdError "usb error"),
     after w (stage_events 0x04e8 0x1234 0 ("bl1", 0x02021400, "bl1.bin")
              ++ [cleanup])%list 3).
Proof.
  intros w.
  apply (ExynosFlashImage_transfer_failure
           (Sample.self (Sample.fdt 0x00e08000 None) true true false)
           0x04e8 0x1234 [] ("bl1", 0x02021400, "bl1.bin")
           [("bl2", 0x02023400, "bl2.bin");
            ("u-boot", 0x43e00000, "flasher.bin")]
           w 0 "usb error").
  - exact I.
  - lia.
  - intros i Hi; lia.
  - exists "". reflexivity.
  - reflexivity.
Defined.

Lemma bind_ok_inv {A B} (m : M A) (k : A -> M B) (w w' : world) (b : B) :
  bind m k w = (Ok b, w') ->
  exists a w1, m w = (Ok a, w1) /\ k a w1 = (Ok b, w').
Proof.
  unfold bind. destruct (m w) as [[a|e] w1]; intros H; [|discriminate H].
  exists a, w1. split; [reflexivity|exact H].
Qed.

(** X14: [_ExynosFlashImage] never returns [False]: when it returns,
    the value is [True] and the last two events are the cleanup command
    and the download notice. *)
Theorem ExynosFlashImage_returns_only_true (self : WriteFirmware.t)
    (uboot bl1 bl2 payload : string) (w w' : world) (ok : bool) :
  WriteFirmware._ExynosFlashImage self uboot bl1 bl2 payload w = (Ok ok, w') ->
  ok = true
  /\ exists tr, trace w' = (tr ++ [cleanup; downloaded])%list.
Proof.
  intros H. unfold WriteFirmware._ExynosFlashImage in H.
  apply bind_ok_inv in H as (flasher & w1 & _ & H).
  apply bind_ok_inv in H as (u1 & w2 & _ & H).
  apply bind_ok_inv in H as (out & w3 & _ & H).
  apply bind_ok_inv in H as (u2 & w4 & _ & H).
  apply bind_ok_inv in H as (u3 & w5 & _ & H).
  apply bind_ok_inv in H as (u4 & w6 & Hd & H).
  apply bind_ok_inv in H as (u5 & w7 & Hn & H).
  unfold ret in H. injection H as <- <-. split; [reflexivity|].
  unfold Output.Notice, emit in Hn. injection Hn as _ <-.
  unfold WriteFirmware._ExynosFlashImage_download, try_finally in Hd.
  destruct (WriteFirmware._ExynosFlashImage_stages self 0x04e8 0x1234 _ true
              w5) as [r ws].
  unfold bind, Tools.Run, ret in Hd.
  destruct (replies ws (nruns ws)); [|discriminate Hd].
  injection Hd as _ <-. cbn [trace].
  exists (trace ws). rewrite <- app_assoc. reflexivity.
Qed.

Lemma ExynosFlashImage_returns_only_true_witness :
  exists tr,
    trace (snd (WriteFirmware._ExynosFlashImage
                  (Sample.self (Sample.fdt 0x00e08000 None) true true false)
                  "u-boot.bin" "bl1.bin" "bl2.bin" "image.bin"
                  (Sample.host [] (Done ""))))
    = (tr ++ [cleanup; downloaded])%list.
Proof.
  apply (ExynosFlashImage_returns_only_true
           (Sample.self (Sample.fdt 0x00e08000 None) true true false)
           "u-boot.bin" "bl1.bin" "bl2.bin" "image.bin"
           (Sample.host [] (Done "")) _ true).
  apply (run_pair
           (WriteFirmware._ExynosFlashImage
              (Sample.self (Sample.fdt 0x00e08000 None) true true false)
              "u-boot.bin" "bl1.bin" "bl2.bin" "image.bin")
           (Sample.host [] (Done ""))).
  vm_compute; reflexivity.
Defined.

(** ** Further properties: dispatch and the USB probe *)

(** X15: with destination [usb], a file list that lacks the entry the
    flash method needs makes [DoWriteFirmware] raise [KeyError] naming
    it ([bct] for [tegra]; [exynos-bl1], or [exynos-bl2] when only that
    one is missing, for [exynos]) before anything is done: the world is
    unchanged. *)
Theorem DoWriteFirmware_missing_file (output : Output.t) (tools : Tools.t)
    (fdt : Fdt.t) (flasher : string) (file_list : string -> option string)
    (image_fname : string) (text_base : option Z) (update verify : bool)
    (w : world) :
  let run :=
    DoWriteFirmware output tools fdt flasher file_list image_fname text_base
      update verify (Some "usb") w in
  (flash_method fdt = "tegra" -> file_list "bct" = None ->
   run = (Raise (KeyError "bct"), w))
  /\ (flash_method fdt = "exynos" -> file_list "exynos-bl1" = None ->
      run = (Raise (KeyError "exynos-bl1"), w))
  /\ (flash_method fdt = "exynos" -> file_list "exynos-bl1" <> None ->
      file_list "exynos-bl2" = None ->
      run = (Raise (KeyError "exynos-bl2"), w)).
Proof.
  intros run. subst run. unfold DoWriteFirmware. cbv zeta.
  cbn [dest_is String.eqb Ascii.eqb Bool.eqb]. fold (flash_method fdt).
  split; [|split].
  - intros -> Hb. cbn [String.eqb Ascii.eqb Bool.eqb].
    unfold bind, getitem. rewrite Hb. reflexivity.
  - intros -> Hb. cbn [String.eqb Ascii.eqb Bool.eqb].
    unfold bind, getitem. rewrite Hb. reflexivity.
  - intros -> Hb1 Hb2. cbn [String.eqb Ascii.eqb Bool.eqb].
    unfold bind, getitem.
    destruct (file_list "exynos-bl1") as [bl1|]; [|contradiction].
    rewrite Hb2. reflexivity.
Qed.

Lemma DoWriteFirmware_missing_file_witness :
  DoWriteFirmware (Sample.output true) Sample.tools
    (Sample.fdt 0x00e08000 (Some "exynos")) "u-boot.bin"
    (fun key => if String.eqb key "exynos-bl1" then Some "bl1.bin" else None)
    "image.bin" None true false (Some "usb") (Sample.host [] (Done ""))
  = (Raise (KeyError "exynos-bl2"), Sample.host [] (Done "")).
Proof.
  destruct (DoWriteFirmware_missing_file (Sample.output true) Sample.tools
              (Sample.fdt 0x00e08000 (Some "exynos")) "u-boot.bin"
              (fun key =>
                 if String.eqb key "exynos-bl1" then Some "bl1.bin" else None)
              "image.bin" None true false (Sample.host [] (Done "")))
    as (_ & _ & H).
  apply H; [reflexivity | discriminate | reflexivity].
Defined.

(** X16: with destination [usb], an error raised by the flash method
    of the board family leaves [DoWriteFirmware] unchanged, with the
    world the method left: no upload message is shown and no other
    error replaces it. *)
Theorem DoWriteFirmware_propagates (output : Output.t) (tools : Tools.t)
    (fdt : Fdt.t) (flasher : string) (file_list : string -> option string)
    (image_fname : string) (text_base : option Z) (update verify : bool)
    (w w' : world) (e : exn) :
  let run :=
    DoWriteFirmware output tools fdt flasher file_list image_fname text_base
      update verify (Some "usb") w in
  let write := writer output tools fdt text_base update verify in
  (flash_method fdt = "tegra" ->
   forall bct,
     file_list "bct" = Some bct ->
     WriteFirmware._NvidiaFlashImage write flasher bct image_fname w
     = (Raise e, w') ->
     run = (Raise e, w'))
  /\ (flash_method fdt = "exynos" ->
      forall bl1 bl2,
        file_list "exynos-bl1" = Some bl1 ->
        file_list "exynos-bl2" = Some bl2 ->
        WriteFirmware._ExynosFlashImage write flasher bl1 bl2 image_fname w
        = (Raise e, w') ->
        run = (Raise e, w')).
Proof.
  intros run write. subst run. unfold DoWriteFirmware. cbv zeta.
  cbn [dest_is String.eqb Ascii.eqb Bool.eqb]. fold (flash_method fdt).
  split.
  - intros -> bct Hb Hrun. cbn [String.eqb Ascii.eqb Bool.eqb].
    unfold bind, getitem. rewrite Hb. unfold ret.
    change (WriteFirmware._NvidiaFlashImage _ flasher bct image_fname w)
      with (WriteFirmware._NvidiaFlashImage write flasher bct image_fname w).
    rewrite Hrun. reflexivity.
  - intros -> bl1 bl2 Hb1 Hb2 Hrun. cbn [String.eqb Ascii.eqb Bool.eqb].
    unfold bind, getitem. rewrite Hb1, Hb2. unfold ret.
    change (WriteFirmware._ExynosFlashImage _ flasher bl1 bl2 image_fname w)
      with (WriteFirmware._ExynosFlashImage write flasher bl1 bl2 image_fname
              w).
    rewrite Hrun. reflexivity.
Qed.

Lemma DoWriteFirmware_propagates_witness :
  let w := Sample.host [Done "Version = 0x00020001;"] (Done "") in
  DoWriteFirmware (Sample.output true) Sample.tools
    (Sample.fdt 0x00e08000 None) "u-boot.bin" Sample.file_list "image.bin"
    None true false (Some "usb") w
  = (Raise IndexError, after w [bct_dump_run "board.bct"] 1).
Proof.
  intros w.
  destruct (DoWriteFirmware_propagates (Sample.output true) Sample.tools
              (Sample.fdt 0x00e08000 None) "u-boot.bin" Sample.file_list
              "image.bin" None true false w
              (after w [bct_dump_run "board.bct"] 1) IndexError)
    as [H _].
  apply (H eq_refl "board.bct" eq_refl).
  vm_compute; reflexivity.
Defined.

Lemma slept_app (a b : list event) : slept (a ++ b) = slept a + slept b.
Proof.
  induction a as [|e a IH]; [reflexivity|].
  destruct e; cbn [app slept]; lia.
Qed.

Lemma commands_app (a b : list event) :
  commands (a ++ b) = (commands a + commands b)%nat.
Proof.
  induction a as [|e a IH]; [reflexivity|].
  destruct e; cbn [app commands]; lia.
Qed.

Lemma slept_failed_probes (args : list string) (k : nat) :
  slept (failed_probes args k) = 500 * Z.of_nat k.
Proof. induction k as [|k IH]; cbn [failed_probes slept]; lia. Qed.

Lemma commands_failed_probes (args : list string) (k : nat) :
  commands (failed_probes args k) = k.
Proof. induction k as [|k IH]; cbn [failed_probes commands]; lia. Qed.

(** X17: for every timeout, negative ones included, and whatever the
    commands answer, [_WaitForUSBDevice] returns a boolean without
    raising, runs at most [timeout * 2] commands, changes nothing but
    the trace and the command count, and sleeps for at most [timeout]
    seconds in total; with a timeout of zero or less it returns [False]
    having only announced the wait. *)
Theorem WaitForUSBDevice_budget (self : WriteFirmware.t) (name : string)
    (vendor_id product_id timeout : Z) (w : world) :
  let r :=
    WriteFirmware._WaitForUSBDevice self name vendor_id product_id timeout w in
  exists (found_it : bool) (evs : list event),
    r = (Ok found_it, after w evs (commands evs))
    /\ (commands evs <= Z.to_nat (timeout * 2))%nat
    /\ 0 <= slept evs <= 1000 * Z.max 0 timeout
    /\ (timeout <= 0 -> found_it = false /\ evs = [waiting]).
Proof.
  intros r. subst r.
  set (budget := Z.to_nat (timeout * 2)).
  destruct (first_answer (replies w) (nruns w) budget)
    as [(k & out & Hk & Hf & Hd)|Hall].
  - rewrite (wait_found self name vendor_id product_id timeout w k out Hk Hf
               Hd).
    eexists true, _. split; [|split; [|split]].
    + f_equal. apply after_congr; [reflexivity|].
      cbn [commands waiting]. rewrite commands_app, commands_failed_probes.
      cbn [commands found]. lia.
    + cbn [commands waiting]. rewrite commands_app, commands_failed_probes.
      cbn [commands found]. fold budget. lia.
    + cbn [slept waiting]. rewrite slept_app, slept_failed_probes.
      cbn [slept found]. subst budget. lia.
    + intros Ht. subst budget. lia.
  - rewrite (wait_exhausted self name vendor_id product_id timeout w Hall).
    fold budget.
    eexists false, _. split; [|split; [|split]].
    + f_equal. apply after_congr; [reflexivity|].
      cbn [commands waiting]. rewrite commands_failed_probes. reflexivity.
    + cbn [commands waiting]. rewrite commands_failed_probes. lia.
    + cbn [slept waiting]. rewrite slept_failed_probes. subst budget. lia.
    + intros Ht. split; [reflexivity|].
      replace budget with O by (subst budget; lia). reflexivity.
Qed.

(** ** Further properties: the BCT dump *)

Lemma strip_prefix_app (p s : string) :
  WriteFirmware.strip_prefix p (p ++ s) = Some s.
Proof.
  induction p as [|a p IH]; [destruct s; reflexivity|].
  cbn [append WriteFirmware.strip_prefix]. rewrite Ascii.eqb_refl. exact IH.
Qed.

Lemma strip_prefix_inv (p s rest : string) :
  WriteFirmware.strip_prefix p s = Some rest -> s = p ++ rest.
Proof.
  revert s. induction p as [|a p IH]; intros s H.
  - destruct s; injection H as <-; reflexivity.
  - destruct s as [|b s]; [discriminate H|].
    cbn [WriteFirmware.strip_prefix] in H.
    destruct (Ascii.eqb_spec a b) as [->|Hne]; [|discriminate H].
    cbn [append]. f_equal. apply IH, H.
Qed.

Lemma span_alpha_app (letters tail : string) :
  all_chars Py.is_alpha letters = true ->
  (match tail with
   | "" => True
   | String c _ => Py.is_alpha c = false
   end) ->
  WriteFirmware.span_alpha (letters ++ tail) = (letters, tail).
Proof.
  intros Hl Ht. induction letters as [|c letters IH].
  - destruct tail as [|d tail]; [reflexivity|].
    cbn [append WriteFirmware.span_alpha]. rewrite Ht. reflexivity.
  - cbn [all_chars] in Hl. apply andb_true_iff in Hl as [Hc Hl].
    cbn [append WriteFirmware.span_alpha]. rewrite Hc, (IH Hl). reflexivity.
Qed.

Lemma span_alpha_inv (s letters tail : string) :
  WriteFirmware.span_alpha s = (letters, tail) ->
  s = letters ++ tail /\ all_chars Py.is_alpha letters = true.
Proof.
  revert letters tail. induction s as [|c s IH]; intros letters tail H.
  - injection H as <- <-. split; reflexivity.
  - cbn [WriteFirmware.span_alpha] in H.
    destruct (Py.is_alpha c) eqn:Hc.
    + destruct (WriteFirmware.span_alpha s) as [l t].
      injection H as <- <-. destruct (IH l t eq_refl) as [-> Hl].
      split; [reflexivity|]. cbn [all_chars]. rewrite Hc. exact Hl.
    + injection H as <- <-. split; reflexivity.
Qed.

(** X19: a line of the dump is recognised as the boot-device line, with
    [name] as its group, exactly when it is
    [DevType[0] = NvBootDevType_] followed by [name], a semicolon and
    any text, where [name] is a non-empty run of ASCII letters. *)
Theorem match_boot_characterised (line name : string) :
  WriteFirmware.match_boot line = Some name
  <-> (name <> ""
       /\ all_chars Py.is_alpha name = true
       /\ exists rest, line = boot_line_prefix ++ name ++ ";" ++ rest).
Proof.
  unfold WriteFirmware.match_boot. fold boot_line_prefix. split.
  - intros H.
    destruct (WriteFirmware.strip_prefix boot_line_prefix line) as [body|]
      eqn:Hs; [|discriminate H].
    apply strip_prefix_inv in Hs.
    destruct (WriteFirmware.span_alpha body) as [letters tail] eqn:Hsp.
    apply span_alpha_inv in Hsp as [Hbody Hletters].
    destruct letters as [|c letters]; [discriminate H|].
    destruct tail as [|d tail]; [discriminate H|].
    destruct (Ascii.eqb_spec d ";") as [->|Hne]; [|discriminate H].
    injection H as <-. split; [discriminate|]. split; [exact Hletters|].
    exists tail. rewrite Hs, Hbody. reflexivity.
  - intros (Hne & Hletters & rest & ->).
    rewrite strip_prefix_app.
    change (name ++ ";" ++ rest) with (name ++ String ";" rest).
    rewrite (span_alpha_app name (String ";" rest) Hletters eq_refl).
    destruct name as [|c name]; [contradiction|]. reflexivity.
Qed.

(** X18: when the dump names a boot device, the flasher is prepared
    and the first [nvflash] command succeeds, [_NvidiaFlashImage]
    returns [True] having shown the upload message, run [nvflash] once
    with [--bct] the BCT file, [--setbct], [--bl] the flasher image,
    [--go] and [--setentry] followed twice by the text base in [%#x]
    form, and shown the download notice. *)
Theorem NvidiaFlashImage_success (self : WriteFirmware.t)
    (uboot bct payload : string) (w w2 : world)
    (out line name flasher out' : string) (rest : list string) :
  replies w (nruns w) = Done out ->
  boot_lines out = line :: rest ->
  WriteFirmware.match_boot line = Some name ->
  WriteFirmware.PrepareFlasher self uboot payload (WriteFirmware.update self)
    (WriteFirmware.verify self) (Py.lower name) "0"
    (after w [bct_dump_run bct] 1) = (Ok flasher, w2) ->
  replies w2 (nruns w2) = Done out' ->
  WriteFirmware._NvidiaFlashImage self uboot bct payload w
  = (Ok true,
     after w2 [ EvProgress "Uploading flasher image" None;
                EvRun "nvflash" (nvflash_args self bct flasher) true;
                downloaded ] 1).
Proof.
  intros Hout Hlines Hname Hprep Hnv.
  unfold WriteFirmware._NvidiaFlashImage.
  unfold bind at 1. rewrite (Run_done _ _ _ _ _ Hout). cbv zeta.
  fold (boot_lines out). rewrite Hlines, Hname.
  unfold bind at 1. unfold bct_dump_run in Hprep. rewrite Hprep.
  unfold bind at 1, Output.Progress. rewrite emit_after.
  fold (nvflash_args self bct flasher).
  rewrite (nv_step_done self (nvflash_args self bct flasher) 9 None
             (after w2 [EvProgress "Uploading flasher image" None] 0) out')
    by (cbn [after replies nruns]; rewrite Nat.add_0_r; exact Hnv).
  rewrite after_after. reflexivity.
Qed.

Lemma NvidiaFlashImage_success_witness :
  fst (WriteFirmware._NvidiaFlashImage
         (Sample.self (Sample.fdt 0x00e08000 None) true true false)
         "u-boot.bin" "board.bct" "image.bin"
         (Sample.host [Done Sample.bct_dump] (Done ""))) = Ok true.
Proof.
  rewrite (NvidiaFlashImage_success
             (Sample.self (Sample.fdt 0x00e08000 None) true true false)
             "u-boot.bin" "board.bct" "image.bin"
             (Sample.host [Done Sample.bct_dump] (Done ""))
             (snd (WriteFirmware.PrepareFlasher
                     (Sample.self (Sample.fdt 0x00e08000 None) true true false)
                     "u-boot.bin" "image.bin" true false "spi" "0"
                     (after (Sample.host [Done Sample.bct_dump] (Done ""))
                            [bct_dump_run "board.bct"] 1)))
             Sample.bct_dump "DevType[0] = NvBootDevType_Spi;" "Spi"
             "out/flasher-for-image.bin" "" []).
  - reflexivity.
  - reflexivity.
  - vm_compute; reflexivity.
  - vm_compute; reflexivity.
  - apply (run_pair
             (WriteFirmware.PrepareFlasher
                (Sample.self (Sample.fdt 0x00e08000 None) true true false)
                "u-boot.bin" "image.bin" true false "spi" "0")
             (after (Sample.host [Done Sample.bct_dump] (Done ""))
                    [bct_dump_run "board.bct"] 1)).
    vm_compute; reflexivity.
  - vm_compute; reflexivity.
Defined.
